(** * bdi_api: the aircraft ingestion pipeline (s1, s4)

    A shallow embedding of [bdi_api/s1/exercise.py] and
    [bdi_api/s4/exercise.py]: the filename sequencer, the download of the
    raw files, the prepare transform over the raw directory and the SQLite
    store it fills, the query endpoints, and the staging of raw files
    through an object store. *)

From Stdlib Require Import ZArith QArith String Ascii DecimalString DecimalN Lia.
From stdpp Require Import gmap strings list sorting.

Local Open Scope string_scope.
Local Open Scope Z_scope.
Local Open Scope list_scope.

(** ** Python values *)

Module Py.

(** [str(z)] for a Python int. *)
Definition str_int (z : Z) : string := NilZero.string_of_int (Z.to_int z).

(** The decimal digits of a natural number, as [str] prints them. *)
Definition digits (n : N) : string := NilZero.string_of_uint (N.to_uint n).

(** [format(z, "02d")]: the sign, then the digits padded with zeros so that
    the whole field is at least two characters wide. *)
Definition format_02d (z : Z) : string :=
  if z <? 0 then
    "-" +:+ digits (Z.to_N (- z))
  else
    let d := digits (Z.to_N z) in
    if (String.length d <? 2)%nat then "0" +:+ d else d.

(** [range(n)]: empty when [n <= 0]. *)
Definition range (n : Z) : list Z := Z.of_nat <$> seq 0 (Z.to_nat n).

(** [s.endswith(suffix)]. *)
Definition endswith (s suffix : string) : bool :=
  bool_decide (list_ascii_of_string suffix `suffix_of` list_ascii_of_string s).

(** Whether ["/"] occurs in [s]. *)
Fixpoint has_slash (s : string) : bool :=
  match s with
  | EmptyString => false
  | String c s' => if Ascii.eqb c "/" then true else has_slash s'
  end.

(** [s.split("/")[-1]]: what follows the last ["/"], all of [s] without one. *)
Fixpoint split_slash_last (s : string) : string :=
  match s with
  | EmptyString => EmptyString
  | String c s' =>
      if has_slash s' then split_slash_last s'
      else if Ascii.eqb c "/" then s' else s
  end.

(** [s.rstrip(c)] for a single character [c]: [s] without the run of
    [c] it ends with. *)
Fixpoint rstrip (s : string) (c : ascii) : string :=
  match s with
  | EmptyString => EmptyString
  | String a s' =>
      match rstrip s' c with
      | EmptyString => if Ascii.eqb a c then EmptyString else String a EmptyString
      | r => String a r
      end
  end.

(** Whether the bytes of a [str] hold a lone surrogate.  A [str] is
    taken as the bytes of its UTF-8 encoding, extended to the lone
    surrogates [json.load] can return for an escape such as [\ud800]: a
    surrogate takes the three bytes [ED A0..BF 80..BF], a sequence UTF-8
    proper does not have (there [ED] is followed by [80..9F]). *)
Fixpoint has_surrogate (s : string) : bool :=
  match s with
  | EmptyString => false
  | String c s' =>
      match s' with
      | String c' _ =>
          ((N_of_ascii c =? 237) && (160 <=? N_of_ascii c') && (N_of_ascii c' <=? 191))%N
          || has_surrogate s'
      | EmptyString => false
      end
  end.

(** What [json.load] returns.  A [dict] keeps its items in insertion order;
    a number is an [int] or a [float]; a [float] is the rational it
    denotes, or NaN, or an infinity ([json.load] accepts the tokens [NaN],
    [Infinity] and [-Infinity], and reads a literal out of range, such as
    [1e999], as an infinity). *)
#[local] Unset Elimination Schemes.
Inductive json : Type :=
| JNull
| JBool (b : bool)
| JInt (z : Z)
| JReal (q : Q)
| JStr (s : string)
| JList (l : list json)
| JDict (d : list (string * json))
| JNaN
| JInf (negative : bool).
#[local] Set Elimination Schemes.

(** The exceptions the endpoints let escape. *)
Inductive exn : Type :=
| RuntimeError (msg : string)
| AttributeError      (* [.get] on a value that is not a dict *)
| TypeError           (* iteration over a value that is not iterable *)
| OverflowError       (* an int that does not fit SQLite's 64 bits *)
| UnicodeEncodeError  (* a str with a lone surrogate bound as a parameter *)
| Sqlite3Error        (* a parameter of a type sqlite3 cannot bind *)
| FileError           (* [open] or [json.load] failed on a raw file *)
| ClientError         (* the object store refused a request *)
| HTTPException (status_code : Z) (detail : string).

Inductive result (A : Type) : Type :=
| Ok (a : A)
| Raise (e : exn).
Global Arguments Ok {A} a.
Global Arguments Raise {A} e.

Global Instance result_ret : MRet result := fun A a => Ok a.
Global Instance result_bind : MBind result := fun A B f m =>
  match m with
  | Ok a => f a
  | Raise e => Raise e
  end.
Global Instance result_fmap : FMap result := fun A B f m =>
  match m with
  | Ok a => Ok (f a)
  | Raise e => Raise e
  end.

(** A [for] loop whose body updates a state and may raise: the first
    exception ends the loop. *)
Fixpoint for_each {A S : Type} (body : A -> S -> result S) (l : list A) (s : S)
  : result S :=
  match l with
  | [] => Ok s
  | a :: l' => s' ← body a s; for_each body l' s'
  end.

(** Lookup in the items of a dict. *)
Fixpoint dict_lookup (d : list (string * json)) (k : string) : option json :=
  match d with
  | [] => None
  | (k', v) :: d' => if String.eqb k' k then Some v else dict_lookup d' k
  end.

(** [d.get(k, default)] and [d.get(k)] (whose default is [None]). *)
Definition get_default (d : list (string * json)) (k : string) (default : json) : json :=
  match dict_lookup d k with
  | Some v => v
  | None => default
  end.
Definition get (d : list (string * json)) (k : string) : json := get_default d k JNull.

(** [bool(v)]. *)
Definition truthy (v : json) : bool :=
  match v with
  | JNull => false
  | JBool b => b
  | JInt z => negb (z =? 0)
  | JReal q => negb (Qnum q =? 0)
  | JStr s => negb (String.eqb s "")
  | JList l => match l with [] => false | _ => true end
  | JDict d => match d with [] => false | _ => true end
  | JNaN => true
  | JInf _ => true
  end.

(** [v is not None]. *)
Definition is_not_None (v : json) : bool :=
  match v with
  | JNull => false
  | _ => true
  end.

(** What [for a in v] runs over: the elements of a list, the keys of a
    dict, the characters of a str (each a str); other values are not
    iterable. *)
Definition iter (v : json) : result (list json) :=
  match v with
  | JList l => Ok l
  | JDict d => Ok ((fun kv => JStr kv.1) <$> d)
  | JStr s => Ok ((fun c => JStr (String c EmptyString)) <$> list_ascii_of_string s)
  | _ => Raise TypeError
  end.

End Py.

(** ** Reading a file name as a time of day *)

Module Hhmmss.

(** The number a field of digits denotes; no number without digits. *)
Definition field (cs : list ascii) : option Z :=
  (fun d => Z.of_N (N.of_uint d)) <$> NilZero.uint_of_string (string_of_list_ascii cs).

(** [name] read as [HH..MMSS] followed by [Z.json.gz]: the last two digits
    are the seconds, the two before them the minutes, the digits before
    those (two at least) the hours.  The result is the seconds since
    midnight. *)
Definition seconds (name : string) : option Z :=
  let cs := list_ascii_of_string name in
  let body := take (length cs - 9) cs in
  if bool_decide (drop (length cs - 9) cs = list_ascii_of_string "Z.json.gz")
     && (6 <=? length body)%nat
  then
    hh ← field (take (length body - 4) body);
    mm ← field (take 2 (drop (length body - 4) body));
    ss ← field (drop (length body - 2) body);
    if (mm <? 60) && (ss <? 60) then Some (hh * 3600 + mm * 60 + ss) else None
  else None.

End Hhmmss.

(** ** The SQLite store *)

Module Sqlite.
Import Py.

(** A value as SQLite stores it (no BLOB is ever bound here); a REAL is
    a rational or an infinity (SQLite stores no NaN). *)
Inductive sqlval : Type :=
| SNull
| SInt (z : Z)
| SReal (q : Q)
| SText (s : string)
| SInf (negative : bool).

(** A number read from a text. *)
Inductive real : Type :=
| Finite (q : Q)
| Infinite (negative : bool).

(** An [int] parameter must fit 64 signed bits. *)
Definition bind_int (z : Z) : result Z :=
  if (- 2 ^ 63 <=? z) && (z <? 2 ^ 63) then Ok z else Raise OverflowError.

(** How the sqlite3 module binds a Python parameter: [None], [int] (and
    [bool], an [int]), [float] and [str] are supported, and anything else
    raises.  A [float] NaN is bound as NULL; a [str] is encoded as UTF-8,
    which raises on a lone surrogate. *)
Definition bind (v : json) : result sqlval :=
  match v with
  | JNull => Ok SNull
  | JBool b => Ok (SInt (if b then 1 else 0))
  | JInt z => z' ← bind_int z; Ok (SInt z')
  | JReal q => Ok (SReal q)
  | JNaN => Ok SNull
  | JInf negative => Ok (SInf negative)
  | JStr s => if has_surrogate s then Raise UnicodeEncodeError else Ok (SText s)
  | JList _ | JDict _ => Raise Sqlite3Error
  end.

(** The double an integer of 64 bits becomes in a REAL column: itself up
    to 2^53, and beyond that the nearest number with 53 significant bits,
    the even one of two that are equally near. *)
Definition double_of_int (z : Z) : Z :=
  let a := Z.abs z in
  if a <? 2 ^ 53 then z
  else
    let e := Z.log2 a - 52 in
    let m := a / 2 ^ e in
    let r := a mod 2 ^ e in
    let half := 2 ^ (e - 1) in
    let m' := if (half <? r) || ((r =? half) && Z.odd m) then m + 1 else m in
    Z.sgn z * (m' * 2 ^ e).

(** The two conversions of SQLite's column affinities that are not
    defined here: the text a finite REAL is rendered as, and the number a
    text denotes when it reads as one (an infinity for a text such as
    [1e999]). *)
Record conversions : Type := {
  real_text : Q -> string;
  text_real : string -> option real;
}.

Record aircraft_row : Type := {
  icao : option string;
  registration : option string;
  type : option string;
}.

Record position_row : Type := {
  id : Z;
  p_icao : option string;
  timestamp : sqlval;
  lat : sqlval;
  lon : sqlval;
  altitude_baro : sqlval;
  ground_speed : sqlval;
  had_emergency : Z;
}.

(** The database file: the two tables of [_init_db], rows in rowid order,
    and the AUTOINCREMENT counter of [positions]. *)
Record db : Type := {
  aircraft : list aircraft_row;
  positions : list position_row;
  sqlite_sequence : Z;
}.

Global Instance aircraft_row_eq_dec : EqDecision aircraft_row.
Proof. solve_decision. Defined.

Section Statements.
Variable cv : conversions.

(** A value stored in a TEXT column ([None] is NULL): numbers become
    their text, an infinity [Inf] or [-Inf]. *)
Definition text_affinity (v : sqlval) : option string :=
  match v with
  | SNull => None
  | SInt z => Some (str_int z)
  | SReal q => Some (real_text cv q)
  | SText s => Some s
  | SInf negative => Some (if negative then "-Inf" else "Inf")
  end.

(** A value stored in a REAL column: integers become doubles, and so
    does a text that reads as a number. *)
Definition real_affinity (v : sqlval) : sqlval :=
  match v with
  | SNull => SNull
  | SInt z => SReal (inject_Z (double_of_int z))
  | SReal q => SReal q
  | SInf negative => SInf negative
  | SText s =>
      match text_real cv s with
      | Some (Finite q) => SReal q
      | Some (Infinite negative) => SInf negative
      | None => SText s
      end
  end.

(** The row that conflicts with key [k] is updated in place; without
    one the new row goes last.  A NULL key conflicts with nothing. *)
Fixpoint upsert (rows : list aircraft_row) (k : option string)
    (reg ty : option string) : list aircraft_row :=
  match rows with
  | [] => [ {| icao := k; registration := reg; type := ty |} ]
  | r :: rows' =>
      if bool_decide (is_Some k /\ icao r = k)
      then {| icao := icao r; registration := reg; type := ty |} :: rows'
      else r :: upsert rows' k reg ty
  end.

(** [INSERT INTO aircraft ... ON CONFLICT(icao) DO UPDATE SET
    registration = excluded.registration, type = excluded.type]. *)
Definition upsert_aircraft (d : db) (icao_ registration_ ac_type : json)
  : result db :=
  k ← bind icao_;
  reg ← bind registration_;
  ty ← bind ac_type;
  Ok {| aircraft := upsert (aircraft d) (text_affinity k)
                      (text_affinity reg) (text_affinity ty);
        positions := positions d;
        sqlite_sequence := sqlite_sequence d |}.

(** [INSERT INTO positions (icao, timestamp, lat, lon, altitude_baro,
    ground_speed, had_emergency) VALUES (?, ?, ?, ?, ?, ?, ?)]: the id
    is one more than the counter. *)
Definition insert_position (d : db)
    (icao_ timestamp_ lat_ lon_ alt gs : json) (emergency : Z) : result db :=
  k ← bind icao_;
  ts ← bind timestamp_;
  la ← bind lat_;
  lo ← bind lon_;
  al ← bind alt;
  g ← bind gs;
  let rowid := sqlite_sequence d + 1 in
  Ok {| aircraft := aircraft d;
        positions := positions d ++
          [ {| id := rowid;
               p_icao := text_affinity k;
               timestamp := real_affinity ts;
               lat := real_affinity la;
               lon := real_affinity lo;
               altitude_baro := real_affinity al;
               ground_speed := real_affinity g;
               had_emergency := emergency |} ];
        sqlite_sequence := rowid |}.

End Statements.

(** The order of [ORDER BY icao ASC]: NULL first, then texts byte by byte. *)
Definition icao_le (r1 r2 : aircraft_row) : Prop :=
  match icao r1, icao r2 with
  | None, _ => True
  | Some _, None => False
  | Some a, Some b => String.le a b
  end.

Global Instance icao_le_dec : RelDecision icao_le.
Proof. intros r1 r2. unfold icao_le. destruct (icao r1), (icao r2); apply _. Defined.

(** [LIMIT ? OFFSET ?]: a negative offset is none, a negative limit is
    no limit. *)
Definition limit_offset {A : Type} (limit offset : Z) (rows : list A) : list A :=
  let rest := drop (Z.to_nat offset) rows in
  if limit <? 0 then rest else take (Z.to_nat limit) rest.

(** [SELECT icao, registration, type FROM aircraft ORDER BY icao ASC
    LIMIT ? OFFSET ?]. *)
Definition select_aircraft (d : db) (limit offset : Z)
  : result (list aircraft_row) :=
  l ← bind_int limit;
  o ← bind_int offset;
  Ok (limit_offset l o (merge_sort icao_le (aircraft d))).

(** The database [_init_db] creates: both tables empty. *)
Definition empty_db : db :=
  {| aircraft := []; positions := []; sqlite_sequence := 0 |}.

End Sqlite.

(** ** The files of a run *)

Module Files.

(** A raw file, as [open] and [json.load] see it: [None] when either
    raises (unreadable, not UTF-8, not JSON). *)
Definition file : Type := option Py.json.

(** The local state the endpoints share: the entries of
    [<raw_dir>/day=20231101] by name (empty when the directory is
    missing), and [<prepared_dir>/day=20231101/aircraft.sqlite] when it
    exists. *)
Record world : Type := {
  raw_day_dir : gmap string file;
  prepared_db : option Sqlite.db;
}.

(** [sorted(dir.glob("*.json.gz"))]: the entries whose name ends in
    [.json.gz], by ascending name. *)
Definition by_name (e1 e2 : string * file) : Prop := String.le e1.1 e2.1.

Global Instance by_name_dec : RelDecision by_name.
Proof. intros e1 e2. unfold by_name. apply _. Defined.

Definition sorted_glob (dir : gmap string file) : list (string * file) :=
  merge_sort by_name
    (map_to_list (filter (fun e => Py.endswith e.1 ".json.gz" = true) dir)).

End Files.

(** ** The remote archive *)

Module Requests.
Import Files.

(** What [requests.get(url, ...)] returns once redirects are followed: the
    status code and the content, the latter taken as the file it is once
    written to disk. *)
Record response : Type := {
  status_code : Z;
  content : file;
}.

Inductive error : Type :=
| RequestException        (* [get] itself failed: no connection, a timeout *)
| HTTPError (status : Z). (* [raise_for_status] on a 4xx or a 5xx *)

(** A server: the answer to a GET of each URL, [None] when the request
    itself raises. *)
Definition server : Type := string -> option response.

(** [r.raise_for_status()]. *)
Definition raise_for_status (r : response) : option error :=
  if (400 <=? status_code r) && (status_code r <? 600)
  then Some (HTTPError (status_code r))
  else None.

(** [r = requests.get(url, ...); r.raise_for_status(); r.content]. *)
Definition fetch (srv : server) (url : string) : error + file :=
  match srv url with
  | None => inl RequestException
  | Some r =>
      match raise_for_status r with
      | Some e => inl e
      | None => inr (content r)
      end
  end.

End Requests.

(** ** s1: prepare and the query endpoints *)

Module S1.
Import Py Sqlite Files.

(** The body of the loop of [_first_n_filenames]: the name of file [i]. *)
Definition filename (i : Z) : string :=
  let total_seconds := i * 5 in
  let hh := total_seconds / 3600 in
  let mm := (total_seconds mod 3600) / 60 in
  let ss := total_seconds mod 60 in
  format_02d hh +:+ format_02d mm +:+ format_02d ss +:+ "Z.json.gz".

(** [_first_n_filenames]: [out] starts empty and every iteration appends. *)
Definition _first_n_filenames (file_limit : Z) : list string :=
  foldl (fun out i => out ++ [filename i]) [] (range file_limit).

(** The URL of the day in [download_data]: the source URL without its
    trailing slashes, then the date. *)
Definition day_url (source_url : string) : string :=
  rstrip source_url "/" +:+ "/2023/11/01/".

(** The loop of [download_data]: each name is fetched and written under
    the raw directory; the first failure ends the loop and leaves what was
    written before it. *)
Fixpoint fetch_files (srv : Requests.server) (day_url_ : string) (names : list string)
    (dir : gmap string file) : option Requests.error * gmap string file :=
  match names with
  | [] => (None, dir)
  | fname :: names' =>
      match Requests.fetch srv (day_url_ +:+ fname) with
      | inr body => fetch_files srv day_url_ names' (<[fname := body]> dir)
      | inl e => (Some e, dir)
      end
  end.

(** [download_data]: the raw directory is emptied first; the prepared
    directory is not touched. *)
Definition download_data (srv : Requests.server) (source_url : string) (file_limit : Z)
    (w : world) : (Requests.error + string) * world :=
  let '(failure, dir) :=
    fetch_files srv (day_url source_url) (_first_n_filenames file_limit) ∅ in
  (match failure with Some e => inl e | None => inr "OK" end,
   {| raw_day_dir := dir; prepared_db := prepared_db w |}).

Section Prepare.
Variable cv : conversions.

(** The body of the inner loop of [prepare_data]: one observation [a]
    of a snapshot captured at [timestamp_]. *)
Definition process_observation (timestamp_ : json) (a : json) (d : db)
  : result db :=
  match a with
  | JDict a =>
      let icao_ := get a "hex" in
      if negb (truthy icao_) then Ok d
      else
        let registration_ := get a "r" in
        let ac_type := get a "t" in
        let lat_ := get a "lat" in
        let lon_ := get a "lon" in
        let alt := get a "alt_baro" in
        let gs := get a "gs" in
        let emergency := if truthy (get a "emergency") then 1 else 0 in
        d ← upsert_aircraft cv d icao_ registration_ ac_type;
        if is_not_None lat_ && is_not_None lon_
        then insert_position cv d icao_ timestamp_ lat_ lon_ alt gs emergency
        else Ok d
  | _ => Raise AttributeError
  end.

(** The body of the outer loop: one raw file. *)
Definition process_file (fp : string * file) (d : db) : result db :=
  match fp.2 with
  | None => Raise FileError
  | Some (JDict payload) =>
      let timestamp_ := get_default payload "now" (JReal 0) in
      aircraft_ ← iter (get_default payload "aircraft" (JList []));
      for_each (process_observation timestamp_) aircraft_ d
  | Some _ => Raise AttributeError
  end.

(** [prepare_data]: the response (or the exception) and the files it
    leaves.  The prepared directory is emptied first; the rows are
    committed once, after the last file, so a run that raises leaves the
    database as [_init_db] made it. *)
Definition prepare_data (w : world) : result string * world :=
  let cleaned := {| raw_day_dir := raw_day_dir w; prepared_db := None |} in
  let raw_files := sorted_glob (raw_day_dir w) in
  match raw_files with
  | [] => (Raise (RuntimeError "No raw files found. Run download first."), cleaned)
  | _ =>
      match for_each process_file raw_files empty_db with
      | Ok d => (Ok "OK", {| raw_day_dir := raw_day_dir w; prepared_db := Some d |})
      | Raise e =>
          (Raise e, {| raw_day_dir := raw_day_dir w; prepared_db := Some empty_db |})
      end
  end.

End Prepare.

(** [dict(r)] for a row of the aircraft query. *)
Definition text_value (v : option string) : json :=
  match v with
  | None => JNull
  | Some s => JStr s
  end.

Definition row_dict (r : aircraft_row) : json :=
  JDict [ ("icao", text_value (icao r));
          ("registration", text_value (registration r));
          ("type", text_value (type r)) ].

(** [list_aircraft]. *)
Definition list_aircraft (w : world) (num_results page : Z) : result (list json) :=
  match prepared_db w with
  | None =>
      Raise (HTTPException 400
        "Prepared database not found. Run /api/s1/aircraft/prepare first.")
  | Some d =>
      let offset := page * num_results in
      match select_aircraft d num_results offset with
      | Ok rows => Ok (row_dict <$> rows)
      | Raise e => Raise e
      end
  end.

(** [get_aircraft_position]: the body is the placeholder of the source; it
    reads no file. *)
Definition get_aircraft_position (w : world) (icao_ : string) (num_results page : Z)
  : list json :=
  [ JDict [ ("timestamp", JReal (16092758986 # 10));
            ("lat", JReal (30404617 # 1000000));
            ("lon", JReal (- 86476566 # 1000000)) ] ].

(** [get_aircraft_statistics]: the body is the placeholder of the source;
    it reads no file. *)
Definition get_aircraft_statistics (w : world) (icao_ : string) : json :=
  JDict [ ("max_altitude_baro", JInt 300000);
          ("max_ground_speed", JInt 493);
          ("had_emergency", JBool false) ].

End S1.

(** ** s4: the raw files staged through an object store *)

Module S3.
Import Files.

(** A bucket is its objects by key, a [gmap string file]. *)

(** The most keys one listing returns. *)
Definition MaxKeys : nat := 1000.

Record response : Type := {
  Contents : list string;
  IsTruncated : bool;
  NextContinuationToken : option nat;
}.

(** The keys that start with [prefix], in the ascending order the service
    lists them in. *)
Definition keys_with_prefix (b : gmap string file) (prefix : string) : list string :=
  merge_sort String.le (filter (fun k => String.prefix prefix k = true) (map_to_list b).*1).

(** [list_objects_v2(Bucket, Prefix[, ContinuationToken])]: one page of at
    most [MaxKeys] keys; the token is where the next page starts. *)
Definition list_objects_v2 (b : gmap string file) (prefix : string) (token : option nat)
  : response :=
  let start := default 0%nat token in
  let rest := drop start (keys_with_prefix b prefix) in
  let truncated := (MaxKeys <? length rest)%nat in
  {| Contents := take MaxKeys rest;
     IsTruncated := truncated;
     NextContinuationToken := if truncated then Some (start + MaxKeys)%nat else None |}.

End S3.

Module S4.
Import Py Sqlite Files S3.

Definition S3_PREFIX : string := "raw/day=20231101/".

(** The body of the loop of [_first_n_filenames]. *)
Definition filename (i : Z) : string :=
  let total_seconds := i * 5 in
  let hh := total_seconds / 3600 in
  let mm := (total_seconds mod 3600) / 60 in
  let ss := total_seconds mod 60 in
  format_02d hh +:+ format_02d mm +:+ format_02d ss +:+ "Z.json.gz".

Definition _first_n_filenames (file_limit : Z) : list string :=
  foldl (fun out i => out ++ [filename i]) [] (range file_limit).

(** [_day_url]: the source URL without its trailing slashes, with
    [/readsb-hist] added unless it ends with it, then the date. *)
Definition _day_url (source_url : string) : string :=
  let base := rstrip source_url "/" in
  if endswith base "/readsb-hist"
  then base +:+ "/2023/11/01/"
  else base +:+ "/readsb-hist/2023/11/01/".

(** The loop of [download_data]: each name is fetched and put in the
    bucket (one that exists and accepts the write) under the prefix; the
    first failure ends the loop. *)
Fixpoint put_files (srv : Requests.server) (day_url : string) (names : list string)
    (b : gmap string file) : option Requests.error * gmap string file :=
  match names with
  | [] => (None, b)
  | fname :: names' =>
      match Requests.fetch srv (day_url +:+ fname) with
      | inr body => put_files srv day_url names' (<[S3_PREFIX +:+ fname := body]> b)
      | inl e => (Some e, b)
      end
  end.

(** [download_data]: nothing is deleted from the bucket. *)
Definition download_data (srv : Requests.server) (source_url : string) (file_limit : Z)
    (b : gmap string file) : (Requests.error + string) * gmap string file :=
  let '(failure, b') :=
    put_files srv (_day_url source_url) (_first_n_filenames file_limit) b in
  (match failure with Some e => inl e | None => inr "OK" end, b').

(** The test of the listing loop: a key is kept unless it ends in ["/"] or
    does not end in [.json.gz]. *)
Definition kept (key : string) : bool :=
  negb (endswith key "/" || negb (endswith key ".json.gz")).

(** The [while True] loop of [prepare_data] that lists the bucket, one
    iteration per unit of [fuel]: [None] when the fuel runs out before the
    loop breaks. *)
Fixpoint list_keys (b : gmap string file) (fuel : nat) (token : option nat) (keys : list string)
  : option (list string) :=
  match fuel with
  | O => None
  | S fuel' =>
      let resp := list_objects_v2 b S3_PREFIX token in
      let keys := keys ++ filter (fun key => kept key = true) (Contents resp) in
      if IsTruncated resp
      then list_keys b fuel' (NextContinuationToken resp) keys
      else Some keys
  end.

(** The download loop: [download_file(bucket, key, local_raw_day_dir /
    fname)] for each key in turn; a key the bucket does not hold raises
    and leaves the files copied so far. *)
Fixpoint download_all (b : gmap string file) (keys : list string)
    (dir : gmap string file) : result unit * gmap string file :=
  match keys with
  | [] => (Ok tt, dir)
  | key :: keys' =>
      let fname := split_slash_last key in
      match b !! key with
      | Some body => download_all b keys' (<[fname := body]> dir)
      | None => (Raise ClientError, dir)
      end
  end.

(** The bucket holds under the prefix the archive files of the directory
    [dir], each under the prefix followed by its name, and no other
    archive: what the download of s4 leaves in an empty bucket where the
    download of s1 leaves [dir]. *)
Definition mirrors (b dir : gmap string file) : Prop :=
  (forall key body,
     b !! key = Some body ->
     String.prefix S3_PREFIX key = true ->
     endswith key ".json.gz" = true ->
     exists name,
       key = S3_PREFIX +:+ name /\ has_slash name = false /\ dir !! name = Some body) /\
  (forall name body,
     dir !! name = Some body ->
     endswith name ".json.gz" = true ->
     b !! (S3_PREFIX +:+ name) = Some body).

Section Prepare.
Variable cv : conversions.

(** [prepare_data]: the local raw directory is emptied, refilled from
    the bucket, and [s1]'s [prepare_data] runs on it. *)
Definition prepare_data (fuel : nat) (b : gmap string file) (w : world)
  : option (result string * world) :=
  keys ← list_keys b fuel None [];
  let keys := merge_sort String.le keys in
  match download_all b keys ∅ with
  | (Ok _, dir) =>
      Some (S1.prepare_data cv {| raw_day_dir := dir; prepared_db := prepared_db w |})
  | (Raise e, dir) =>
      Some (Raise e, {| raw_day_dir := dir; prepared_db := prepared_db w |})
  end.

End Prepare.

End S4.

(** ** Sample inputs *)

Module Samples.
Import Py Sqlite Files.

(** A choice of the two conversions that are left open: it matters only
    for a number stored in a TEXT column or a text in a REAL one, and the
    samples have neither. *)
Definition conversions0 : conversions :=
  {| real_text := fun _ => ""; text_real := fun _ => None |}.

(** One snapshot with three observations: one with everything, one
    without [lat], one without [hex]. *)
Definition snapshot1 : json :=
  JDict [ ("now", JReal 1698796800);
          ("aircraft", JList [
             JDict [ ("hex", JStr "abc1"); ("r", JStr "EC-MAA"); ("t", JStr "A320");
                     ("lat", JReal (403 # 10)); ("lon", JReal (- 35 # 10));
                     ("alt_baro", JInt 36000); ("gs", JReal (4501 # 10)) ];
             JDict [ ("hex", JStr "abc2"); ("lat", JNull); ("lon", JReal (21 # 10)) ];
             JDict [ ("r", JStr "N123"); ("lat", JReal 1); ("lon", JReal 2) ] ]) ].

(** A later snapshot that sees [abc1] again, without registration or type. *)
Definition snapshot2 : json :=
  JDict [ ("now", JReal 1698796805);
          ("aircraft", JList [
             JDict [ ("hex", JStr "abc1"); ("lat", JReal (404 # 10));
                     ("lon", JReal (- 36 # 10)); ("emergency", JStr "general") ] ]) ].

(** A raw directory with the two snapshots and a stray file. *)
Definition raw2 : gmap string file :=
  <["000005Z.json.gz" := Some snapshot2]>
    (<["000000Z.json.gz" := Some snapshot1]> (<["notes.txt" := None]> ∅)).

Definition world2 : world := {| raw_day_dir := raw2; prepared_db := None |}.

(** No raw file at all. *)
Definition world0 : world := {| raw_day_dir := ∅; prepared_db := Some empty_db |}.

(** The bucket the download of s4 would leave for the same two snapshots,
    with an object that is not under the prefix and one that is no
    archive. *)
Definition bucket2 : gmap string file :=
  <["raw/day=20231101/000005Z.json.gz" := Some snapshot2]>
    (<["raw/day=20231101/000000Z.json.gz" := Some snapshot1]>
       (<["raw/day=20231101/README" := None]>
          (<["other/000010Z.json.gz" := None]> ∅))).

(** A server that has the first two files of the day under one source
    URL, and answers 404 to anything else. *)
Definition server2 : Requests.server := fun url =>
  if String.eqb url "http://host/readsb-hist/2023/11/01/000000Z.json.gz"
  then Some {| Requests.status_code := 200; Requests.content := Some snapshot1 |}
  else if String.eqb url "http://host/readsb-hist/2023/11/01/000005Z.json.gz"
  then Some {| Requests.status_code := 200; Requests.content := Some snapshot2 |}
  else Some {| Requests.status_code := 404; Requests.content := None |}.

(** Twelve aircraft rows, inserted in descending icao order. *)
Definition twelve : db :=
  {| aircraft :=
       (fun k => {| icao := Some k; registration := None; type := None |}) <$>
         ["a12"; "a11"; "a10"; "a09"; "a08"; "a07"; "a06"; "a05"; "a04"; "a03";
          "a02"; "a01"];
     positions := [];
     sqlite_sequence := 0 |}.

(** The three positions of the statistics example of the specification,
    for one aircraft. *)
Definition three_positions : db :=
  {| aircraft := [ {| icao := Some "abc1"; registration := None; type := None |} ];
     positions :=
       [ {| id := 1; p_icao := Some "abc1"; timestamp := SReal 1; lat := SReal 0;
            lon := SReal 0; altitude_baro := SReal 100; ground_speed := SReal 50;
            had_emergency := 0 |};
         {| id := 2; p_icao := Some "abc1"; timestamp := SReal 2; lat := SReal 0;
            lon := SReal 0; altitude_baro := SReal 300; ground_speed := SReal 20;
            had_emergency := 1 |};
         {| id := 3; p_icao := Some "abc1"; timestamp := SReal 3; lat := SReal 0;
            lon := SReal 0; altitude_baro := SReal 200; ground_speed := SReal 10;
            had_emergency := 0 |} ];
     sqlite_sequence := 3 |}.

End Samples.

(** * Properties *)

(** ** The filename sequencer *)

Module SequencerFacts.
Import Py.

Lemma list_ascii_app (a b : string) :
  list_ascii_of_string (a +:+ b) = list_ascii_of_string a ++ list_ascii_of_string b.
Proof. induction a as [|c a IH]; simpl; [done | by rewrite IH]. Qed.

Lemma to_uint_nonnil (n : N) : N.to_uint n <> Decimal.Nil.
Proof.
  destruct n as [|p]; simpl; [discriminate |].
  apply DecimalPos.Unsigned.to_uint_nonnil.
Qed.

(** The digits of a number read back as that number. *)
Lemma field_digits (n : N) :
  Hhmmss.field (list_ascii_of_string (digits n)) = Some (Z.of_N n).
Proof.
  unfold Hhmmss.field, digits.
  rewrite string_of_list_ascii_of_string, NilZero.usu by apply to_uint_nonnil.
  simpl. by rewrite DecimalN.Unsigned.of_to.
Qed.

Lemma digits_nonempty (n : N) : digits n <> "".
Proof.
  intros E. pose proof (field_digits n) as H. rewrite E in H. discriminate.
Qed.

(** A padded field reads back as the number, and is two characters wide
    at least. *)
Lemma field_format_02d (z : Z) :
  0 <= z -> Hhmmss.field (list_ascii_of_string (format_02d z)) = Some z.
Proof.
  intros Hz. unfold format_02d.
  destruct (Z.ltb_spec z 0) as [|_]; [lia |].
  pose proof (field_digits (Z.to_N z)) as H. rewrite Z2N.id in H by done.
  destruct (_ <? _)%nat; [| done].
  pose proof (digits_nonempty (Z.to_N z)) as Hne.
  destruct (digits (Z.to_N z)) as [|c s]; [done |].
  change ("0" +:+ String c s) with (String "0" (String c s)).
  revert H. unfold Hhmmss.field.
  rewrite !string_of_list_ascii_of_string. unfold NilZero.uint_of_string.
  change (NilEmpty.uint_of_string (String "0" (String c s)))
    with (uint_of_char "0" (NilEmpty.uint_of_string (String c s))).
  generalize (NilEmpty.uint_of_string (String c s)).
  intros [d|]; simpl; [| done]. by intros [= <-].
Qed.

Lemma length_format_02d_ge (z : Z) :
  (2 <= length (list_ascii_of_string (format_02d z)))%nat.
Proof.
  unfold format_02d. destruct (z <? 0).
  - pose proof (digits_nonempty (Z.to_N (- z))) as Hne.
    destruct (digits _); [done |]. simpl. lia.
  - pose proof (digits_nonempty (Z.to_N z)) as Hne.
    destruct (Nat.ltb_spec (String.length (digits (Z.to_N z))) 2) as [Hlt|Hge].
    + destruct (digits _); [done |]. simpl. lia.
    + revert Hge. generalize (digits (Z.to_N z)). intros s.
      assert (String.length s = length (list_ascii_of_string s)) as ->; [| done].
      induction s; simpl; congruence.
Qed.

Lemma length_format_02d_small (z : Z) :
  0 <= z < 100 -> length (list_ascii_of_string (format_02d z)) = 2%nat.
Proof.
  intros Hz.
  assert (Forall (fun n => length (list_ascii_of_string (format_02d (Z.of_nat n))) = 2%nat)
            (seq 0 100)) as Hall.
  { apply (bool_decide_eq_true _). by vm_compute. }
  rewrite Forall_forall in Hall.
  specialize (Hall (Z.to_nat z)). rewrite Z2Nat.id in Hall by lia.
  apply Hall, elem_of_seq. lia.
Qed.

(** The name of file [i] reads as [i * 5] seconds past midnight. *)
Lemma seconds_filename (i : Z) : 0 <= i -> Hhmmss.seconds (S1.filename i) = Some (i * 5).
Proof.
  intros Hi. unfold Hhmmss.seconds, S1.filename.
  set (t := i * 5).
  assert (0 <= t / 3600) as Hhh by (apply Z.div_pos; lia).
  assert (0 <= t mod 3600 / 60 < 60) as Hmm.
  { pose proof (Z.mod_pos_bound t 3600).
    split; [apply Z.div_pos; lia | apply Z.div_lt_upper_bound; lia]. }
  assert (0 <= t mod 60 < 60) as Hss by (apply Z.mod_pos_bound; lia).
  rewrite !list_ascii_app.
  pose proof (field_format_02d _ Hhh) as Fh.
  pose proof (field_format_02d (t mod 3600 / 60) ltac:(lia)) as Fm.
  pose proof (field_format_02d (t mod 60) ltac:(lia)) as Fs.
  pose proof (length_format_02d_ge (t / 3600)) as Lh.
  pose proof (length_format_02d_small (t mod 3600 / 60) ltac:(lia)) as Lm.
  pose proof (length_format_02d_small (t mod 60) ltac:(lia)) as Ls.
  revert Fh Fm Fs Lh Lm Ls.
  generalize (list_ascii_of_string (format_02d (t / 3600))) as H.
  generalize (list_ascii_of_string (format_02d (t mod 3600 / 60))) as M.
  generalize (list_ascii_of_string (format_02d (t mod 60))) as S.
  intros S M H Fh Fm Fs Lh Lm Ls.
  set (E := list_ascii_of_string "Z.json.gz").
  assert (length E = 9%nat) as LE by done.
  replace (H ++ M ++ S ++ E) with ((H ++ M ++ S) ++ E) by by rewrite <- !(assoc_L (++)).
  assert (length (H ++ M ++ S) = (length H + 4)%nat) as LB
    by (rewrite !length_app; lia).
  replace (length ((H ++ M ++ S) ++ E) - 9)%nat with (length (H ++ M ++ S))
    by (rewrite (length_app _ E); lia).
  rewrite take_app_length, drop_app_length.
  rewrite bool_decide_eq_true_2 by done.
  destruct (Nat.leb_spec 6 (length (H ++ M ++ S))) as [_|]; [| lia].
  simpl andb. cbv iota.
  replace (length (H ++ M ++ S) - 4)%nat with (length H) by lia.
  rewrite take_app_length, drop_app_length.
  replace (take 2 (M ++ S)) with M by (by rewrite take_app_length').
  replace (length (H ++ M ++ S) - 2)%nat with (length (H ++ M)) by (rewrite length_app; lia).
  rewrite (assoc_L (++) H M S), drop_app_length.
  rewrite Fh, Fm, Fs. simpl.
  destruct (Z.ltb_spec (t mod 3600 / 60) 60); [| lia].
  destruct (Z.ltb_spec (t mod 60) 60); [| lia].
  simpl. f_equal.
  pose proof (Z.div_mod t 3600 ltac:(lia)).
  pose proof (Z.div_mod (t mod 3600) 60 ltac:(lia)).
  assert (t mod 3600 mod 60 = t mod 60) as Hmod.
  { apply Z.mod_mod_divide. exists 60. lia. }
  lia.
Qed.

Lemma first_n_filenames_fmap (n : Z) :
  S1._first_n_filenames n = S1.filename <$> range n.
Proof.
  unfold S1._first_n_filenames.
  assert (forall l out,
    foldl (fun out i => out ++ [S1.filename i]) out l = out ++ (S1.filename <$> l)) as H.
  { induction l as [|i l IH]; intros out; simpl; [by rewrite app_nil_r |].
    by rewrite IH, <- (assoc_L (++)). }
  apply H.
Qed.

Lemma lookup_range (n : Z) (i : nat) :
  (i < Z.to_nat n)%nat -> range n !! i = Some (Z.of_nat i).
Proof.
  intros Hi. unfold range. rewrite list_lookup_fmap, lookup_seq_lt by done. done.
Qed.

(** C3: for a count [n >= 0] the sequencer (of s1, and of s4, which is the
    same function) returns exactly [n] names; the name at index [i] is the
    three fields [i*5 / 3600], [i*5 mod 3600 / 60] and [i*5 mod 60], each
    padded with zeros to two digits, followed by [Z.json.gz]; read as
    HH:MM:SS it is [i*5] seconds past midnight, so the names start at
    00:00:00 and increase strictly; and the names at indices 0, 1 and 12
    are 000000Z, 000005Z and 000100Z. *)
Theorem first_n_filenames_correct (n : Z) :
  0 <= n ->
  S4._first_n_filenames n = S1._first_n_filenames n /\
  Z.of_nat (length (S1._first_n_filenames n)) = n /\
  (forall i : Z, 0 <= i < n ->
     S1._first_n_filenames n !! Z.to_nat i =
       Some (format_02d (i * 5 / 3600) +:+ format_02d ((i * 5) mod 3600 / 60) +:+
             format_02d ((i * 5) mod 60) +:+ "Z.json.gz") /\
     (Hhmmss.seconds <$> S1._first_n_filenames n !! Z.to_nat i) = Some (Some (i * 5))) /\
  (forall (i j : nat) (a b : string),
     (i < j)%nat ->
     S1._first_n_filenames n !! i = Some a ->
     S1._first_n_filenames n !! j = Some b ->
     exists s t, Hhmmss.seconds a = Some s /\ Hhmmss.seconds b = Some t /\ s < t) /\
  (0 < n -> S1._first_n_filenames n !! 0%nat = Some "000000Z.json.gz") /\
  (1 < n -> S1._first_n_filenames n !! 1%nat = Some "000005Z.json.gz") /\
  (12 < n -> S1._first_n_filenames n !! 12%nat = Some "000100Z.json.gz").
Proof.
  intros Hn.
  assert (forall i : nat, (i < Z.to_nat n)%nat ->
            S1._first_n_filenames n !! i = Some (S1.filename (Z.of_nat i))) as Hat.
  { intros i Hi. by rewrite first_n_filenames_fmap, list_lookup_fmap, lookup_range. }
  assert (length (S1._first_n_filenames n) = Z.to_nat n) as Hlen.
  { rewrite first_n_filenames_fmap. unfold range.
    by rewrite !length_fmap, length_seq. }
  split; [done |]. split; [rewrite Hlen; lia |].
  split; [| split; [| split; [| split]]].
  - intros i Hi. rewrite Hat by lia. rewrite Z2Nat.id by lia.
    split; [done |]. simpl. by rewrite seconds_filename by lia.
  - intros i j a b Hij Ha Hb.
    assert (j < Z.to_nat n)%nat as Hj.
    { rewrite <- Hlen. by eapply lookup_lt_Some. }
    rewrite Hat in Ha, Hb by lia. injection Ha as <-. injection Hb as <-.
    exists (Z.of_nat i * 5), (Z.of_nat j * 5).
    rewrite !seconds_filename by lia. repeat split; lia.
  - intros H0. by rewrite Hat by lia.
  - intros H1. by rewrite Hat by lia.
  - intros H12. by rewrite Hat by lia.
Qed.

Lemma first_n_filenames_correct_witness :
  0 <= 13 /\
  S1._first_n_filenames 13 !! 12%nat = Some "000100Z.json.gz".
Proof.
  split; [lia |].
  apply (first_n_filenames_correct 13); lia.
Defined.

End SequencerFacts.

(** ** The aircraft upsert *)

Module UpsertFacts.
Import Py Sqlite.

Lemma upsert_fresh (rows : list aircraft_row) (k : string) (reg ty : option string) :
  Forall (fun r => icao r <> Some k) rows ->
  upsert rows (Some k) reg ty =
    rows ++ [ {| icao := Some k; registration := reg; type := ty |} ].
Proof.
  induction 1 as [|r rows Hr _ IH]; simpl; [done |].
  rewrite bool_decide_eq_false_2 by (intros [_ ?]; done).
  by rewrite IH.
Qed.

Lemma upsert_conflict (l1 l2 : list aircraft_row) (r : aircraft_row) (k : string)
    (reg ty : option string) :
  Forall (fun r' => icao r' <> Some k) l1 ->
  icao r = Some k ->
  upsert (l1 ++ r :: l2) (Some k) reg ty =
    l1 ++ {| icao := Some k; registration := reg; type := ty |} :: l2.
Proof.
  intros Hl1 Hr. induction Hl1 as [|r' l1 Hr' _ IH]; simpl.
  - rewrite bool_decide_eq_true_2 by (split; [by eexists | done]).
    by rewrite Hr.
  - rewrite bool_decide_eq_false_2 by (intros [_ ?]; done).
    by rewrite IH.
Qed.

(** Every table splits at the first row that holds the key, if any. *)
Lemma split_at_key (rows : list aircraft_row) (k : string) :
  Forall (fun r => icao r <> Some k) rows \/
  exists l1 r l2, rows = l1 ++ r :: l2 /\
    Forall (fun r' => icao r' <> Some k) l1 /\ icao r = Some k.
Proof.
  induction rows as [|r rows IH]; [by left |].
  destruct (decide (icao r = Some k)) as [Hr|Hr].
  - right. by exists [], r, rows.
  - destruct IH as [IH|(l1 & r' & l2 & -> & Hl1 & Hr')].
    + left. by constructor.
    + right. exists (r :: l1), r', l2. repeat split; [| done]. by constructor.
Qed.

(** The keys of the table after an upsert: the same, or one more. *)
Lemma upsert_keys (rows : list aircraft_row) (k : string) (reg ty : option string) :
  icao <$> upsert rows (Some k) reg ty =
    if bool_decide (Some k ∈ icao <$> rows) then icao <$> rows
    else (icao <$> rows) ++ [Some k].
Proof.
  destruct (split_at_key rows k) as [Hf|(l1 & r & l2 & -> & Hl1 & Hr)].
  - rewrite upsert_fresh by done.
    rewrite bool_decide_eq_false_2, fmap_app; [done |].
    intros (r & Hr & Hin)%list_elem_of_fmap.
    rewrite Forall_forall in Hf. by apply (Hf r).
  - rewrite upsert_conflict by done.
    rewrite bool_decide_eq_true_2.
    + rewrite !fmap_app, !fmap_cons. simpl. by rewrite Hr.
    + apply list_elem_of_fmap. exists r. split; [done |].
      apply elem_of_app. right. left.
Qed.

Lemma upsert_NoDup (rows : list aircraft_row) (k : string) (reg ty : option string) :
  NoDup (icao <$> rows) -> NoDup (icao <$> upsert rows (Some k) reg ty).
Proof.
  intros Hnd. rewrite upsert_keys. case_bool_decide as Hin; [done |].
  apply NoDup_app. repeat split; [done | | apply NoDup_singleton].
  intros x Hx ->%list_elem_of_singleton. done.
Qed.

(** A NULL key conflicts with no row: the new row goes last. *)
Lemma upsert_null (rows : list aircraft_row) (reg ty : option string) :
  upsert rows None reg ty =
    rows ++ [ {| icao := None; registration := reg; type := ty |} ].
Proof.
  induction rows as [|r rows IH]; simpl; [done |]. by rewrite IH.
Qed.

(** The keys after an upsert: those before, and the key of the upsert. *)
Lemma upsert_key_elem (rows : list aircraft_row) (key : option string)
    (reg ty : option string) (x : option string) :
  x ∈ icao <$> upsert rows key reg ty <-> x ∈ icao <$> rows \/ x = key.
Proof.
  destruct key as [k|].
  - rewrite upsert_keys. case_bool_decide as Hin.
    + split; [by left | by intros [?| ->]].
    + rewrite elem_of_app, list_elem_of_singleton. done.
  - rewrite upsert_null, fmap_app, elem_of_app. simpl.
    by rewrite list_elem_of_singleton.
Qed.

(** The keys before an upsert stay the first keys after it. *)
Lemma upsert_keys_prefix (rows : list aircraft_row) (key : option string)
    (reg ty : option string) :
  (icao <$> rows) `prefix_of` (icao <$> upsert rows key reg ty).
Proof.
  destruct key as [k|].
  - rewrite upsert_keys. case_bool_decide; [done | by apply prefix_app_r].
  - rewrite upsert_null, fmap_app. by apply prefix_app_r.
Qed.

(** No text occurs twice among the keys after an upsert when none did
    before; the rows without a key do not count. *)
Lemma upsert_NoDup_omap (rows : list aircraft_row) (key : option string)
    (reg ty : option string) :
  NoDup (omap icao rows) -> NoDup (omap icao (upsert rows key reg ty)).
Proof.
  intros Hnd. destruct key as [k|].
  - destruct (split_at_key rows k) as [Hf|(l1 & r & l2 & -> & Hl1 & Hr)].
    + rewrite upsert_fresh, omap_app by done. simpl.
      apply NoDup_app. repeat split; [done | | apply NoDup_singleton].
      intros x (r & Hin & Hr)%list_elem_of_omap ->%list_elem_of_singleton.
      rewrite Forall_forall in Hf. by apply (Hf r).
    + rewrite upsert_conflict by done.
      rewrite omap_app in Hnd |- *. simpl in Hnd |- *. by rewrite Hr in Hnd.
  - rewrite upsert_null, omap_app. simpl. by rewrite app_nil_r.
Qed.

(** C7: the aircraft upsert, as [prepare_data] executes it with the
    values of an observation: when no row holds the icao, a row with the
    icao, the registration and the type is appended; otherwise the row
    that holds the icao gets the new registration and the new type in
    place, whatever it held, and no other row changes; a value that is
    null is stored as NULL, so an observation that lacks them blanks both
    columns; and every observation with an icao runs exactly this upsert
    on the aircraft table, with or without a position. *)
Theorem upsert_last_write_wins (cv : conversions) (d : db)
    (icao_ registration_ ac_type : json) (vk vr vt : sqlval) (k : string) :
  bind icao_ = Ok vk -> text_affinity cv vk = Some k ->
  bind registration_ = Ok vr -> bind ac_type = Ok vt ->
  let row := {| icao := Some k; registration := text_affinity cv vr;
                type := text_affinity cv vt |} in
  (Forall (fun r => icao r <> Some k) (aircraft d) ->
     upsert_aircraft cv d icao_ registration_ ac_type =
       Ok {| aircraft := aircraft d ++ [row];
             positions := positions d;
             sqlite_sequence := sqlite_sequence d |}) /\
  (forall l1 r l2,
     aircraft d = l1 ++ r :: l2 ->
     Forall (fun r' => icao r' <> Some k) l1 ->
     icao r = Some k ->
     upsert_aircraft cv d icao_ registration_ ac_type =
       Ok {| aircraft := l1 ++ row :: l2;
             positions := positions d;
             sqlite_sequence := sqlite_sequence d |}) /\
  (registration_ = JNull -> registration row = None) /\
  (ac_type = JNull -> type row = None) /\
  (forall ts a d',
     get a "hex" = icao_ -> truthy icao_ = true ->
     get a "r" = registration_ -> get a "t" = ac_type ->
     S1.process_observation cv ts (JDict a) d = Ok d' ->
     exists d1,
       upsert_aircraft cv d icao_ registration_ ac_type = Ok d1 /\
       aircraft d' = aircraft d1).
Proof.
  intros Hk Hkey Hr Ht row.
  assert (upsert_aircraft cv d icao_ registration_ ac_type =
          Ok {| aircraft := upsert (aircraft d) (Some k) (text_affinity cv vr)
                              (text_affinity cv vt);
                positions := positions d;
                sqlite_sequence := sqlite_sequence d |}) as Hup.
  { unfold upsert_aircraft. rewrite Hk, Hr, Ht. simpl. by rewrite Hkey. }
  split; [intros Hfresh; by rewrite Hup, upsert_fresh |].
  split; [intros l1 r l2 Hd Hl1 Hrow; by rewrite Hup, Hd, upsert_conflict |].
  split; [intros ->; injection Hr as <-; done |].
  split; [intros ->; injection Ht as <-; done |].
  intros ts a d' Hhex Htruthy Hreg Hty Hrun. unfold S1.process_observation in Hrun.
  rewrite Hhex, Hreg, Hty, Htruthy, Hup in Hrun. simpl in Hrun.
  eexists. split; [done |]. simpl.
  destruct (_ && _).
  - unfold insert_position in Hrun.
    destruct (bind icao_), (bind ts), (bind (get a "lat")), (bind (get a "lon")),
      (bind (get a "alt_baro")), (bind (get a "gs")); simpl in Hrun; try done.
    by injection Hrun as <-.
  - by injection Hrun as <-.
Qed.

Lemma upsert_last_write_wins_witness :
  bind (JStr "abc1") = Ok (SText "abc1") /\
  text_affinity Samples.conversions0 (SText "abc1") = Some "abc1" /\
  bind (JStr "EC-2") = Ok (SText "EC-2") /\ bind JNull = Ok SNull /\
  upsert_aircraft Samples.conversions0
    {| aircraft := [ {| icao := Some "abc0"; registration := None; type := None |};
                     {| icao := Some "abc1"; registration := Some "EC-1";
                        type := Some "A320" |} ];
       positions := []; sqlite_sequence := 0 |}
    (JStr "abc1") (JStr "EC-2") JNull =
    Ok {| aircraft := [ {| icao := Some "abc0"; registration := None; type := None |} ] ++
                      {| icao := Some "abc1"; registration := Some "EC-2";
                         type := None |} :: [];
          positions := []; sqlite_sequence := 0 |}.
Proof.
  split; [reflexivity |]. split; [reflexivity |]. split; [reflexivity |].
  split; [reflexivity |].
  apply (upsert_last_write_wins Samples.conversions0
           {| aircraft := [ {| icao := Some "abc0"; registration := None; type := None |};
                            {| icao := Some "abc1"; registration := Some "EC-1";
                               type := Some "A320" |} ];
              positions := []; sqlite_sequence := 0 |}
           (JStr "abc1") (JStr "EC-2") JNull (SText "abc1") (SText "EC-2") SNull "abc1"
           eq_refl eq_refl eq_refl eq_refl)
    with (r := {| icao := Some "abc1"; registration := Some "EC-1";
                  type := Some "A320" |}).
  - reflexivity.
  - repeat constructor. discriminate.
  - reflexivity.
Defined.

(** A row with a registration and a type, then an observation of the same
    icao without them: both columns end NULL. *)
Example upsert_blanks :
  forall cv,
    S1.process_observation cv (JReal 0) (JDict [("hex", JStr "abc1")])
      {| aircraft := [ {| icao := Some "abc1"; registration := Some "EC-1";
                          type := Some "A320" |} ];
         positions := []; sqlite_sequence := 0 |} =
    Ok {| aircraft := [ {| icao := Some "abc1"; registration := None; type := None |} ];
          positions := []; sqlite_sequence := 0 |}.
Proof. done. Qed.

End UpsertFacts.

(** ** The prepare transform *)

Module PrepareFacts.
Import Py Sqlite Files.

(** The observations [prepare_data] stores a position for: the dicts
    with a truthy [hex] whose [lat] and [lon] are not [None]. *)
Local Abbreviation persisted := (fun o : json =>
  match o with
  | JDict a =>
      truthy (get a "hex") && (is_not_None (get a "lat") && is_not_None (get a "lon"))
  | _ => false
  end).

(** A position row holds what the statement stores for an observation. *)
Local Abbreviation stored_for cv := (fun (row : position_row) (o : json) =>
  exists a, o = JDict a /\
    (text_affinity cv <$> bind (get a "hex")) = Ok (p_icao row) /\
    (real_affinity cv <$> bind (get a "lat")) = Ok (lat row) /\
    (real_affinity cv <$> bind (get a "lon")) = Ok (lon row) /\
    had_emergency row = (if truthy (get a "emergency") then 1 else 0)).

(** An observation has an identity, stored as [key]. *)
Local Abbreviation identified_as cv := (fun (o : json) (key : option string) =>
  exists a, o = JDict a /\ truthy (get a "hex") = true /\
    (text_affinity cv <$> bind (get a "hex")) = Ok key).

(** The observations a raw file is read as. *)
Local Abbreviation read_as := (fun (fp : string * file) (obs : list json) =>
  exists payload, fp.2 = Some (JDict payload) /\
    iter (get_default payload "aircraft" (JList [])) = Ok obs).

Section WithConversions.
Variable cv : conversions.

Lemma bind_Ok_inv {A B : Type} (m : result A) (f : A -> result B) (b : B) :
  (m ≫= f) = Ok b -> exists a, m = Ok a /\ f a = Ok b.
Proof. destruct m as [a|e]; [by exists a | done]. Qed.

(** A truthy value other than NaN that binds is stored in a TEXT column
    as a text; NaN is stored as NULL. *)
Lemma truthy_key (v : json) (s : sqlval) :
  truthy v = true -> v <> JNaN -> bind v = Ok s ->
  exists k, text_affinity cv s = Some k.
Proof.
  destruct v; simpl; try done.
  - intros _ _ [= <-]. by eexists.
  - unfold bind_int. case_match; [| done]. intros _ _ [= <-]. by eexists.
  - intros _ _ [= <-]. by eexists.
  - destruct (has_surrogate s0); [done |]. intros _ _ [= <-]. by eexists.
  - intros _ _ [= <-]. by eexists.
Qed.

Lemma upsert_aircraft_Ok (d d' : db) (i r t : json) :
  upsert_aircraft cv d i r t = Ok d' ->
  exists k reg ty,
    bind i = Ok k /\ bind r = Ok reg /\ bind t = Ok ty /\
    d' = {| aircraft := upsert (aircraft d) (text_affinity cv k)
                          (text_affinity cv reg) (text_affinity cv ty);
            positions := positions d;
            sqlite_sequence := sqlite_sequence d |}.
Proof.
  unfold upsert_aircraft.
  intros (k & Hk & (reg & Hreg & (ty & Hty & [= <-])%bind_Ok_inv)%bind_Ok_inv)%bind_Ok_inv.
  by exists k, reg, ty.
Qed.

Lemma insert_position_Ok (d d' : db) (i ts la lo al g : json) (em : Z) :
  insert_position cv d i ts la lo al g em = Ok d' ->
  exists row,
    d' = {| aircraft := aircraft d;
            positions := positions d ++ [row];
            sqlite_sequence := sqlite_sequence d + 1 |} /\
    id row = sqlite_sequence d + 1 /\ had_emergency row = em /\
    (text_affinity cv <$> bind i) = Ok (p_icao row) /\
    (real_affinity cv <$> bind ts) = Ok (timestamp row) /\
    (real_affinity cv <$> bind la) = Ok (lat row) /\
    (real_affinity cv <$> bind lo) = Ok (lon row).
Proof.
  unfold insert_position.
  intros (k & Hk & (t & Ht & (a & Ha & (o & Ho & (l & Hl & (s & Hs & [= <-])
    %bind_Ok_inv)%bind_Ok_inv)%bind_Ok_inv)%bind_Ok_inv)%bind_Ok_inv)%bind_Ok_inv.
  eexists. split; [done |]. simpl. rewrite Hk, Ht, Ha, Ho. done.
Qed.

(** An invariant of the loop body holds after a loop that ends without
    exception. *)
Lemma for_each_invariant {A S : Type} (P : S -> Prop) (body : A -> S -> result S)
    (l : list A) (s s' : S) :
  (forall a s s', P s -> body a s = Ok s' -> P s') ->
  P s -> for_each body l s = Ok s' -> P s'.
Proof.
  intros Hbody. revert s. induction l as [|a l IH]; simpl; intros s Hs.
  - by intros [= <-].
  - intros (s1 & H1 & Hrest)%bind_Ok_inv. eauto.
Qed.

(** The same, with the body's invariance asked for the elements of the
    list only. *)
Lemma for_each_invariant_elem {A S : Type} (P : S -> Prop) (body : A -> S -> result S)
    (l : list A) (s s' : S) :
  (forall a s s', a ∈ l -> P s -> body a s = Ok s' -> P s') ->
  P s -> for_each body l s = Ok s' -> P s'.
Proof.
  revert s. induction l as [|a l IH]; simpl; intros s Hbody Hs.
  - by intros [= <-].
  - intros (s1 & H1 & Hrest)%bind_Ok_inv.
    apply (IH s1); [| | done].
    + intros a' t t' Ha'. apply Hbody. by right.
    + apply (Hbody a s s1); [left | done..].
Qed.

Lemma sorted_glob_nil (dir : gmap string file) :
  (forall name f, dir !! name = Some f -> endswith name ".json.gz" = false) ->
  sorted_glob dir = [].
Proof.
  intros Hnone. unfold sorted_glob.
  assert (filter (fun e : string * file => endswith e.1 ".json.gz" = true) dir = ∅)
    as ->; [| by rewrite map_to_list_empty].
  apply map_empty. intros name. apply map_lookup_filter_None.
  destruct (dir !! name) as [f|] eqn:Hf; [right | by left].
  intros f' [= <-]. simpl. by rewrite (Hnone name f Hf).
Qed.

(** What one observation does when it raises nothing. *)
Lemma process_observation_inv (ts o : json) (s s' : db) :
  S1.process_observation cv ts o s = Ok s' ->
  exists a, o = JDict a /\
    if truthy (get a "hex") then
      exists vk vr vt,
        bind (get a "hex") = Ok vk /\ bind (get a "r") = Ok vr /\
        bind (get a "t") = Ok vt /\
        aircraft s' = upsert (aircraft s) (text_affinity cv vk)
                        (text_affinity cv vr) (text_affinity cv vt) /\
        if is_not_None (get a "lat") && is_not_None (get a "lon") then
          exists row,
            positions s' = positions s ++ [row] /\
            sqlite_sequence s' = sqlite_sequence s + 1 /\
            id row = sqlite_sequence s + 1 /\
            had_emergency row = (if truthy (get a "emergency") then 1 else 0) /\
            (text_affinity cv <$> bind (get a "hex")) = Ok (p_icao row) /\
            (real_affinity cv <$> bind ts) = Ok (timestamp row) /\
            (real_affinity cv <$> bind (get a "lat")) = Ok (lat row) /\
            (real_affinity cv <$> bind (get a "lon")) = Ok (lon row)
        else positions s' = positions s /\ sqlite_sequence s' = sqlite_sequence s
    else s' = s.
Proof.
  destruct o as [| | | | | |a| |]; try done.
  intros Hrun. exists a. split; [done |].
  unfold S1.process_observation in Hrun.
  destruct (truthy (get a "hex")); simpl in Hrun; [| by injection Hrun as <-].
  apply bind_Ok_inv in Hrun as (s1 & Hup & Hrest).
  apply upsert_aircraft_Ok in Hup as (vk & vr & vt & Hvk & Hvr & Hvt & ->).
  exists vk, vr, vt. split; [done |]. split; [done |]. split; [done |].
  destruct (is_not_None (get a "lat") && is_not_None (get a "lon")).
  - apply insert_position_Ok in Hrest as (row & -> & Hid & Hem & Hic & Hts & Hla & Hlo).
    simpl. split; [done |]. by exists row.
  - by injection Hrest as <-.
Qed.

(** The loop over the observations of one file: every one is a dict, the
    position rows appended are those of the observations stored, in
    order, and the keys of the aircraft table are those before and the
    identities met. *)
Lemma observations_loop (ts : json) (l : list json) (s s' : db) :
  for_each (S1.process_observation cv ts) l s = Ok s' ->
  Forall (fun o => exists a, o = JDict a) l /\
  (exists rows,
     positions s' = positions s ++ rows /\
     Forall2 (stored_for cv) rows (filter (fun o => persisted o = true) l)) /\
  (forall key,
     key ∈ icao <$> aircraft s' <->
     key ∈ icao <$> aircraft s \/ exists o, o ∈ l /\ identified_as cv o key).
Proof.
  revert s. induction l as [|o l IH]; intros s; simpl.
  { intros [= <-]. split; [constructor |]. split.
    - exists []. rewrite app_nil_r. split; [done | constructor].
    - intros key. split; [by left |]. intros [?|(o & Ho & _)]; [done |].
      by apply elem_of_nil in Ho. }
  intros (s1 & Hstep & Hrest)%bind_Ok_inv.
  destruct (IH s1 Hrest) as (Hdicts & (rows & Hrows & Hstored) & Hkeys).
  apply process_observation_inv in Hstep as (a & -> & Hstep).
  split; [constructor; [by exists a | done] |].
  destruct (truthy (get a "hex")) eqn:Hhex.
  - destruct Hstep as (vk & vr & vt & Hvk & Hvr & Hvt & Hair & Hpos).
    split.
    + destruct (is_not_None (get a "lat") && is_not_None (get a "lon")) eqn:Hloc.
      * destruct Hpos as (row & Hp & Hseq & Hid & Hem & Hic & Hts & Hla & Hlo).
        exists (row :: rows). rewrite Hrows, Hp, <- (assoc_L (++)). split; [done |].
        rewrite filter_cons_True by (simpl; by rewrite Hhex, Hloc).
        constructor; [| done]. by exists a.
      * destruct Hpos as [Hp Hseq]. exists rows. rewrite Hrows, Hp. split; [done |].
        by rewrite filter_cons_False by (simpl; by rewrite Hhex, Hloc).
    + intros key. rewrite Hkeys, Hair, UpsertFacts.upsert_key_elem. split.
      * intros [[Hin| ->]|(o & Ho & Hid)].
        -- by left.
        -- right. exists (JDict a). split; [left |]. exists a.
           split; [done |]. split; [done |]. by rewrite Hvk.
        -- right. exists o. split; [by right | done].
      * intros [Hin|(o & [->|Ho]%elem_of_cons & Hid)].
        -- left. by left.
        -- destruct Hid as (a0 & [= <-] & _ & Hkey).
           rewrite Hvk in Hkey. injection Hkey as <-. left. by right.
        -- right. by exists o.
  - subst s1. split.
    + exists rows. split; [done |].
      by rewrite filter_cons_False by (simpl; by rewrite Hhex).
    + intros key. rewrite Hkeys. split.
      * intros [Hin|(o & Ho & Hid)]; [by left |].
        right. exists o. split; [by right | done].
      * intros [Hin|(o & [->|Ho]%elem_of_cons & Hid)]; [by left | |].
        -- destruct Hid as (a0 & [= <-] & Htruthy & _). congruence.
        -- right. by exists o.
Qed.

(** The loop over the files of a run. *)
Lemma files_loop (fs : list (string * file)) (s s' : db) :
  for_each (S1.process_file cv) fs s = Ok s' ->
  exists visited : list (list json),
    Forall2 read_as fs visited /\
    Forall (fun o => exists a, o = JDict a) (concat visited) /\
    (exists rows,
       positions s' = positions s ++ rows /\
       Forall2 (stored_for cv) rows
         (filter (fun o => persisted o = true) (concat visited))) /\
    (forall key,
       key ∈ icao <$> aircraft s' <->
       key ∈ icao <$> aircraft s \/
       exists o, o ∈ concat visited /\ identified_as cv o key).
Proof.
  revert s. induction fs as [|fp fs IH]; intros s; simpl.
  { intros [= <-]. exists []. split; [constructor |]. split; [constructor |]. split.
    - exists []. rewrite app_nil_r. split; [done | constructor].
    - intros key. split; [by left |]. intros [?|(o & Ho & _)]; [done |].
      by apply elem_of_nil in Ho. }
  intros (s1 & Hfile & Hrest)%bind_Ok_inv.
  destruct (IH s1 Hrest) as (visited & Hread & Hdicts & (rows & Hrows & Hstored) & Hkeys).
  unfold S1.process_file in Hfile.
  destruct fp.2 as [[| | | | | |payload| |]|] eqn:Hfp; try done.
  apply bind_Ok_inv in Hfile as (l & Hiter & Hloop).
  apply observations_loop in Hloop as (Hd1 & (rows1 & Hrows1 & Hstored1) & Hkeys1).
  exists (l :: visited). simpl.
  split; [constructor; [by exists payload | done] |].
  split; [apply Forall_app; by split |].
  split.
  - exists (rows1 ++ rows). rewrite Hrows, Hrows1, <- (assoc_L (++)). split; [done |].
    rewrite filter_app. by apply Forall2_app.
  - intros key. rewrite Hkeys, Hkeys1. split.
    + intros [[Hin|(o & Ho & Hid)]|(o & Ho & Hid)].
      * by left.
      * right. exists o. split; [apply elem_of_app; by left | done].
      * right. exists o. split; [apply elem_of_app; by right | done].
    + intros [Hin|(o & [Ho|Ho]%elem_of_app & Hid)].
      * left. by left.
      * left. right. by exists o.
      * right. by exists o.
Qed.

(** A loop whose body answers on every element answers. *)
Lemma for_each_Ok {A S : Type} (body : A -> S -> result S) (l : list A) (s : S) :
  (forall a, a ∈ l -> forall t, exists t', body a t = Ok t') ->
  exists s', for_each body l s = Ok s'.
Proof.
  revert s. induction l as [|a l IH]; intros s Hbody; simpl; [by exists s |].
  destruct (Hbody a ltac:(left) s) as [s1 ->]. simpl.
  apply IH. intros a' Ha'. apply Hbody. by right.
Qed.

Lemma elem_of_sorted_glob (dir : gmap string file) (name : string) (f : file) :
  (name, f) ∈ sorted_glob dir <->
  dir !! name = Some f /\ endswith name ".json.gz" = true.
Proof.
  unfold sorted_glob.
  by rewrite merge_sort_Permutation, elem_of_map_to_list, map_lookup_filter_Some.
Qed.

(** C4: what a run of [prepare_data] persists.  When the run answers, the
    database holds, for the observations of the files in the order they
    are read, one position row for each observation that has an identity
    (a truthy [hex]) and both [lat] and [lon] (not [None]), in that
    order, and no other position row; an observation without an identity
    leaves no record, and one with an identity leaves its key in the
    aircraft table whether it has coordinates or not: the keys of the
    aircraft table are exactly the identities met.  When the run raises,
    nothing is persisted.  And the run answers when there is a file to
    read, every file is a dict whose [aircraft] is a list of dicts, and
    the values read bind to SQLite. *)
Theorem position_iff_identity_and_coordinates (w : world) :
  match S1.prepare_data cv w with
  | (Ok _, w') =>
      exists d visited,
        prepared_db w' = Some d /\
        Forall2 read_as (sorted_glob (raw_day_dir w)) visited /\
        Forall (fun o => exists a, o = JDict a) (concat visited) /\
        Forall2 (stored_for cv) (positions d)
          (filter (fun o => persisted o = true) (concat visited)) /\
        (forall key,
           key ∈ icao <$> aircraft d <->
           exists o, o ∈ concat visited /\ identified_as cv o key)
  | (Raise _, w') => forall d, prepared_db w' = Some d -> d = empty_db
  end /\
  ((exists name f, raw_day_dir w !! name = Some f /\ endswith name ".json.gz" = true) ->
   (forall name f,
      raw_day_dir w !! name = Some f -> endswith name ".json.gz" = true ->
      exists payload l,
        f = Some (JDict payload) /\
        get_default payload "aircraft" (JList []) = JList l /\
        forall o, o ∈ l ->
          exists a, o = JDict a /\
            forall v,
              v ∈ [get a "hex"; get a "r"; get a "t";
                   get_default payload "now" (JReal 0);
                   get a "lat"; get a "lon"; get a "alt_baro"; get a "gs"] ->
              exists s, bind v = Ok s) ->
   (S1.prepare_data cv w).1 = Ok "OK").
Proof.
  split.
  - unfold S1.prepare_data.
    destruct (sorted_glob (raw_day_dir w)) as [|fp fs] eqn:Hglob; [done |].
    destruct (for_each _ _ _) as [d|e] eqn:Hloop; [| by intros d [= <-]].
    apply files_loop in Hloop
      as (visited & Hread & Hdicts & (rows & Hrows & Hstored) & Hkeys).
    exists d, visited. simpl in Hrows. subst rows.
    split; [done |]. split; [done |]. split; [done |]. split; [done |].
    intros key. rewrite Hkeys. simpl. split; [| by right].
    intros [Hin|?]; [| done]. by apply elem_of_nil in Hin.
  - intros (name0 & f0 & Hf0 & Ha0) Hfiles.
    assert ((name0, f0) ∈ sorted_glob (raw_day_dir w)) as Hin0
      by (by apply elem_of_sorted_glob).
    unfold S1.prepare_data.
    destruct (sorted_glob (raw_day_dir w)) as [|fp fs] eqn:Hglob;
      [by apply elem_of_nil in Hin0 |].
    rewrite <- Hglob. clear Hin0.
    destruct (for_each_Ok (S1.process_file cv) (sorted_glob (raw_day_dir w)) empty_db)
      as [d ->]; [| done].
    intros [name f] [Hf Ha]%elem_of_sorted_glob t.
    destruct (Hfiles name f Hf Ha) as (payload & l & -> & Hl & Hobs).
    unfold S1.process_file. simpl. rewrite Hl. simpl.
    apply for_each_Ok. intros o Ho u.
    destruct (Hobs o Ho) as (a & -> & Hb).
    destruct (Hb (get a "hex")) as [k Hk]; [apply list_elem_of_In; simpl; tauto |].
    destruct (Hb (get a "r")) as [reg Hreg]; [apply list_elem_of_In; simpl; tauto |].
    destruct (Hb (get a "t")) as [ty Hty]; [apply list_elem_of_In; simpl; tauto |].
    destruct (Hb (get_default payload "now" (JReal 0))) as [now Hnow];
      [apply list_elem_of_In; simpl; tauto |].
    destruct (Hb (get a "lat")) as [la Hla]; [apply list_elem_of_In; simpl; tauto |].
    destruct (Hb (get a "lon")) as [lo Hlo]; [apply list_elem_of_In; simpl; tauto |].
    destruct (Hb (get a "alt_baro")) as [al Hal]; [apply list_elem_of_In; simpl; tauto |].
    destruct (Hb (get a "gs")) as [g Hg]; [apply list_elem_of_In; simpl; tauto |].
    unfold S1.process_observation, upsert_aircraft, insert_position.
    rewrite Hk, Hreg, Hty, ?Hnow, ?Hla, ?Hlo, ?Hal, ?Hg.
    destruct (truthy (get a "hex")); simpl; [| by eexists].
    destruct (_ && _); simpl; by eexists.
Qed.

(** C9: without a file whose name ends in [.json.gz] in the raw
    directory, [prepare_data] raises its RuntimeError and leaves no
    database: the prepared directory was emptied and nothing was
    created in it. *)
Theorem prepare_no_input (w : world) :
  (forall name f, raw_day_dir w !! name = Some f -> endswith name ".json.gz" = false) ->
  S1.prepare_data cv w =
    (Raise (RuntimeError "No raw files found. Run download first."),
     {| raw_day_dir := raw_day_dir w; prepared_db := None |}).
Proof.
  intros Hnone. unfold S1.prepare_data. by rewrite sorted_glob_nil.
Qed.

(** [prepare_data] never reads the database it finds and never writes
    the raw directory. *)
Lemma prepare_resets (w : world) (old : option db) :
  S1.prepare_data cv {| raw_day_dir := raw_day_dir w; prepared_db := old |} =
    S1.prepare_data cv w.
Proof. done. Qed.

Lemma prepare_keeps_raw (w : world) :
  raw_day_dir (S1.prepare_data cv w).2 = raw_day_dir w.
Proof.
  unfold S1.prepare_data. destruct (sorted_glob _); [done |].
  by destruct (for_each _ _ _).
Qed.

Lemma prepare_again (w : world) :
  S1.prepare_data cv (S1.prepare_data cv w).2 = S1.prepare_data cv w.
Proof.
  pose proof (prepare_keeps_raw w) as Hraw.
  revert Hraw. generalize (S1.prepare_data cv w).2. intros [raw old]. simpl.
  intros ->. apply prepare_resets.
Qed.

(** C6: a run starts from an empty store whatever database it finds, so
    after any number of reruns on the same raw directory the response
    and the files (both tables of the database with them) are those of
    a single run. *)
Theorem prepare_idempotent (w : world) (old : option db) (n : nat) :
  S1.prepare_data cv {| raw_day_dir := raw_day_dir w; prepared_db := old |} =
    S1.prepare_data cv w /\
  S1.prepare_data cv (Nat.iter n (fun w' => (S1.prepare_data cv w').2) w) =
    S1.prepare_data cv w.
Proof.
  split; [apply prepare_resets |].
  induction n as [|n IH]; simpl; [done |].
  by rewrite prepare_again.
Qed.

(** No icao text occurs twice in the aircraft table: one observation
    keeps it so, hence a file, hence a run.  Rows with a NULL icao, which
    a [hex] that is NaN leaves, are not keyed: they never conflict. *)
Lemma process_observation_NoDup (ts a : json) (d d' : db) :
  NoDup (omap icao (aircraft d)) ->
  S1.process_observation cv ts a d = Ok d' ->
  NoDup (omap icao (aircraft d')).
Proof.
  intros Hnd (o & -> & Hstep)%process_observation_inv.
  destruct (truthy (get o "hex")); [| by subst d'].
  destruct Hstep as (vk & vr & vt & _ & _ & _ & -> & _).
  by apply UpsertFacts.upsert_NoDup_omap.
Qed.

Lemma process_file_NoDup (fp : string * file) (d d' : db) :
  NoDup (omap icao (aircraft d)) ->
  S1.process_file cv fp d = Ok d' ->
  NoDup (omap icao (aircraft d')).
Proof.
  intros Hnd. unfold S1.process_file.
  destruct fp.2 as [[| | | | | |payload| |]|]; try done.
  intros (l & _ & Hloop)%bind_Ok_inv. revert Hloop.
  apply (for_each_invariant (fun s => NoDup (omap icao (aircraft s)))); [| done].
  intros a s s' Hs. by apply process_observation_NoDup.
Qed.

Lemma prepare_NoDup (w : world) (d : db) :
  prepared_db (S1.prepare_data cv w).2 = Some d -> NoDup (omap icao (aircraft d)).
Proof.
  unfold S1.prepare_data. destruct (sorted_glob _) as [|fp fs]; [done |].
  destruct (for_each _ _ _) as [d1|e] eqn:Hloop; simpl.
  - intros [= <-]. revert Hloop.
    apply (for_each_invariant (fun s => NoDup (omap icao (aircraft s))));
      [| apply NoDup_nil_2].
    intros a s s' Hs. by apply process_file_NoDup.
  - intros [= <-]. apply NoDup_nil_2.
Qed.

(** C5, amended: a second run on the same raw directory leaves the same
    database as the first; the aircraft table is the same and no icao
    text occurs in two of its rows, and the positions table is the same
    too, with as many rows as after one run. *)
Theorem prepare_twice_same_store (w : world) :
  let once := (S1.prepare_data cv w).2 in
  let twice := (S1.prepare_data cv once).2 in
  prepared_db twice = prepared_db once /\
  (forall d1 d2,
     prepared_db once = Some d1 -> prepared_db twice = Some d2 ->
     aircraft d2 = aircraft d1 /\
     NoDup (omap icao (aircraft d2)) /\
     positions d2 = positions d1 /\
     length (positions d2) = length (positions d1)).
Proof.
  intros once twice. subst twice once. rewrite prepare_again.
  split; [done |]. intros d1 d2 H1 H2.
  assert (d2 = d1) as -> by congruence.
  repeat split. by eapply prepare_NoDup.
Qed.

End WithConversions.

(** The claim of C5 fails: on the sample directory one run stores two
    positions and so does a second run, not four. *)
Lemma prepare_twice_not_doubled :
  ~ (forall (cv : conversions) (d1 d2 : db),
       let once := (S1.prepare_data cv Samples.world2).2 in
       let twice := (S1.prepare_data cv once).2 in
       prepared_db once = Some d1 -> prepared_db twice = Some d2 ->
       length (positions d2) = (2 * length (positions d1))%nat).
Proof.
  intros H.
  destruct (prepared_db (S1.prepare_data Samples.conversions0 Samples.world2).2)
    as [d|] eqn:E; [| by vm_compute in E].
  pose proof (H Samples.conversions0 d d E) as H2. simpl in H2.
  rewrite prepare_again in H2. specialize (H2 E).
  assert (length (positions d) = 2%nat) as Hlen.
  { vm_compute in E. by injection E as <-. }
  lia.
Qed.

Lemma position_iff_identity_and_coordinates_witness :
  exists w' d visited,
    S1.prepare_data Samples.conversions0 Samples.world2 = (Ok "OK", w') /\
    prepared_db w' = Some d /\
    Forall2 read_as (sorted_glob (raw_day_dir Samples.world2)) visited /\
    Forall2 (stored_for Samples.conversions0) (positions d)
      (filter (fun o => persisted o = true) (concat visited)) /\
    (forall key,
       key ∈ icao <$> aircraft d <->
       exists o, o ∈ concat visited /\ identified_as Samples.conversions0 o key) /\
    length (positions d) = 2%nat /\ length (aircraft d) = 2%nat.
Proof.
  assert (exists w', S1.prepare_data Samples.conversions0 Samples.world2 = (Ok "OK", w'))
    as [w' Hrun].
  { eexists. vm_compute. reflexivity. }
  assert (match prepared_db (S1.prepare_data Samples.conversions0 Samples.world2).2 with
          | Some d => length (positions d) = 2%nat /\ length (aircraft d) = 2%nat
          | None => False
          end) as Hlen.
  { vm_compute. split; reflexivity. }
  destruct (position_iff_identity_and_coordinates Samples.conversions0 Samples.world2)
    as [H _].
  rewrite Hrun in H, Hlen.
  destruct H as (d & visited & Hd & Hread & _ & Hstored & Hkeys).
  cbn [snd] in Hlen. rewrite Hd in Hlen.
  exists w', d, visited.
  exact (conj Hrun (conj Hd (conj Hread (conj Hstored (conj Hkeys Hlen))))).
Defined.

Lemma prepare_no_input_witness :
  (forall name f, raw_day_dir Samples.world0 !! name = Some f ->
                  endswith name ".json.gz" = false) /\
  prepared_db (S1.prepare_data Samples.conversions0 Samples.world0).2 = None.
Proof.
  assert (forall name f, raw_day_dir Samples.world0 !! name = Some f ->
                         endswith name ".json.gz" = false) as H0.
  { intros name f. simpl. by rewrite lookup_empty. }
  split; [done |].
  by rewrite (prepare_no_input Samples.conversions0 Samples.world0 H0).
Defined.

End PrepareFacts.

(** ** The aircraft listing *)

Module ListingFacts.
Import Py Sqlite Files.

Global Instance icao_le_total : Total icao_le.
Proof.
  intros r1 r2. unfold icao_le.
  destruct (icao r1) as [a|], (icao r2) as [b|]; auto.
  apply (total String.le).
Qed.

Global Instance icao_le_trans : Transitive icao_le.
Proof.
  intros r1 r2 r3. unfold icao_le.
  destruct (icao r1) as [a|], (icao r2) as [b|], (icao r3) as [c|]; try done.
  apply (transitivity (R := String.le)).
Qed.

Lemma Sorted_take_drop (l : list aircraft_row) (n k : nat) :
  Sorted icao_le l -> Sorted icao_le (take n (drop k l)).
Proof.
  intros Hl. apply StronglySorted_Sorted.
  apply (Sorted_StronglySorted icao_le) in Hl.
  rewrite <- (take_drop k l) in Hl. apply StronglySorted_app_1_r in Hl.
  rewrite <- (take_drop n (drop k l)) in Hl. by apply StronglySorted_app_1_l in Hl.
Qed.

(** C8: with a prepared database, a limit and a page that are not negative
    (and an offset that fits SQLite's integers), [list_aircraft] answers
    with a window of the listing of the whole table in ascending icao
    order: the listing is a permutation of the table sorted by icao, the
    answer holds the rows of the listing from index [page * limit] on, at
    most [limit] of them, in that order; with limit 5 and page 1 these are
    the rows at indices 5 to 9, the sixth to the tenth. *)
Theorem list_aircraft_page (w : world) (d : db) (num_results page : Z) :
  prepared_db w = Some d ->
  0 <= num_results < 2 ^ 63 ->
  0 <= page ->
  page * num_results < 2 ^ 63 ->
  exists listing rows : list aircraft_row,
    listing ≡ₚ aircraft d /\
    Sorted icao_le listing /\
    S1.list_aircraft w num_results page = Ok (S1.row_dict <$> rows) /\
    rows = take (Z.to_nat num_results) (drop (Z.to_nat (page * num_results)) listing) /\
    Sorted icao_le rows /\
    (forall i : nat,
       (i < Z.to_nat num_results)%nat ->
       rows !! i = listing !! (Z.to_nat page * Z.to_nat num_results + i)%nat) /\
    (num_results = 5 -> page = 1 ->
       rows = take 5 (drop 5 listing) /\
       forall i : nat, (i < 5)%nat -> rows !! i = listing !! (5 + i)%nat).
Proof.
  intros Hd Hn Hp Hoff.
  exists (merge_sort icao_le (aircraft d)).
  exists (take (Z.to_nat num_results)
            (drop (Z.to_nat (page * num_results)) (merge_sort icao_le (aircraft d)))).
  assert (Sorted icao_le (merge_sort icao_le (aircraft d))) as Hsorted
    by apply (Sorted_merge_sort icao_le).
  assert (forall i : nat,
    (i < Z.to_nat num_results)%nat ->
    take (Z.to_nat num_results)
      (drop (Z.to_nat (page * num_results)) (merge_sort icao_le (aircraft d))) !! i =
    merge_sort icao_le (aircraft d) !! (Z.to_nat page * Z.to_nat num_results + i)%nat)
    as Hat.
  { intros i Hi. rewrite lookup_take_lt, lookup_drop by done.
    by rewrite Z2Nat.inj_mul by lia. }
  split; [apply merge_sort_Permutation |]. split; [done |].
  split.
  { unfold S1.list_aircraft, select_aircraft, bind_int, limit_offset. rewrite Hd.
    rewrite !andb_true_intro by (split; [apply Z.leb_le | apply Z.ltb_lt]; nia).
    simpl. by destruct (Z.ltb_spec num_results 0); [lia |]. }
  split; [done |]. split; [by apply Sorted_take_drop |]. split; [done |].
  intros -> ->. split; [done |]. intros i Hi. by apply (Hat i).
Qed.

Lemma list_aircraft_page_witness :
  prepared_db {| raw_day_dir := ∅; prepared_db := Some Samples.twelve |} =
    Some Samples.twelve /\
  0 <= 5 < 2 ^ 63 /\ 0 <= 1 /\ 1 * 5 < 2 ^ 63 /\
  exists listing rows : list aircraft_row,
    listing ≡ₚ aircraft Samples.twelve /\
    Sorted icao_le listing /\
    S1.list_aircraft {| raw_day_dir := ∅; prepared_db := Some Samples.twelve |} 5 1 =
      Ok (S1.row_dict <$> rows) /\
    rows = take 5 (drop 5 listing).
Proof.
  assert (0 <= 5 < 2 ^ 63) as Hn by lia.
  assert (1 * 5 < 2 ^ 63) as Hoff by lia.
  split; [done |]. split; [exact Hn |]. split; [lia |]. split; [exact Hoff |].
  destruct (list_aircraft_page
              {| raw_day_dir := ∅; prepared_db := Some Samples.twelve |}
              Samples.twelve 5 1 eq_refl Hn ltac:(lia) Hoff)
    as (listing & rows & HP & HS & HL & HR & _).
  by exists listing, rows.
Defined.

(** The second page of five of the twelve sample rows: the sixth to the
    tenth in icao order. *)
Example list_aircraft_second_page :
  S1.list_aircraft {| raw_day_dir := ∅; prepared_db := Some Samples.twelve |} 5 1 =
    Ok (S1.row_dict <$>
          ((fun k => {| icao := Some k; registration := None; type := None |}) <$>
             ["a06"; "a07"; "a08"; "a09"; "a10"])).
Proof. by vm_compute. Qed.

End ListingFacts.

(** ** Staging through the object store *)

Module StagingFacts.
Import Py Sqlite Files S3 S4.

Lemma list_ascii_inj (s t : string) :
  list_ascii_of_string s = list_ascii_of_string t -> s = t.
Proof.
  intros E. apply (f_equal string_of_list_ascii) in E.
  by rewrite !string_of_list_ascii_of_string in E.
Qed.

Lemma has_slash_app (s t : string) :
  has_slash (s +:+ t) = has_slash s || has_slash t.
Proof. induction s as [|c s IH]; simpl; [done |]. by destruct (Ascii.eqb c "/"). Qed.

Lemma endswith_cons (c : ascii) (s suffix : string) :
  endswith (String c s) suffix = true ->
  suffix = String c s \/ endswith s suffix = true.
Proof.
  unfold endswith. rewrite !bool_decide_eq_true.
  destruct suffix as [|a t]; [intros _; right; apply suffix_nil |]. simpl.
  intros [E|H]%suffix_cons_inv; [left | by right].
  by apply list_ascii_inj.
Qed.

(** The last segment of a key ends as the key does, for an ending
    without a slash. *)
Lemma endswith_split (key suffix : string) :
  has_slash suffix = false ->
  endswith key suffix = true ->
  endswith (split_slash_last key) suffix = true.
Proof.
  intros Hs. induction key as [|c s IH]; [done |].
  intros Hk. simpl.
  destruct (has_slash s) eqn:Hslash.
  - destruct (endswith_cons _ _ _ Hk) as [->|H]; [| by apply IH].
    simpl in Hs. rewrite Hslash in Hs. by destruct (Ascii.eqb c "/").
  - destruct (Ascii.eqb c "/") eqn:Hc; [| done].
    destruct (endswith_cons _ _ _ Hk) as [->|H]; [| done].
    simpl in Hs. by rewrite Hc in Hs.
Qed.

Lemma split_suffix (key : string) :
  list_ascii_of_string (split_slash_last key) `suffix_of` list_ascii_of_string key.
Proof.
  induction key as [|c s IH]; simpl; [done |].
  destruct (has_slash s); [by apply suffix_cons_r |].
  destruct (Ascii.eqb c "/"); [by apply suffix_cons_r | done].
Qed.

Lemma endswith_of_split (key suffix : string) :
  endswith (split_slash_last key) suffix = true -> endswith key suffix = true.
Proof.
  unfold endswith. rewrite !bool_decide_eq_true. intros H.
  etrans; [exact H | apply split_suffix].
Qed.

(** Under the prefix, the last segment of a key is what follows the
    prefix when that has no slash. *)
Lemma split_under_prefix (name : string) :
  has_slash name = false -> split_slash_last (S3_PREFIX +:+ name) = name.
Proof. intros Hn. unfold S3_PREFIX. simpl. by rewrite !has_slash_app, Hn. Qed.

Lemma prefix_under_prefix (name : string) :
  String.prefix S3_PREFIX (S3_PREFIX +:+ name) = true.
Proof. unfold S3_PREFIX. simpl. by destruct name. Qed.

Lemma endswith_app (p s suffix : string) :
  endswith s suffix = true -> endswith (p +:+ s) suffix = true.
Proof.
  unfold endswith. rewrite !bool_decide_eq_true, SequencerFacts.list_ascii_app.
  apply suffix_app_r.
Qed.

Lemma endswith_last (s suffix : string) (c : ascii) :
  endswith s suffix = true ->
  last (list_ascii_of_string suffix) = Some c ->
  last (list_ascii_of_string s) = Some c.
Proof.
  unfold endswith. rewrite bool_decide_eq_true. intros [k ->] Hc.
  by rewrite last_app, Hc.
Qed.

(** An archive key passes the test of the listing loop. *)
Lemma kept_archive (key : string) : kept key = endswith key ".json.gz".
Proof.
  unfold kept. destruct (endswith key ".json.gz") eqn:Ha; simpl.
  - destruct (endswith key "/") eqn:Hs; [| done].
    pose proof (endswith_last _ _ "z"%char Ha eq_refl) as H1.
    pose proof (endswith_last _ _ "/"%char Hs eq_refl) as H2.
    congruence.
  - by rewrite orb_true_r.
Qed.

Lemma MaxKeys_pos : (0 < MaxKeys)%nat.
Proof. unfold MaxKeys. lia. Qed.

(** The listing loop ends, with enough fuel, on the kept keys of the
    whole listing from the page the token points at. *)
Lemma list_keys_all (b : gmap string file) (fuel : nat) (token : option nat)
    (keys : list string) :
  let all := keys_with_prefix b S3_PREFIX in
  let start := default 0%nat token in
  (length all - start < fuel)%nat ->
  list_keys b fuel token keys =
    Some (keys ++ filter (fun key => kept key = true) (drop start all)).
Proof.
  intros all. revert token keys.
  induction fuel as [|fuel IH]; intros token keys start Hfuel; [lia |].
  simpl. unfold list_objects_v2. fold all. fold start. simpl.
  pose proof MaxKeys_pos as Hpos.
  generalize dependent MaxKeys. intros M Hpos.
  destruct (Nat.ltb_spec M (length (drop start all))) as [Hlt|Hge].
  - rewrite IH; simpl.
    + by rewrite <- (assoc_L (++)), <- filter_app, <- drop_drop, take_drop.
    + rewrite length_drop in Hlt. lia.
  - by rewrite take_ge.
Qed.

Lemma elem_of_keys_with_prefix (b : gmap string file) (prefix key : string) :
  key ∈ keys_with_prefix b prefix <->
  is_Some (b !! key) /\ String.prefix prefix key = true.
Proof.
  unfold keys_with_prefix. rewrite merge_sort_Permutation, list_elem_of_filter.
  rewrite list_elem_of_fmap. split.
  - intros [Hp ([k f] & -> & Hin%elem_of_map_to_list)]. split; [by exists f | done].
  - intros [[f Hf] Hp]. split; [done |]. exists (key, f).
    split; [done |]. by apply elem_of_map_to_list.
Qed.

Lemma NoDup_keys_with_prefix (b : gmap string file) (prefix : string) :
  NoDup (keys_with_prefix b prefix).
Proof.
  unfold keys_with_prefix. rewrite merge_sort_Permutation.
  apply NoDup_filter, NoDup_fst_map_to_list.
Qed.

(** The download loop, over keys the bucket holds and whose last segments
    differ, leaves each object under the last segment of its key. *)
Lemma download_all_lookup (b : gmap string file) (keys : list string)
    (dir : gmap string file) :
  (forall key, key ∈ keys -> is_Some (b !! key)) ->
  NoDup (split_slash_last <$> keys) ->
  exists dir',
    download_all b keys dir = (Ok tt, dir') /\
    forall name body,
      dir' !! name = Some body <->
      (exists key, key ∈ keys /\ split_slash_last key = name /\ b !! key = Some body) \/
      ((name ∉ split_slash_last <$> keys) /\ dir !! name = Some body).
Proof.
  revert dir. induction keys as [|key keys IH]; intros dir Hin Hnd; simpl.
  - exists dir. split; [done |]. intros name body. split.
    + intros H. right. split; [apply not_elem_of_nil | done].
    + intros [(key & []%elem_of_nil & _)|[_ H]]. done.
  - destruct (Hin key) as [body0 Hkey]; [left |]. rewrite Hkey.
    apply NoDup_cons in Hnd as [Hfresh Hnd].
    destruct (IH (<[split_slash_last key := body0]> dir)) as (dir' & -> & Hdir');
      [intros k Hk; apply Hin; by right | done |].
    exists dir'. split; [done |]. intros name body. rewrite Hdir'.
    rewrite ?fmap_cons. split.
    + intros [(k & Hk & Hname & Hb)|[Hnot Hlook]].
      * left. exists k. split; [by right | done].
      * destruct (decide (split_slash_last key = name)) as [<-|Hne].
        -- rewrite lookup_insert_eq in Hlook. injection Hlook as <-.
           left. exists key. split; [left | done].
        -- rewrite lookup_insert_ne in Hlook by done.
           right. split; [| done]. by intros [->|?]%elem_of_cons.
    + intros [(k & [->|Hk]%elem_of_cons & Hname & Hb)|[Hnot Hlook]].
      * right. subst name. split; [done |].
        rewrite lookup_insert_eq. congruence.
      * left. by exists k.
      * right. apply not_elem_of_cons in Hnot as [Hne Hnot]. split; [done |].
        by rewrite lookup_insert_ne.
Qed.

(** The keys [prepare_data] downloads, in the order it downloads them. *)
Lemma staged_keys (b : gmap string file) (fuel : nat) :
  (length (keys_with_prefix b S3_PREFIX) < fuel)%nat ->
  exists keys,
    list_keys b fuel None [] = Some keys /\
    NoDup (merge_sort String.le keys) /\
    forall key,
      key ∈ merge_sort String.le keys <->
      is_Some (b !! key) /\ String.prefix S3_PREFIX key = true /\
      endswith key ".json.gz" = true.
Proof.
  intros Hfuel.
  exists (filter (fun key => kept key = true) (keys_with_prefix b S3_PREFIX)).
  split; [by rewrite list_keys_all by (simpl; lia) |].
  split.
  - rewrite merge_sort_Permutation. apply NoDup_filter, NoDup_keys_with_prefix.
  - intros key. rewrite merge_sort_Permutation, list_elem_of_filter.
    rewrite elem_of_keys_with_prefix, kept_archive. tauto.
Qed.

(** The prepare of s1 sees the archive files of the raw directory only. *)
Lemma prepare_on_archives (cv : conversions) (dir : gmap string file)
    (old : option db) :
  let archives := filter (fun e : string * file => endswith e.1 ".json.gz" = true) dir in
  let on_archives :=
    S1.prepare_data cv {| raw_day_dir := archives; prepared_db := old |} in
  let on_dir := S1.prepare_data cv {| raw_day_dir := dir; prepared_db := old |} in
  raw_day_dir on_archives.2 = archives /\
  on_archives.1 = on_dir.1 /\
  prepared_db on_archives.2 = prepared_db on_dir.2.
Proof.
  intros archives on_archives on_dir. subst on_archives on_dir.
  unfold S1.prepare_data. simpl.
  assert (sorted_glob archives = sorted_glob dir) as ->.
  { unfold sorted_glob, archives. f_equal. f_equal.
    apply map_filter_strong_ext_1. intros name body.
    rewrite map_lookup_filter_Some. simpl. tauto. }
  destruct (sorted_glob dir); [done |]. by destruct (for_each _ _ _).
Qed.

(** C10: when the bucket holds, under the prefix, the archive files of a
    directory [dir] and no other archive, and the listing loop is given
    fuel for all its pages, the prepare of s4 ends; it leaves in the local
    raw directory exactly the archive files of [dir], and its response and
    the database it leaves are those of the prepare of s1 run on [dir]. *)
Theorem prepare_equivalent (cv : conversions) (fuel : nat)
    (b dir : gmap string file) (w : world) :
  mirrors b dir ->
  (length (keys_with_prefix b S3_PREFIX) < fuel)%nat ->
  exists (r : result string) (w' : world),
    S4.prepare_data cv fuel b w = Some (r, w') /\
    raw_day_dir w' = filter (fun e => endswith e.1 ".json.gz" = true) dir /\
    r = (S1.prepare_data cv {| raw_day_dir := dir; prepared_db := prepared_db w |}).1 /\
    prepared_db w' =
      prepared_db
        (S1.prepare_data cv {| raw_day_dir := dir; prepared_db := prepared_db w |}).2.
Proof.
  intros [Hb Hdir] Hfuel.
  destruct (staged_keys b fuel Hfuel) as (keys & Hkeys & Hnd & Hin).
  assert (forall key, key ∈ merge_sort String.le keys ->
            exists name body, key = S3_PREFIX +:+ name /\ has_slash name = false /\
              split_slash_last key = name /\ b !! key = Some body /\
              dir !! name = Some body /\ endswith name ".json.gz" = true) as Hkey.
  { intros key ([body Hbody] & Hp & Ha)%Hin.
    destruct (Hb key body Hbody Hp Ha) as (name & -> & Hname & Hd).
    exists name, body. rewrite split_under_prefix by done.
    repeat split; try done.
    rewrite <- (split_under_prefix name Hname).
    apply endswith_split; done. }
  destruct (download_all_lookup b (merge_sort String.le keys) ∅)
    as (staged & Hload & Hstaged).
  { intros key (name & body & _ & _ & _ & Hbody & _)%Hkey. by exists body. }
  { apply NoDup_fmap_2_strong; [| done].
    intros k1 k2 (n1 & b1 & -> & _ & H1 & _)%Hkey (n2 & b2 & -> & _ & H2 & _)%Hkey.
    congruence. }
  assert (staged = filter (fun e => endswith e.1 ".json.gz" = true) dir) as Hsame.
  { apply map_eq. intros name. apply option_eq. intros body.
    rewrite Hstaged, map_lookup_filter_Some. simpl. split.
    - intros [(key & (n & bd & _ & _ & Hn & Hbd & Hd & Ha)%Hkey & Hname & Hbody)|[_ H]];
        [| by rewrite lookup_empty in H].
      split; congruence.
    - intros [Hd Ha]. left. exists (S3_PREFIX +:+ name).
      pose proof (Hdir name body Hd Ha) as Hbody.
      assert (S3_PREFIX +:+ name ∈ merge_sort String.le keys) as Hk.
      { apply Hin. split; [by exists body |].
        split; [apply prefix_under_prefix | by apply endswith_app]. }
      split; [done |].
      destruct (Hkey _ Hk) as (n & bd & E & _ & Hn & _ & _ & _).
      apply (inj (String.app S3_PREFIX)) in E. by subst n. }
  unfold S4.prepare_data. rewrite Hkeys. simpl. rewrite Hload. subst staged.
  pose proof (prepare_on_archives cv dir (prepared_db w)) as [H1 [H2 H3]].
  simpl in H1, H2, H3.
  destruct (S1.prepare_data cv
    {| raw_day_dir := filter (fun e : string * file => endswith e.1 ".json.gz" = true) dir;
       prepared_db := prepared_db w |}) as [r w'].
  by exists r, w'.
Qed.

Lemma mirrors_sample : mirrors Samples.bucket2 Samples.raw2.
Proof.
  unfold Samples.bucket2, Samples.raw2. split.
  - intros key body. rewrite !lookup_insert_Some, lookup_empty.
    intros [[<- <-]|[_ [[<- <-]|[_ [[<- <-]|[_ [[<- <-]|[_ ?]]]]]]]] Hp Ha;
      try done.
    + by exists "000005Z.json.gz".
    + by exists "000000Z.json.gz".
  - intros name body Hd Ha.
    rewrite !lookup_insert_Some, lookup_empty in Hd.
    destruct Hd as [[<- <-]|[_ [[<- <-]|[_ [[<- <-]|[_ ?]]]]]];
      try done; by vm_compute in Ha.
Qed.

Lemma prepare_equivalent_witness :
  mirrors Samples.bucket2 Samples.raw2 /\
  (length (keys_with_prefix Samples.bucket2 S3_PREFIX) < 4)%nat /\
  exists (r : result string) (w' : world),
    S4.prepare_data Samples.conversions0 4 Samples.bucket2 Samples.world0 = Some (r, w') /\
    r = (S1.prepare_data Samples.conversions0
           {| raw_day_dir := Samples.raw2;
              prepared_db := prepared_db Samples.world0 |}).1 /\
    prepared_db w' =
      prepared_db
        (S1.prepare_data Samples.conversions0
           {| raw_day_dir := Samples.raw2;
              prepared_db := prepared_db Samples.world0 |}).2.
Proof.
  assert (length (keys_with_prefix Samples.bucket2 S3_PREFIX) < 4)%nat as Hfuel.
  { vm_compute. lia. }
  split; [exact mirrors_sample |]. split; [exact Hfuel |].
  destruct (prepare_equivalent Samples.conversions0 4 Samples.bucket2 Samples.raw2
              Samples.world0 mirrors_sample Hfuel) as (r & w' & H & _ & Hr & Hdb).
  exists r, w'. exact (conj H (conj Hr Hdb)).
Defined.

End StagingFacts.

(** ** The query endpoints that are still placeholders *)

Module PlaceholderFacts.
Import Py Sqlite Files.

(** C1 fails on the code: whatever the files hold and whatever the icao,
    [get_aircraft_position] answers with one fixed position; for an icao
    without any stored position the answer is not the empty list. *)
Lemma get_aircraft_position_unknown :
  S1.get_aircraft_position
    {| raw_day_dir := ∅; prepared_db := Some empty_db |} "UNKNOWN" 1000 0 =
    [ JDict [ ("timestamp", JReal (16092758986 # 10));
              ("lat", JReal (30404617 # 1000000));
              ("lon", JReal (- 86476566 # 1000000)) ] ] /\
  (forall w icao_ n p, S1.get_aircraft_position w icao_ n p <> []).
Proof. done. Qed.

(** C2 fails on the code: whatever the files hold and whatever the icao,
    [get_aircraft_statistics] answers with fixed numbers; with the three
    positions of the example stored for the aircraft the answer is
    300000, 493 and no emergency, not 300, 50 and an emergency. *)
Lemma get_aircraft_statistics_three :
  S1.get_aircraft_statistics
    {| raw_day_dir := ∅; prepared_db := Some Samples.three_positions |} "abc1" =
    JDict [ ("max_altitude_baro", JInt 300000);
            ("max_ground_speed", JInt 493);
            ("had_emergency", JBool false) ] /\
  S1.get_aircraft_statistics
    {| raw_day_dir := ∅; prepared_db := Some Samples.three_positions |} "abc1" <>
    JDict [ ("max_altitude_baro", JInt 300);
            ("max_ground_speed", JInt 50);
            ("had_emergency", JBool true) ].
Proof. done. Qed.

End PlaceholderFacts.

(** ** The order of the generated names *)

Module NameOrderFacts.
Import Py.

Lemma range_app (n m : Z) :
  0 <= n <= m -> range m = range n ++ (Z.of_nat <$> seq (Z.to_nat n) (Z.to_nat (m - n))).
Proof.
  intros H. unfold range. rewrite <- fmap_app. f_equal.
  replace (Z.to_nat m) with (Z.to_nat n + Z.to_nat (m - n))%nat by lia.
  by rewrite seq_app.
Qed.

Lemma elem_of_range (n i : Z) : i ∈ range n <-> 0 <= i < n.
Proof.
  unfold range. rewrite list_elem_of_fmap. split.
  - intros (k & -> & Hk%elem_of_seq). lia.
  - intros Hi. exists (Z.to_nat i). split; [lia |]. apply elem_of_seq. lia.
Qed.

Lemma filename_inj (i j : Z) :
  0 <= i -> 0 <= j -> S1.filename i = S1.filename j -> i = j.
Proof.
  intros Hi Hj E. apply (f_equal Hhmmss.seconds) in E.
  rewrite !SequencerFacts.seconds_filename in E by done.
  injection E. lia.
Qed.

(** Two padded fields below 100 compare as the numbers do, whatever
    follows them. *)
Lemma compare_fields (a b : Z) (s t : string) :
  0 <= a < b -> b < 100 ->
  String.compare (format_02d a +:+ s) (format_02d b +:+ t) = Lt.
Proof.
  intros Ha Hb.
  pose (lt2 := fun x y : Z =>
    match format_02d x, format_02d y with
    | String c1 (String c2 EmptyString), String d1 (String d2 EmptyString) =>
        match Ascii.compare c1 d1 with
        | Lt => true
        | Eq => match Ascii.compare c2 d2 with Lt => true | _ => false end
        | Gt => false
        end
    | _, _ => false
    end).
  assert (forallb (fun x => forallb (fun y => if x <? y then lt2 x y else true) (range 100))
            (range 100) = true) as Hall by (by vm_compute).
  rewrite forallb_forall in Hall.
  specialize (Hall a). rewrite forallb_forall in Hall.
  specialize (Hall ltac:(apply list_elem_of_In, elem_of_range; lia) b
                ltac:(apply list_elem_of_In, elem_of_range; lia)).
  destruct (Z.ltb_spec a b); [| lia].
  revert Hall. unfold lt2.
  destruct (format_02d a) as [|c1 [|c2 [|]]]; try done.
  destruct (format_02d b) as [|d1 [|d2 [|]]]; try done.
  simpl. destruct (Ascii.compare c1 d1); [| done | done].
  by destruct (Ascii.compare c2 d2).
Qed.

Lemma compare_app (p s t : string) :
  String.compare (p +:+ s) (p +:+ t) = String.compare s t.
Proof.
  induction p as [|c p IH]; simpl; [done |].
  unfold Ascii.compare at 1. by rewrite N.compare_refl.
Qed.

(** Below 72000 the hours have two digits, and a later name is greater
    as a string. *)
Lemma filename_compare (i j : Z) :
  0 <= i < j -> j < 72000 -> String.compare (S1.filename i) (S1.filename j) = Lt.
Proof.
  intros Hi Hj. unfold S1.filename.
  set (ti := i * 5). set (tj := j * 5).
  assert (0 <= ti < tj /\ tj < 360000) as Ht by lia.
  clearbody ti tj. clear Hi Hj.
  pose proof (Z.div_mod ti 3600 ltac:(lia)) as Di.
  pose proof (Z.div_mod tj 3600 ltac:(lia)) as Dj.
  pose proof (Z.mod_pos_bound ti 3600 ltac:(lia)) as Bi.
  pose proof (Z.mod_pos_bound tj 3600 ltac:(lia)) as Bj.
  pose proof (Z.div_mod (ti mod 3600) 60 ltac:(lia)) as Ei.
  pose proof (Z.div_mod (tj mod 3600) 60 ltac:(lia)) as Ej.
  pose proof (Z.mod_pos_bound (ti mod 3600) 60 ltac:(lia)) as Ci.
  pose proof (Z.mod_pos_bound (tj mod 3600) 60 ltac:(lia)) as Cj.
  assert (ti mod 3600 mod 60 = ti mod 60) as Mi
    by (apply Z.mod_mod_divide; exists 60; lia).
  assert (tj mod 3600 mod 60 = tj mod 60) as Mj
    by (apply Z.mod_mod_divide; exists 60; lia).
  rewrite Mi in Ei, Ci. rewrite Mj in Ej, Cj.
  set (hi := ti / 3600) in *. set (hj := tj / 3600) in *.
  set (mi := ti mod 3600 / 60) in *. set (mj := tj mod 3600 / 60) in *.
  set (si := ti mod 60) in *. set (sj := tj mod 60) in *.
  clearbody hi hj mi mj si sj.
  destruct (Z.lt_trichotomy hi hj) as [Hh|[Hh|Hh]]; [| | nia].
  { apply compare_fields; nia. }
  subst hj. rewrite compare_app.
  destruct (Z.lt_trichotomy mi mj) as [Hm|[Hm|Hm]]; [| | nia].
  { apply compare_fields; nia. }
  subst mj. rewrite compare_app.
  apply compare_fields; nia.
Qed.

Lemma compare_Lt_le (a b : string) : String.compare a b = Lt -> String.le a b.
Proof. unfold String.le, String.leb. by intros ->. Qed.

Lemma Sorted_indices (k len : nat) :
  Z.of_nat k + Z.of_nat len <= 72000 ->
  Sorted (fun i j => String.le (S1.filename i) (S1.filename j)) (Z.of_nat <$> seq k len).
Proof.
  revert k. induction len as [|len IH]; intros k Hk; simpl; [constructor |].
  constructor; [apply IH; lia |].
  destruct len as [|len]; simpl; constructor.
  apply compare_Lt_le, filename_compare; lia.
Qed.

Lemma Sorted_filenames (n : Z) :
  n <= 72000 -> Sorted String.le (S1.filename <$> range n).
Proof.
  intros Hn.
  eapply Sorted_fmap with (R1 := fun i j => String.le (S1.filename i) (S1.filename j));
    [done |].
  apply Sorted_indices. lia.
Qed.

Lemma NoDup_filenames (n : Z) : NoDup (S1.filename <$> range n).
Proof.
  apply NoDup_fmap_2_strong.
  - intros i j Hi%elem_of_range Hj%elem_of_range. apply filename_inj; lia.
  - unfold range. apply NoDup_fmap_2; [apply Nat2Z.inj' | apply NoDup_seq].
Qed.

(** X1: a larger limit extends the list of a smaller one, and a limit that is
    not positive gives no name: the names of a limit are always the first
    names of the day. *)
Theorem first_n_filenames_grows (n m : Z) :
  n <= m ->
  (n <= 0 -> S1._first_n_filenames n = []) /\
  S1._first_n_filenames n `prefix_of` S1._first_n_filenames m.
Proof.
  intros Hnm. rewrite !SequencerFacts.first_n_filenames_fmap.
  assert (n <= 0 -> range n = []) as H0.
  { intros Hn. unfold range. by replace (Z.to_nat n) with 0%nat by lia. }
  split; [by intros ->%H0 |].
  destruct (Z.le_gt_cases n 0) as [Hn|Hn].
  - rewrite H0 by done. apply prefix_nil.
  - rewrite (range_app n m) by lia. rewrite fmap_app. by apply prefix_app_r.
Qed.

Lemma first_n_filenames_grows_witness :
  2 <= 3 /\ (S1._first_n_filenames 2 `prefix_of` S1._first_n_filenames 3).
Proof.
  split; [lia |]. apply (first_n_filenames_grows 2 3). lia.
Defined.

(** X2: no name is generated twice, whatever the limit: a download never
    writes a file over one it wrote before. *)
Theorem first_n_filenames_NoDup (n : Z) :
  NoDup (S1._first_n_filenames n) /\ NoDup (S4._first_n_filenames n).
Proof.
  assert (NoDup (S1._first_n_filenames n)) as H; [| by split].
  rewrite SequencerFacts.first_n_filenames_fmap. apply NoDup_filenames.
Qed.

(** X3: up to 72000 names (a hundred hours) the names are in ascending string
    order, so sorting them, as both prepare endpoints do, keeps the order
    of generation; the bound is sharp, since name 72000 has a third hour
    digit and sorts before name 71999. *)
Theorem first_n_filenames_sorted (n : Z) :
  n <= 72000 ->
  (forall i j, 0 <= i < j -> j < n ->
     String.compare (S1.filename i) (S1.filename j) = Lt) /\
  merge_sort String.le (S1._first_n_filenames n) = S1._first_n_filenames n /\
  String.compare (S1.filename 72000) (S1.filename 71999) = Lt.
Proof.
  intros Hn. split; [intros i j Hi Hj; apply filename_compare; lia |].
  split; [| by vm_compute].
  apply (Sorted_unique String.le).
  - apply (Sorted_merge_sort String.le).
  - rewrite SequencerFacts.first_n_filenames_fmap. by apply Sorted_filenames.
  - apply merge_sort_Permutation.
Qed.

Lemma first_n_filenames_sorted_witness :
  100 <= 72000 /\
  merge_sort String.le (S1._first_n_filenames 100) = S1._first_n_filenames 100.
Proof.
  split; [lia |]. apply (first_n_filenames_sorted 100). lia.
Defined.

End NameOrderFacts.

(** ** The download endpoints *)

Module DownloadFacts.
Import Py Sqlite Files.

(** The loop of s1 over names that are all served, then the rest of the
    names: the directory before the rest holds what was served. *)
Lemma fetch_files_app (srv : Requests.server) (u : string) (l1 l2 : list string)
    (dir : gmap string file) :
  (forall f, f ∈ l1 -> exists body, Requests.fetch srv (u +:+ f) = inr body) ->
  exists dir',
    S1.fetch_files srv u (l1 ++ l2) dir = S1.fetch_files srv u l2 dir' /\
    forall f body,
      dir' !! f = Some body <->
      (f ∈ l1 /\ Requests.fetch srv (u +:+ f) = inr body) \/
      ((f ∉ l1) /\ dir !! f = Some body).
Proof.
  revert dir. induction l1 as [|f0 l1 IH]; intros dir Hall; simpl.
  - exists dir. split; [done |]. intros f body. split.
    + intros H. right. split; [apply not_elem_of_nil | done].
    + intros [[[]%elem_of_nil _]|[_ H]]. done.
  - destruct (Hall f0) as [b0 Hb0]; [left |]. rewrite Hb0.
    destruct (IH (<[f0 := b0]> dir)) as (dir' & -> & Hdir');
      [intros f Hf; apply Hall; by right |].
    exists dir'. split; [done |]. intros f body. rewrite Hdir'. split.
    + intros [[Hin Hf]|[Hnot Hlook]].
      * left. split; [by right | done].
      * destruct (decide (f = f0)) as [->|Hne].
        -- rewrite lookup_insert_eq in Hlook. injection Hlook as <-.
           left. split; [left | done].
        -- rewrite lookup_insert_ne in Hlook by done.
           right. split; [| done]. by intros [->|?]%elem_of_cons.
    + intros [[Hin Hf]|[Hnot Hlook]].
      * destruct (decide (f ∈ l1)) as [Hl1|Hl1]; [by left |].
        apply elem_of_cons in Hin as [->|Hin]; [| done].
        right. split; [done |]. rewrite lookup_insert_eq. congruence.
      * right. apply not_elem_of_cons in Hnot as [Hne Hnot]. split; [done |].
        by rewrite lookup_insert_ne.
Qed.

Lemma elem_of_first_n (n : Z) (f : string) :
  f ∈ S1._first_n_filenames n <-> exists i, 0 <= i < n /\ f = S1.filename i.
Proof.
  rewrite SequencerFacts.first_n_filenames_fmap, list_elem_of_fmap.
  split; intros (i & H1 & H2).
  - exists i. by apply NameOrderFacts.elem_of_range in H2.
  - exists i. by apply NameOrderFacts.elem_of_range in H1.
Qed.

Lemma endswith_filename (i : Z) : endswith (S1.filename i) ".json.gz" = true.
Proof.
  unfold S1.filename. do 3 apply StagingFacts.endswith_app. by vm_compute.
Qed.

(** X4: when every name of the limit is served, [download_data] of s1 answers
    OK and leaves in the raw directory exactly these names, each with the
    content served for it, whatever the directory held before; the
    prepared database is as before. *)
Theorem download_writes_the_names (srv : Requests.server) (source_url : string)
    (file_limit : Z) (w : world) :
  (forall i, 0 <= i < file_limit ->
     exists body,
       Requests.fetch srv (S1.day_url source_url +:+ S1.filename i) = inr body) ->
  exists dir,
    S1.download_data srv source_url file_limit w =
      (inr "OK", {| raw_day_dir := dir; prepared_db := prepared_db w |}) /\
    (forall f body,
       dir !! f = Some body <->
       exists i, 0 <= i < file_limit /\ f = S1.filename i /\
         Requests.fetch srv (S1.day_url source_url +:+ f) = inr body) /\
    size dir = Z.to_nat file_limit.
Proof.
  intros Hall. unfold S1.download_data.
  destruct (fetch_files_app srv (S1.day_url source_url)
              (S1._first_n_filenames file_limit) [] ∅) as (dir & Hrun & Hdir).
  { intros f (i & Hi & ->)%elem_of_first_n. by apply Hall. }
  rewrite app_nil_r in Hrun. rewrite Hrun. simpl.
  exists dir. split; [done |].
  assert (forall f body,
    dir !! f = Some body <->
    exists i, 0 <= i < file_limit /\ f = S1.filename i /\
      Requests.fetch srv (S1.day_url source_url +:+ f) = inr body) as Hchar.
  { intros f body. rewrite Hdir, elem_of_first_n, lookup_empty. split.
    - intros [[(i & Hi & ->) Hf]|[_ ?]]; [by exists i | done].
    - intros (i & Hi & -> & Hf). left. split; [by exists i | done]. }
  split; [done |].
  assert (dom dir = list_to_set (S1._first_n_filenames file_limit)) as Hdom.
  { apply set_eq. intros f.
    rewrite elem_of_dom, elem_of_list_to_set, elem_of_first_n. split.
    - intros [body (i & Hi & -> & _)%Hchar]. by exists i.
    - intros (i & Hi & ->). destruct (Hall i Hi) as [body Hbody].
      exists body. apply Hchar. by exists i. }
  rewrite <- size_dom, Hdom, SequencerFacts.first_n_filenames_fmap.
  rewrite size_list_to_set by apply NameOrderFacts.NoDup_filenames. unfold range.
  by rewrite !length_fmap, length_seq.
Qed.

Lemma download_writes_the_names_witness :
  (forall i, 0 <= i < 2 ->
     exists body,
       Requests.fetch Samples.server2
         (S1.day_url "http://host/readsb-hist/" +:+ S1.filename i) = inr body) /\
  exists dir,
    S1.download_data Samples.server2 "http://host/readsb-hist/" 2 Samples.world0 =
      (inr "OK", {| raw_day_dir := dir; prepared_db := prepared_db Samples.world0 |}) /\
    size dir = Z.to_nat 2.
Proof.
  assert (forall i, 0 <= i < 2 ->
    exists body,
      Requests.fetch Samples.server2
        (S1.day_url "http://host/readsb-hist/" +:+ S1.filename i) = inr body) as Hall.
  { intros i Hi. assert (i = 0 \/ i = 1) as [-> | ->] by lia; by eexists. }
  split; [exact Hall |].
  destruct (download_writes_the_names Samples.server2 "http://host/readsb-hist/" 2
              Samples.world0 Hall) as (dir & Hrun & _ & Hsize).
  exists dir. exact (conj Hrun Hsize).
Defined.

(** X5: when name [i] is the first that is not served, [download_data] of s1
    raises the error of that request and leaves in the raw directory
    exactly the [i] files before it: the names after it are not asked
    for. *)
Theorem download_stops_at_first_failure (srv : Requests.server) (source_url : string)
    (file_limit : Z) (w : world) (i : Z) (e : Requests.error) :
  0 <= i < file_limit ->
  (forall k, 0 <= k < i ->
     exists body,
       Requests.fetch srv (S1.day_url source_url +:+ S1.filename k) = inr body) ->
  Requests.fetch srv (S1.day_url source_url +:+ S1.filename i) = inl e ->
  exists dir,
    S1.download_data srv source_url file_limit w =
      (inl e, {| raw_day_dir := dir; prepared_db := prepared_db w |}) /\
    (forall f body,
       dir !! f = Some body <->
       exists k, 0 <= k < i /\ f = S1.filename k /\
         Requests.fetch srv (S1.day_url source_url +:+ f) = inr body) /\
    size dir = Z.to_nat i.
Proof.
  intros Hi Hbefore Hfail. unfold S1.download_data.
  assert (exists rest,
    S1._first_n_filenames file_limit =
      S1._first_n_filenames i ++ S1.filename i :: rest) as [rest ->].
  { rewrite !SequencerFacts.first_n_filenames_fmap.
    rewrite (NameOrderFacts.range_app i file_limit) by lia.
    destruct (Z.to_nat (file_limit - i)) as [|len] eqn:Hlen; [lia |].
    simpl. rewrite fmap_app, fmap_cons, Z2Nat.id by lia. by eexists. }
  destruct (fetch_files_app srv (S1.day_url source_url)
              (S1._first_n_filenames i) (S1.filename i :: rest) ∅)
    as (dir & Hrun & Hdir).
  { intros f (k & Hk & ->)%elem_of_first_n. by apply Hbefore. }
  rewrite Hrun. simpl. rewrite Hfail.
  exists dir. split; [done |].
  assert (forall f body,
    dir !! f = Some body <->
    exists k, 0 <= k < i /\ f = S1.filename k /\
      Requests.fetch srv (S1.day_url source_url +:+ f) = inr body) as Hchar.
  { intros f body. rewrite Hdir, elem_of_first_n, lookup_empty. split.
    - intros [[(k & Hk & ->) Hf]|[_ ?]]; [by exists k | done].
    - intros (k & Hk & -> & Hf). left. split; [by exists k | done]. }
  split; [done |].
  assert (dom dir = list_to_set (S1._first_n_filenames i)) as Hdom.
  { apply set_eq. intros f.
    rewrite elem_of_dom, elem_of_list_to_set, elem_of_first_n. split.
    - intros [body (k & Hk & -> & _)%Hchar]. by exists k.
    - intros (k & Hk & ->). destruct (Hbefore k Hk) as [body Hbody].
      exists body. apply Hchar. by exists k. }
  rewrite <- size_dom, Hdom, SequencerFacts.first_n_filenames_fmap.
  rewrite size_list_to_set by apply NameOrderFacts.NoDup_filenames. unfold range.
  by rewrite !length_fmap, length_seq.
Qed.

Lemma download_stops_at_first_failure_witness :
  0 <= 2 < 5 /\
  (forall k, 0 <= k < 2 ->
     exists body,
       Requests.fetch Samples.server2
         (S1.day_url "http://host/readsb-hist/" +:+ S1.filename k) = inr body) /\
  Requests.fetch Samples.server2
    (S1.day_url "http://host/readsb-hist/" +:+ S1.filename 2) =
    inl (Requests.HTTPError 404) /\
  exists dir,
    S1.download_data Samples.server2 "http://host/readsb-hist/" 5 Samples.world0 =
      (inl (Requests.HTTPError 404),
       {| raw_day_dir := dir; prepared_db := prepared_db Samples.world0 |}) /\
    size dir = Z.to_nat 2.
Proof.
  assert (0 <= 2 < 5) as Hi by lia.
  assert (forall k, 0 <= k < 2 ->
    exists body,
      Requests.fetch Samples.server2
        (S1.day_url "http://host/readsb-hist/" +:+ S1.filename k) = inr body) as Hall.
  { intros k Hk. assert (k = 0 \/ k = 1) as [-> | ->] by lia; by eexists. }
  split; [exact Hi |]. split; [exact Hall |]. split; [reflexivity |].
  destruct (download_stops_at_first_failure Samples.server2 "http://host/readsb-hist/" 5
              Samples.world0 2 (Requests.HTTPError 404) Hi Hall eq_refl)
    as (dir & Hrun & _ & Hsize).
  exists dir. exact (conj Hrun Hsize).
Defined.

Local Instance by_name_total : Total by_name.
Proof. intros e1 e2. apply (total String.le). Qed.

Local Instance by_name_trans : Transitive by_name.
Proof. intros e1 e2 e3. apply (transitivity (R := String.le)). Qed.

(** The files the prepare of s1 finds after a download of at most 72000
    files that are all served: those of the download, by index. *)
Lemma sorted_glob_download (srv : Requests.server) (source_url : string) (n : Z)
    (w : world) (got : Z -> file) :
  n <= 72000 ->
  (forall i, 0 <= i < n ->
     Requests.fetch srv (S1.day_url source_url +:+ S1.filename i) = inr (got i)) ->
  sorted_glob (raw_day_dir (S1.download_data srv source_url n w).2) =
    (fun i => (S1.filename i, got i)) <$> range n.
Proof.
  intros Hn Hall.
  destruct (fetch_files_app srv (S1.day_url source_url) (S1._first_n_filenames n) [] ∅)
    as (dir & Hrun & Hdir).
  { intros f (i & Hi & ->)%elem_of_first_n. eexists. by apply Hall. }
  rewrite app_nil_r in Hrun.
  assert (raw_day_dir (S1.download_data srv source_url n w).2 = dir) as ->.
  { unfold S1.download_data. by rewrite Hrun. }
  assert (forall f body,
    dir !! f = Some body <-> exists i, 0 <= i < n /\ f = S1.filename i /\ body = got i)
    as Hchar.
  { intros f body. rewrite Hdir, elem_of_first_n, lookup_empty. split.
    - intros [[(i & Hi & ->) Hf]|[_ ?]]; [| done].
      exists i. rewrite Hall in Hf by done. by injection Hf as <-.
    - intros (i & Hi & -> & ->). left. split; [by exists i | by apply Hall]. }
  unfold sorted_glob.
  apply (Sorted_unique_strong by_name).
  - intros [f1 b1] [f2 b2] H1 H2 Hle1 Hle2.
    rewrite merge_sort_Permutation, elem_of_map_to_list in H1.
    apply map_lookup_filter_Some in H1 as [H1 _].
    apply list_elem_of_fmap in H2 as (i & [= -> ->] & Hi%NameOrderFacts.elem_of_range).
    assert (f1 = S1.filename i) as -> by (by apply (anti_symm String.le)).
    apply Hchar in H1 as (k & Hk & Hname & ->).
    apply NameOrderFacts.filename_inj in Hname; [by subst k | lia..].
  - apply (Sorted_merge_sort by_name).
  - eapply Sorted_fmap
      with (R1 := fun i j => String.le (S1.filename i) (S1.filename j)); [done |].
    apply NameOrderFacts.Sorted_indices. lia.
  - rewrite merge_sort_Permutation. apply NoDup_Permutation.
    + apply NoDup_map_to_list.
    + apply NoDup_fmap_2_strong.
      * intros i j Hi%NameOrderFacts.elem_of_range Hj%NameOrderFacts.elem_of_range [= E _].
        apply NameOrderFacts.filename_inj in E; lia.
      * unfold range. apply NoDup_fmap_2; [apply Nat2Z.inj' | apply NoDup_seq].
    + intros [f body]. rewrite elem_of_map_to_list, map_lookup_filter_Some, Hchar.
      rewrite list_elem_of_fmap. simpl. split.
      * intros [(i & Hi & -> & ->) _]. exists i.
        split; [done | by apply NameOrderFacts.elem_of_range].
      * intros (i & [= -> ->] & Hi%NameOrderFacts.elem_of_range).
        split; [by exists i | apply endswith_filename].
Qed.

Lemma range_nonempty (n : Z) : 1 <= n -> range n <> [].
Proof.
  intros Hn E. apply (f_equal length) in E.
  unfold range in E. rewrite length_fmap, length_seq in E. simpl in E. lia.
Qed.

(** X6: after a download of at most 72000 files that are all served, the
    files [prepare_data] of s1 reads, in the order it reads them, are the
    files of the download in the order of their names' times; with one
    file at least, the run is the loop over these files from the empty
    database. *)
Theorem download_then_glob (cv : conversions) (srv : Requests.server)
    (source_url : string) (n : Z) (w : world) (got : Z -> file) :
  n <= 72000 ->
  (forall i, 0 <= i < n ->
     Requests.fetch srv (S1.day_url source_url +:+ S1.filename i) = inr (got i)) ->
  let w' := (S1.download_data srv source_url n w).2 in
  let files := (fun i => (S1.filename i, got i)) <$> range n in
  sorted_glob (raw_day_dir w') = files /\
  (1 <= n ->
     (S1.prepare_data cv w').1 =
       match for_each (S1.process_file cv) files empty_db with
       | Ok _ => Ok "OK"
       | Raise e => Raise e
       end).
Proof.
  intros Hn Hall w' files.
  pose proof (sorted_glob_download srv source_url n w got Hn Hall) as Hglob.
  split; [done |]. intros H1. unfold S1.prepare_data. subst w'. rewrite Hglob.
  fold files. pose proof (range_nonempty n H1) as Hne.
  destruct files as [|file0 files0] eqn:Hfiles.
  - subst files. by destruct (range n).
  - by destruct (for_each _ _ _).
Qed.

Lemma download_then_glob_witness :
  2 <= 72000 /\
  (forall i, 0 <= i < 2 ->
     Requests.fetch Samples.server2
       (S1.day_url "http://host/readsb-hist/" +:+ S1.filename i) =
       inr (if i =? 0 then Some Samples.snapshot1 else Some Samples.snapshot2)) /\
  sorted_glob
    (raw_day_dir
       (S1.download_data Samples.server2 "http://host/readsb-hist/" 2 Samples.world0).2) =
    (fun i => (S1.filename i,
               if i =? 0 then Some Samples.snapshot1 else Some Samples.snapshot2))
      <$> range 2.
Proof.
  assert (2 <= 72000) as Hn by lia.
  assert (forall i, 0 <= i < 2 ->
    Requests.fetch Samples.server2
      (S1.day_url "http://host/readsb-hist/" +:+ S1.filename i) =
      inr (if i =? 0 then Some Samples.snapshot1 else Some Samples.snapshot2)) as Hall.
  { intros i Hi. assert (i = 0 \/ i = 1) as [-> | ->] by lia; reflexivity. }
  split; [exact Hn |]. split; [exact Hall |].
  exact (proj1 (download_then_glob Samples.conversions0 Samples.server2
                  "http://host/readsb-hist/" 2 Samples.world0 _ Hn Hall)).
Defined.

(** X7: a limit that is not positive: [download_data] of s1 asks for nothing,
    answers OK and leaves the raw directory empty, whatever it held; the
    prepare that follows raises its RuntimeError and leaves no
    database. *)
Theorem download_nothing_then_prepare (cv : conversions) (srv : Requests.server)
    (source_url : string) (n : Z) (w : world) :
  n <= 0 ->
  S1.download_data srv source_url n w =
    (inr "OK", {| raw_day_dir := ∅; prepared_db := prepared_db w |}) /\
  S1.prepare_data cv (S1.download_data srv source_url n w).2 =
    (Raise (RuntimeError "No raw files found. Run download first."),
     {| raw_day_dir := ∅; prepared_db := None |}).
Proof.
  intros Hn.
  assert (S1._first_n_filenames n = []) as Hnone.
  { rewrite SequencerFacts.first_n_filenames_fmap. unfold range.
    by replace (Z.to_nat n) with 0%nat by lia. }
  unfold S1.download_data. rewrite Hnone. simpl. split; [done |].
  unfold S1.prepare_data. rewrite PrepareFacts.sorted_glob_nil; [done |].
  intros name f. simpl. by rewrite lookup_empty.
Qed.

Lemma download_nothing_then_prepare_witness :
  0 <= 0 /\
  S1.prepare_data Samples.conversions0
    (S1.download_data Samples.server2 "http://host/readsb-hist/" 0 Samples.world2).2 =
    (Raise (RuntimeError "No raw files found. Run download first."),
     {| raw_day_dir := ∅; prepared_db := None |}).
Proof.
  split; [lia |].
  apply (download_nothing_then_prepare Samples.conversions0 Samples.server2
           "http://host/readsb-hist/" 0 Samples.world2). lia.
Defined.

End DownloadFacts.

(** ** The URL of the day *)

Module UrlFacts.
Import Py.

Lemma rstrip_app_slash (s : string) : rstrip (s +:+ "/") "/" = rstrip s "/".
Proof. induction s as [|a s IH]; simpl; [done |]. by rewrite IH. Qed.

(** X8: [_day_url] of s4 always ends with the archive path of the day, and
    neither it nor the URL of s1 depends on a slash at the end of the
    source URL. *)
Theorem day_url_robust (source_url : string) :
  endswith (S4._day_url source_url) "/readsb-hist/2023/11/01/" = true /\
  S4._day_url (source_url +:+ "/") = S4._day_url source_url /\
  S1.day_url (source_url +:+ "/") = S1.day_url source_url.
Proof.
  unfold S4._day_url, S1.day_url. rewrite rstrip_app_slash.
  split; [| done].
  destruct (endswith (rstrip source_url "/") "/readsb-hist") eqn:E.
  - revert E. unfold endswith. rewrite !bool_decide_eq_true.
    rewrite SequencerFacts.list_ascii_app. intros [k ->].
    exists k. by rewrite <- (assoc_L (++)).
  - by apply StagingFacts.endswith_app.
Qed.

(** X9: the two download endpoints ask for the same URLs exactly when the
    source URL, without its trailing slashes, ends with [/readsb-hist]:
    s1 does not add it. *)
Theorem day_urls_agree (source_url : string) :
  S1.day_url source_url = S4._day_url source_url <->
  endswith (rstrip source_url "/") "/readsb-hist" = true.
Proof.
  unfold S4._day_url, S1.day_url.
  destruct (endswith (rstrip source_url "/") "/readsb-hist"); split; try done.
  by intros E%(inj (String.app _)).
Qed.

End UrlFacts.

(** ** The download of s4 into the bucket *)

Module BucketFacts.
Import Py Sqlite Files S3 S4.

(** The loop of s4 over names that are all served, then the rest of the
    names: the bucket before the rest. *)
Lemma put_files_app (srv : Requests.server) (u : string) (l1 l2 : list string)
    (b : gmap string file) :
  (forall f, f ∈ l1 -> exists body, Requests.fetch srv (u +:+ f) = inr body) ->
  exists b',
    put_files srv u (l1 ++ l2) b = put_files srv u l2 b' /\
    forall key body,
      b' !! key = Some body <->
      (exists f, f ∈ l1 /\ key = S3_PREFIX +:+ f /\
         Requests.fetch srv (u +:+ f) = inr body) \/
      ((key ∉ String.app S3_PREFIX <$> l1) /\ b !! key = Some body).
Proof.
  revert b. induction l1 as [|f0 l1 IH]; intros b Hall; simpl.
  - exists b. split; [done |]. intros key body. split.
    + intros H. right. split; [apply not_elem_of_nil | done].
    + intros [(f & []%elem_of_nil & _)|[_ H]]. done.
  - destruct (Hall f0) as [b0 Hb0]; [left |]. rewrite Hb0.
    destruct (IH (<[S3_PREFIX +:+ f0 := b0]> b)) as (b' & -> & Hb');
      [intros f Hf; apply Hall; by right |].
    exists b'. split; [done |]. intros key body. rewrite Hb'. split.
    + intros [(f & Hin & Hkey & Hf)|[Hnot Hlook]].
      * left. exists f. split; [by right | done].
      * destruct (decide (key = S3_PREFIX +:+ f0)) as [->|Hne].
        -- rewrite lookup_insert_eq in Hlook. injection Hlook as <-.
           left. exists f0. split; [left | done].
        -- rewrite lookup_insert_ne in Hlook by done.
           right. split; [| done]. by intros [->|?]%elem_of_cons.
    + intros [(f & Hin & -> & Hf)|[Hnot Hlook]].
      * destruct (decide (f ∈ l1)) as [Hl1|Hl1]; [left; by exists f |].
        apply elem_of_cons in Hin as [->|Hin]; [| done].
        right. split.
        -- intros (f & E%(inj (String.app _)) & Hf1)%list_elem_of_fmap. by subst f.
        -- rewrite lookup_insert_eq. congruence.
      * right. apply not_elem_of_cons in Hnot as [Hne Hnot]. split; [done |].
        by rewrite lookup_insert_ne.
Qed.

(** Whether the loop ends or fails, a key it does not write keeps its
    object. *)
Lemma put_files_other (srv : Requests.server) (u : string) (names : list string)
    (b : gmap string file) (key : string) :
  key ∉ String.app S3_PREFIX <$> names ->
  (put_files srv u names b).2 !! key = b !! key.
Proof.
  revert b. induction names as [|f names IH]; intros b Hkey; simpl; [done |].
  apply not_elem_of_cons in Hkey as [Hne Hkey].
  destruct (Requests.fetch srv (u +:+ f)) as [e|body]; simpl; [done |].
  rewrite IH by done. by rewrite lookup_insert_ne.
Qed.

Lemma first_n_same (n : Z) : S4._first_n_filenames n = S1._first_n_filenames n.
Proof. done. Qed.

(** X10: [download_data] of s4 deletes nothing: whether it ends or fails, every
    key that is not the prefix followed by one of the names of the limit
    keeps the object it had, so the objects of an earlier download with a
    larger limit stay in the bucket. *)
Theorem download_keeps_other_objects (srv : Requests.server) (source_url : string)
    (n : Z) (b : gmap string file) (key : string) :
  (forall i, 0 <= i < n -> key <> S3_PREFIX +:+ S4.filename i) ->
  (S4.download_data srv source_url n b).2 !! key = b !! key.
Proof.
  intros Hkey. unfold S4.download_data.
  pose proof (put_files_other srv (_day_url source_url) (_first_n_filenames n) b key)
    as Hother.
  destruct (put_files _ _ _ _) as [failure b']. simpl in *. apply Hother.
  intros (f & -> & (i & Hi & ->)%DownloadFacts.elem_of_first_n)%list_elem_of_fmap.
  by apply (Hkey i).
Qed.

Lemma download_keeps_other_objects_witness :
  (forall i, 0 <= i < 1 ->
     "raw/day=20231101/000005Z.json.gz" <> S3_PREFIX +:+ S4.filename i) /\
  (S4.download_data Samples.server2 "http://host" 1 Samples.bucket2).2
    !! "raw/day=20231101/000005Z.json.gz" = Some (Some Samples.snapshot2).
Proof.
  assert (forall i, 0 <= i < 1 ->
    "raw/day=20231101/000005Z.json.gz" <> S3_PREFIX +:+ S4.filename i) as Hkey.
  { intros i Hi. assert (i = 0) as -> by lia. discriminate. }
  split; [exact Hkey |].
  etrans; [exact (download_keeps_other_objects Samples.server2 "http://host" 1
                    Samples.bucket2 _ Hkey) | reflexivity].
Defined.

End BucketFacts.

(** ** The two pipelines side by side *)

Module PipelineFacts.
Import Py Sqlite Files S3 S4.

Lemma has_slash_digits (n : N) : has_slash (digits n) = false.
Proof.
  unfold digits.
  assert (forall d, has_slash (NilEmpty.string_of_uint d) = false) as H
    by (induction d; simpl; auto).
  destruct (N.to_uint n); try apply H. done.
Qed.

Lemma has_slash_format_02d (z : Z) : has_slash (format_02d z) = false.
Proof.
  unfold format_02d. destruct (z <? 0).
  - by rewrite StagingFacts.has_slash_app, has_slash_digits.
  - destruct (_ <? _)%nat; [| apply has_slash_digits].
    by rewrite StagingFacts.has_slash_app, has_slash_digits.
Qed.

Lemma has_slash_filename (i : Z) : has_slash (S1.filename i) = false.
Proof.
  unfold S1.filename. by rewrite !StagingFacts.has_slash_app, !has_slash_format_02d.
Qed.

(** The prepare of s4 on a bucket that mirrors a directory: it ends, and
    answers and leaves the database as the prepare of s1 on the
    directory. *)
Lemma prepare_of_mirror (cv : conversions) (fuel : nat) (b dir : gmap string file)
    (w : world) :
  mirrors b dir ->
  (length (keys_with_prefix b S3_PREFIX) < fuel)%nat ->
  exists (r : result string) (w' : world),
    S4.prepare_data cv fuel b w = Some (r, w') /\
    raw_day_dir w' = filter (fun e => endswith e.1 ".json.gz" = true) dir /\
    r = (S1.prepare_data cv {| raw_day_dir := dir; prepared_db := prepared_db w |}).1 /\
    prepared_db w' =
      prepared_db
        (S1.prepare_data cv {| raw_day_dir := dir; prepared_db := prepared_db w |}).2.
Proof.
  intros [Hb Hdir] Hfuel.
  destruct (StagingFacts.staged_keys b fuel Hfuel) as (keys & Hkeys & Hnd & Hin).
  set (sorted := merge_sort String.le keys) in *.
  assert (forall key, key ∈ sorted ->
            exists name body, key = S3_PREFIX +:+ name /\
              split_slash_last key = name /\ b !! key = Some body /\
              dir !! name = Some body /\ endswith name ".json.gz" = true) as Hkey.
  { intros key ([body Hbody] & Hp & Ha)%Hin.
    destruct (Hb key body Hbody Hp Ha) as (name & -> & Hname & Hd).
    exists name, body. rewrite StagingFacts.split_under_prefix by done.
    repeat split; try done.
    rewrite <- (StagingFacts.split_under_prefix name Hname).
    by apply StagingFacts.endswith_split. }
  destruct (StagingFacts.download_all_lookup b sorted ∅) as (staged & Hload & Hstaged).
  { intros key (name & body & _ & _ & Hbody & _)%Hkey. by exists body. }
  { apply NoDup_fmap_2_strong; [| done].
    intros k1 k2 (n1 & b1 & -> & H1 & _)%Hkey (n2 & b2 & -> & H2 & _)%Hkey.
    congruence. }
  assert (staged = filter (fun e => endswith e.1 ".json.gz" = true) dir) as ->.
  { apply map_eq. intros name. apply option_eq. intros body.
    rewrite Hstaged, map_lookup_filter_Some. simpl. split.
    - intros [(key & (n & bd & _ & Hn & Hbd & Hd & Ha)%Hkey & Hname & Hbody)|[_ H]];
        [| by rewrite lookup_empty in H].
      split; congruence.
    - intros [Hd Ha]. left. exists (S3_PREFIX +:+ name).
      pose proof (Hdir name body Hd Ha) as Hbody.
      assert (S3_PREFIX +:+ name ∈ sorted) as Hk.
      { apply Hin. split; [by exists body |].
        split; [apply StagingFacts.prefix_under_prefix |].
        by apply StagingFacts.endswith_app. }
      split; [done |].
      destruct (Hkey _ Hk) as (n & bd & E & Hn & _).
      apply (inj (String.app S3_PREFIX)) in E. by subst n. }
  unfold S4.prepare_data. rewrite Hkeys. simpl. fold sorted. rewrite Hload.
  pose proof (StagingFacts.prepare_on_archives cv dir (prepared_db w)) as [H1 [H2 H3]].
  simpl in H1, H2, H3.
  destruct (S1.prepare_data cv
    {| raw_day_dir := filter (fun e : string * file => endswith e.1 ".json.gz" = true) dir;
       prepared_db := prepared_db w |}) as [r w'].
  exists r, w'. exact (conj eq_refl (conj H1 (conj H2 H3))).
Qed.

(** Both downloads from one server, when the two URLs agree and every
    name of the limit is served: the bucket s4 leaves mirrors the raw
    directory s1 leaves, provided the archives the bucket held under the
    prefix were files of this limit (as in a bucket that is new, or was
    filled with the same limit). *)
Lemma downloads_mirror (srv : Requests.server) (source_url : string) (n : Z)
    (b : gmap string file) (w : world) :
  endswith (rstrip source_url "/") "/readsb-hist" = true ->
  (forall key, is_Some (b !! key) -> String.prefix S3_PREFIX key = true ->
     endswith key ".json.gz" = true ->
     exists i, 0 <= i < n /\ key = S3_PREFIX +:+ S1.filename i) ->
  (forall i, 0 <= i < n ->
     exists body,
       Requests.fetch srv (S1.day_url source_url +:+ S1.filename i) = inr body) ->
  (S4.download_data srv source_url n b).1 = inr "OK" /\
  (S1.download_data srv source_url n w).1 = inr "OK" /\
  mirrors (S4.download_data srv source_url n b).2
    (raw_day_dir (S1.download_data srv source_url n w).2).
Proof.
  intros Hurl Hold Hall.
  assert (_day_url source_url = S1.day_url source_url) as Hsame.
  { unfold _day_url, S1.day_url. by rewrite Hurl. }
  unfold S4.download_data, S1.download_data. rewrite Hsame.
  change (_first_n_filenames n) with (S1._first_n_filenames n).
  destruct (BucketFacts.put_files_app srv (S1.day_url source_url)
              (S1._first_n_filenames n) [] b) as (b' & Hput & Hb').
  { intros f (i & Hi & ->)%DownloadFacts.elem_of_first_n. by apply Hall. }
  destruct (DownloadFacts.fetch_files_app srv (S1.day_url source_url)
              (S1._first_n_filenames n) [] ∅) as (dir & Hfetch & Hdir).
  { intros f (i & Hi & ->)%DownloadFacts.elem_of_first_n. by apply Hall. }
  rewrite app_nil_r in Hput, Hfetch. rewrite Hput, Hfetch. simpl.
  split; [done |]. split; [done |]. split.
  - intros key body Hkey Hp Ha. apply Hb' in Hkey as [(f & Hf & -> & Hbody)|[Hnot Hkey]].
    + exists f. split; [done |]. split.
      * apply DownloadFacts.elem_of_first_n in Hf as (i & _ & ->).
        apply has_slash_filename.
      * apply Hdir. by left.
    + destruct Hnot. destruct (Hold key) as (i & Hi & ->); [by eexists | done..|].
      apply list_elem_of_fmap. exists (S1.filename i). split; [done |].
      apply DownloadFacts.elem_of_first_n. by exists i.
  - intros name body Hname Ha.
    apply Hdir in Hname as [[Hin Hbody]|[_ Hname]]; [| by rewrite lookup_empty in Hname].
    apply Hb'. left. by exists name.
Qed.

(** X11: the two pipelines agree.  With a source URL that ends in
    [/readsb-hist] (otherwise the two downloads ask for different URLs),
    a server that serves every name of the limit, and a bucket whose
    archives under the prefix are files of this limit: download and
    prepare of s4 end with the response, the raw files and the database
    that download and prepare of s1 end with. *)
Theorem pipelines_agree (cv : conversions) (srv : Requests.server)
    (source_url : string) (n : Z) (b : gmap string file) (w : world) (fuel : nat) :
  endswith (rstrip source_url "/") "/readsb-hist" = true ->
  (forall key, is_Some (b !! key) -> String.prefix S3_PREFIX key = true ->
     endswith key ".json.gz" = true ->
     exists i, 0 <= i < n /\ key = S3_PREFIX +:+ S1.filename i) ->
  (forall i, 0 <= i < n ->
     exists body,
       Requests.fetch srv (S1.day_url source_url +:+ S1.filename i) = inr body) ->
  (length (keys_with_prefix (S4.download_data srv source_url n b).2 S3_PREFIX) < fuel)%nat ->
  (S4.download_data srv source_url n b).1 = (S1.download_data srv source_url n w).1 /\
  S4.prepare_data cv fuel (S4.download_data srv source_url n b).2 w =
    Some (S1.prepare_data cv (S1.download_data srv source_url n w).2).
Proof.
  intros Hurl Hold Hall Hfuel.
  destruct (downloads_mirror srv source_url n b w Hurl Hold Hall) as (H4 & H1 & Hm).
  split; [congruence |].
  destruct (prepare_of_mirror cv fuel _ _ w Hm Hfuel) as (r & w' & -> & Hraw & -> & Hdb).
  f_equal.
  assert (prepared_db (S1.download_data srv source_url n w).2 = prepared_db w) as Hold_db.
  { unfold S1.download_data. by destruct (S1.fetch_files _ _ _ _). }
  assert ({| raw_day_dir := raw_day_dir (S1.download_data srv source_url n w).2;
             prepared_db := prepared_db w |} = (S1.download_data srv source_url n w).2)
    as Hw.
  { rewrite <- Hold_db. by destruct (S1.download_data srv source_url n w).2. }
  rewrite Hw in Hdb |- *.
  assert (raw_day_dir w' = raw_day_dir (S1.prepare_data cv (S1.download_data srv source_url n w).2).2)
    as Hraw'.
  { rewrite Hraw, PrepareFacts.prepare_keeps_raw.
    apply map_filter_id. intros name body Hname. simpl.
    destruct (DownloadFacts.fetch_files_app srv (S1.day_url source_url)
                (S1._first_n_filenames n) [] ∅) as (dir & Hfetch & Hdir).
    { intros f (i & Hi & ->)%DownloadFacts.elem_of_first_n. by apply Hall. }
    rewrite app_nil_r in Hfetch. unfold S1.download_data in Hname.
    rewrite Hfetch in Hname. simpl in Hname.
    apply Hdir in Hname as [[(i & _ & ->)%DownloadFacts.elem_of_first_n _]|[_ Hname]];
      [apply DownloadFacts.endswith_filename | by rewrite lookup_empty in Hname]. }
  destruct (S1.prepare_data cv (S1.download_data srv source_url n w).2) as [r [raw db]].
  destruct w' as [raw' db']. simpl in *. by subst.
Qed.

Lemma pipelines_agree_witness :
  endswith (rstrip "http://host/readsb-hist/" "/") "/readsb-hist" = true /\
  (forall i, 0 <= i < 2 ->
     exists body,
       Requests.fetch Samples.server2
         (S1.day_url "http://host/readsb-hist/" +:+ S1.filename i) = inr body) /\
  S4.prepare_data Samples.conversions0 3
    (S4.download_data Samples.server2 "http://host/readsb-hist/" 2 ∅).2 Samples.world0 =
    Some (S1.prepare_data Samples.conversions0
            (S1.download_data Samples.server2 "http://host/readsb-hist/" 2
               Samples.world0).2).
Proof.
  assert (endswith (rstrip "http://host/readsb-hist/" "/") "/readsb-hist" = true)
    as Hurl by reflexivity.
  assert (forall key, is_Some ((∅ : gmap string file) !! key) ->
    String.prefix S3_PREFIX key = true -> endswith key ".json.gz" = true ->
    exists i, 0 <= i < 2 /\ key = S3_PREFIX +:+ S1.filename i) as Hold.
  { intros key [body Hbody]. by rewrite lookup_empty in Hbody. }
  assert (forall i, 0 <= i < 2 ->
    exists body,
      Requests.fetch Samples.server2
        (S1.day_url "http://host/readsb-hist/" +:+ S1.filename i) = inr body) as Hall.
  { intros i Hi. assert (i = 0 \/ i = 1) as [-> | ->] by lia; by eexists. }
  assert (length (keys_with_prefix
            (S4.download_data Samples.server2 "http://host/readsb-hist/" 2 ∅).2
            S3_PREFIX) < 3)%nat as Hfuel.
  { vm_compute. lia. }
  split; [exact Hurl |]. split; [exact Hall |].
  exact (proj2 (pipelines_agree Samples.conversions0 Samples.server2
                  "http://host/readsb-hist/" 2 ∅ Samples.world0 3 Hurl Hold Hall Hfuel)).
Defined.

End PipelineFacts.

(** ** The listing loop of s4 and a bucket without archives *)

Module ListingLoopFacts.
Import Py Sqlite Files S3 S4.

(** The loop from the page a token points at: it ends when the fuel
    covers the pages left, one at least, and not before. *)
Lemma list_keys_fuel (b : gmap string file) (fuel : nat) (token : option nat)
    (keys : list string) :
  let rest := drop (default 0%nat token) (keys_with_prefix b S3_PREFIX) in
  list_keys b fuel token keys =
    if bool_decide (1 <= fuel /\ length rest <= fuel * MaxKeys)%nat
    then Some (keys ++ filter (fun key => kept key = true) rest)
    else None.
Proof.
  revert token keys. induction fuel as [|fuel IH]; intros token keys rest.
  { rewrite bool_decide_eq_false_2; [done | lia]. }
  cbn [list_keys]. unfold list_objects_v2. fold rest.
  cbn [Contents IsTruncated NextContinuationToken].
  pose proof StagingFacts.MaxKeys_pos as Hpos.
  generalize dependent MaxKeys. intros M IH Hpos.
  destruct (Nat.ltb_spec M (length rest)) as [Hlt|Hge].
  - rewrite IH. cbn [default from_option Datatypes.id].
    assert (drop (default 0%nat token + M) (keys_with_prefix b S3_PREFIX) = drop M rest)
      as -> by (subst rest; by rewrite drop_drop).
    rewrite length_drop.
    do 2 case_bool_decide; try (exfalso; nia); [| done].
    by rewrite <- (assoc_L (++)), <- filter_app, take_drop.
  - rewrite bool_decide_eq_true_2 by (split; nia). by rewrite take_ge.
Qed.

(** X12: the listing loop asks for one page at least and ends with the first
    page that is not truncated: over [n] keys under the prefix it ends
    exactly when it may run for one request and for [n / 1000] rounded up,
    and it then holds the archive keys of all pages, in the order of the
    listing. *)
Theorem list_keys_requests (b : gmap string file) (fuel : nat) :
  let all := keys_with_prefix b S3_PREFIX in
  list_keys b fuel None [] =
    if bool_decide (1 <= fuel /\ length all <= fuel * 1000)%nat
    then Some (filter (fun key => endswith key ".json.gz" = true) all)
    else None.
Proof.
  intros all. rewrite list_keys_fuel.
  assert (filter (fun key => endswith key ".json.gz" = true) all =
          filter (fun key => kept key = true) all) as ->; [| done].
  apply list_filter_iff. intros key. by rewrite StagingFacts.kept_archive.
Qed.

(** X13: a bucket without an archive under the prefix: the prepare of s4
    ends (with fuel for the pages), raises the RuntimeError of the prepare
    of s1, and has emptied the local raw directory and removed the local
    database on its way. *)
Theorem prepare_without_archives (cv : conversions) (fuel : nat) (b : gmap string file)
    (w : world) :
  (forall key, is_Some (b !! key) -> String.prefix S3_PREFIX key = true ->
     endswith key ".json.gz" = false) ->
  (length (keys_with_prefix b S3_PREFIX) < fuel)%nat ->
  S4.prepare_data cv fuel b w =
    Some (Raise (RuntimeError "No raw files found. Run download first."),
          {| raw_day_dir := ∅; prepared_db := None |}).
Proof.
  intros Hnone Hfuel. unfold S4.prepare_data.
  rewrite StagingFacts.list_keys_all by (simpl; lia).
  cbn [default from_option Datatypes.id app]. rewrite drop_0.
  assert (filter (fun key => kept key = true) (keys_with_prefix b S3_PREFIX) = []) as ->.
  { apply elem_of_nil_inv. intros key [Hkept Hkey]%list_elem_of_filter.
    apply StagingFacts.elem_of_keys_with_prefix in Hkey as [Hsome Hp].
    rewrite StagingFacts.kept_archive, (Hnone key Hsome Hp) in Hkept. done. }
  simpl. unfold S1.prepare_data. rewrite PrepareFacts.sorted_glob_nil; [done |].
  intros name f. simpl. by rewrite lookup_empty.
Qed.

Lemma prepare_without_archives_witness :
  (forall key, is_Some ((∅ : gmap string file) !! key) ->
     String.prefix S3_PREFIX key = true -> endswith key ".json.gz" = false) /\
  (length (keys_with_prefix (∅ : gmap string file) S3_PREFIX) < 1)%nat /\
  S4.prepare_data Samples.conversions0 1 ∅ Samples.world2 =
    Some (Raise (RuntimeError "No raw files found. Run download first."),
          {| raw_day_dir := ∅; prepared_db := None |}).
Proof.
  assert (forall key, is_Some ((∅ : gmap string file) !! key) ->
    String.prefix S3_PREFIX key = true -> endswith key ".json.gz" = false) as Hnone.
  { intros key [body Hbody]. by rewrite lookup_empty in Hbody. }
  assert (length (keys_with_prefix (∅ : gmap string file) S3_PREFIX) < 1)%nat as Hfuel.
  { vm_compute. lia. }
  split; [exact Hnone |]. split; [exact Hfuel |].
  exact (prepare_without_archives Samples.conversions0 1 ∅ Samples.world2 Hnone Hfuel).
Defined.

End ListingLoopFacts.

(** ** What every prepared database satisfies *)

Module StoreFacts.
Import Py Sqlite Files.

Section WithConversions.
Variable cv : conversions.


(** What one observation does to the database when it raises nothing:
    nothing, or an upsert under a key followed by at most one new
    position row. *)
Lemma process_observation_Ok (ts a : json) (d d' : db) :
  S1.process_observation cv ts a d = Ok d' ->
  d' = d \/
  exists key reg ty,
    aircraft d' = upsert (aircraft d) key reg ty /\
    ((positions d' = positions d /\ sqlite_sequence d' = sqlite_sequence d) \/
     exists row,
       positions d' = positions d ++ [row] /\
       sqlite_sequence d' = sqlite_sequence d + 1 /\
       id row = sqlite_sequence d + 1 /\ p_icao row = key /\
       (had_emergency row = 0 \/ had_emergency row = 1)).
Proof.
  intros (o & -> & Hstep)%PrepareFacts.process_observation_inv.
  destruct (truthy (get o "hex")); [| by left].
  destruct Hstep as (vk & vr & vt & Hvk & _ & _ & Hair & Hpos).
  right. exists (text_affinity cv vk), (text_affinity cv vr), (text_affinity cv vt).
  split; [done |].
  destruct (is_not_None (get o "lat") && is_not_None (get o "lon")); [| by left].
  destruct Hpos as (row & Hp & Hseq & Hid & Hem & Hic & _).
  right. exists row. split; [done |]. split; [done |]. split; [done |].
  split; [rewrite Hvk in Hic; simpl in Hic; congruence |].
  rewrite Hem. destruct (truthy (get o "emergency")); auto.
Qed.

(** A property of databases that holds of the empty one and that every
    observation keeps holds of the database a run leaves. *)
Lemma prepare_invariant (P : db -> Prop) (w : world) (d : db) :
  P empty_db ->
  (forall ts a s s', P s -> S1.process_observation cv ts a s = Ok s' -> P s') ->
  prepared_db (S1.prepare_data cv w).2 = Some d -> P d.
Proof.
  intros Hempty Hbody. unfold S1.prepare_data.
  destruct (sorted_glob _) as [|fp fs]; [done |].
  destruct (for_each _ _ _) as [d1|e] eqn:Hloop; simpl; intros [= <-]; [| done].
  revert Hloop. apply PrepareFacts.for_each_invariant; [| done].
  intros file s s' Hs. unfold S1.process_file.
  destruct file.2 as [[| | | | | |payload| |]|]; try done.
  intros (l & _ & Hloop)%PrepareFacts.bind_Ok_inv. revert Hloop.
  apply PrepareFacts.for_each_invariant; eauto.
Qed.

(** The same, for a property the observations keep when they are among
    those of the archives of the raw directory, of which [Q] holds. *)
Lemma prepare_invariant_on (P : db -> Prop) (Q : list (string * json) -> Prop)
    (w : world) (d : db) :
  (forall name payload l a,
     raw_day_dir w !! name = Some (Some (JDict payload)) ->
     endswith name ".json.gz" = true ->
     get_default payload "aircraft" (JList []) = JList l ->
     JDict a ∈ l -> Q a) ->
  P empty_db ->
  (forall ts a s s',
     Q a -> P s -> S1.process_observation cv ts (JDict a) s = Ok s' -> P s') ->
  prepared_db (S1.prepare_data cv w).2 = Some d -> P d.
Proof.
  intros HQ Hempty Hbody. unfold S1.prepare_data.
  destruct (sorted_glob (raw_day_dir w)) as [|fp fs] eqn:Hglob; [done |].
  rewrite <- Hglob. clear Hglob.
  destruct (for_each _ _ _) as [d1|e] eqn:Hloop; simpl; intros [= <-]; [| done].
  revert Hloop. apply PrepareFacts.for_each_invariant_elem; [| done].
  intros [name f] s s' [Hf Ha]%PrepareFacts.elem_of_sorted_glob Hs.
  unfold S1.process_file. simpl.
  destruct f as [[| | | | | |payload| |]|]; try done.
  intros (l & Hiter & Hloop)%PrepareFacts.bind_Ok_inv. revert Hloop.
  apply PrepareFacts.for_each_invariant_elem; [| done].
  intros o t t' Ho Ht Hrun.
  destruct o as [| | | | | |a| |]; try done.
  apply (Hbody (get_default payload "now" (JReal 0)) a t t'); [| done | done].
  destruct (get_default payload "aircraft" (JList [])) as [| | | |str|l'|dict| |] eqn:Hv;
    try done; simpl in Hiter; injection Hiter as <-.
  - by apply list_elem_of_fmap in Ho as (c & [=] & _).
  - by apply (HQ name payload l').
  - by apply list_elem_of_fmap in Ho as (kv & [=] & _).
Qed.

(** X14: in the database a run leaves, every position row carries the
    icao of an aircraft row: no position is stored for an aircraft the
    table does not list.  That icao is NULL only for a [hex] that is NaN:
    when no observation of the archives has such a [hex], every aircraft
    row and every position row has an icao that is not NULL. *)
Theorem positions_reference_aircraft (w : world) (d : db) :
  prepared_db (S1.prepare_data cv w).2 = Some d ->
  (forall p, p ∈ positions d -> exists r, r ∈ aircraft d /\ icao r = p_icao p) /\
  ((forall name payload l a,
      raw_day_dir w !! name = Some (Some (JDict payload)) ->
      endswith name ".json.gz" = true ->
      get_default payload "aircraft" (JList []) = JList l ->
      JDict a ∈ l -> get a "hex" <> JNaN) ->
   (forall r, r ∈ aircraft d -> is_Some (icao r)) /\
   (forall p, p ∈ positions d -> is_Some (p_icao p))).
Proof.
  intros Hd. split.
  - assert (Forall (fun p => p_icao p ∈ icao <$> aircraft d) (positions d)) as Hall.
    { revert Hd.
      apply (prepare_invariant
               (fun s => Forall (fun p => p_icao p ∈ icao <$> aircraft s) (positions s)));
        [constructor |].
      intros ts a s s' Hs
        [->|(key & reg & ty & Hair & Hpos)]%process_observation_Ok; [done |].
      rewrite Hair.
      assert (Forall (fun p => p_icao p ∈ icao <$> upsert (aircraft s) key reg ty)
                (positions s)) as Hold.
      { eapply Forall_impl; [exact Hs |]. intros p Hp.
        apply UpsertFacts.upsert_key_elem. by left. }
      destruct Hpos as [[-> _]|(row & -> & _ & _ & Hrow & _)]; [done |].
      apply Forall_app. split; [done |]. constructor; [| constructor].
      apply UpsertFacts.upsert_key_elem. by right. }
    intros p Hp. rewrite Forall_forall in Hall.
    pose proof (Hall p Hp) as Hin.
    apply list_elem_of_fmap in Hin as (r & Hr & Hin). by exists r.
  - intros Hnan.
    assert (Forall is_Some (icao <$> aircraft d) /\
            Forall (fun p => is_Some (p_icao p)) (positions d)) as [H1 H2].
    { revert Hd.
      apply (prepare_invariant_on
               (fun s => Forall is_Some (icao <$> aircraft s) /\
                         Forall (fun p => is_Some (p_icao p)) (positions s))
               (fun a => get a "hex" <> JNaN)); [done | by split |].
      intros ts a s s' Ha [Hkeys Hpos]
        (o & [= <-] & Hstep)%PrepareFacts.process_observation_inv.
      destruct (truthy (get a "hex")) eqn:Hhex; [| by subst s'].
      destruct Hstep as (vk & vr & vt & Hvk & _ & _ & Hair & Hrows).
      destruct (PrepareFacts.truthy_key cv _ _ Hhex Ha Hvk) as [k Hk].
      rewrite Hair, Hk. split.
      - apply Forall_forall. intros x [Hx| ->]%UpsertFacts.upsert_key_elem; [| by eexists].
        rewrite Forall_forall in Hkeys. by apply Hkeys.
      - destruct (_ && _).
        + destruct Hrows as (row & -> & _ & _ & _ & Hic & _).
          apply Forall_app. split; [done |]. constructor; [| constructor].
          rewrite Hvk in Hic. simpl in Hic. injection Hic as <-. rewrite Hk. by eexists.
        + destruct Hrows as [-> _]. done. }
    split.
    + intros r Hr. rewrite Forall_forall in H1. apply H1.
      apply list_elem_of_fmap. by exists r.
    + intros p Hp. rewrite Forall_forall in H2. by apply H2.
Qed.

(** X15: in the database a run leaves, the position rows are numbered 1, 2, 3
    and so on in the order they were inserted, and the counter of the
    table is their number. *)
Theorem position_ids_count_up (w : world) (d : db) :
  prepared_db (S1.prepare_data cv w).2 = Some d ->
  id <$> positions d = Z.of_nat <$> seq 1 (length (positions d)) /\
  sqlite_sequence d = Z.of_nat (length (positions d)).
Proof.
  apply (prepare_invariant
           (fun s => id <$> positions s = Z.of_nat <$> seq 1 (length (positions s)) /\
                     sqlite_sequence s = Z.of_nat (length (positions s)))); [done |].
  intros ts a s s' [Hids Hseq]
    [->|(k & reg & ty & _ & Hpos)]%process_observation_Ok; [done |].
  destruct Hpos as [[-> ->]|(row & -> & -> & Hid & _)]; [done |].
  rewrite !fmap_app, length_app, seq_app, fmap_app, Hids. simpl.
  split; [| lia]. do 2 f_equal. lia.
Qed.


End WithConversions.

(** A latitude that is NaN is stored, as NULL. *)
Example nan_latitude_is_stored_as_null :
  forall cv,
    S1.process_observation cv (JReal 0)
      (JDict [("hex", JStr "abc1"); ("lat", JNaN); ("lon", JReal 1)]) empty_db =
    Ok {| aircraft := [ {| icao := Some "abc1"; registration := None; type := None |} ];
          positions := [ {| id := 1; p_icao := Some "abc1"; timestamp := SReal 0;
                            lat := SNull; lon := SReal 1; altitude_baro := SNull;
                            ground_speed := SNull; had_emergency := 0 |} ];
          sqlite_sequence := 1 |}.
Proof. done. Qed.

(** The observations of the sample directory. *)
Lemma sample_observations (name : string) (payload : list (string * json))
    (l : list json) (a : list (string * json)) :
  raw_day_dir Samples.world2 !! name = Some (Some (JDict payload)) ->
  get_default payload "aircraft" (JList []) = JList l ->
  JDict a ∈ l ->
  get a "hex" <> JNaN /\ get a "lat" <> JNaN /\ get a "lon" <> JNaN.
Proof.
  simpl. unfold Samples.raw2. intros Hf.
  rewrite !lookup_insert_Some, lookup_empty in Hf.
  destruct Hf as [[_ Hf]|[_ [[_ Hf]|[_ [[_ Hf]|[_ Hf]]]]]]; try done.
  - injection Hf as <-. intros [= <-] Ha.
    apply list_elem_of_In in Ha. simpl in Ha.
    destruct Ha as [[= <-]|[]]. done.
  - injection Hf as <-. intros [= <-] Ha.
    apply list_elem_of_In in Ha. simpl in Ha.
    destruct Ha as [[= <-]|[[= <-]|[[= <-]|[]]]]; done.
Defined.

Lemma positions_reference_aircraft_witness :
  exists d,
    prepared_db (S1.prepare_data Samples.conversions0 Samples.world2).2 = Some d /\
    (forall p, p ∈ positions d -> exists r, r ∈ aircraft d /\ icao r = p_icao p) /\
    (forall r, r ∈ aircraft d -> is_Some (icao r)).
Proof.
  assert (exists d,
    prepared_db (S1.prepare_data Samples.conversions0 Samples.world2).2 = Some d)
    as [d Hd].
  { eexists. vm_compute. reflexivity. }
  exists d. split; [exact Hd |].
  destruct (positions_reference_aircraft Samples.conversions0 Samples.world2 d Hd)
    as [Href Hkeys].
  split; [exact Href |]. apply Hkeys.
  intros name payload l a Hf _ Hl Ha.
  exact (proj1 (sample_observations name payload l a Hf Hl Ha)).
Defined.

Lemma position_ids_count_up_witness :
  exists d,
    prepared_db (S1.prepare_data Samples.conversions0 Samples.world2).2 = Some d /\
    sqlite_sequence d = Z.of_nat (length (positions d)).
Proof.
  assert (exists d,
    prepared_db (S1.prepare_data Samples.conversions0 Samples.world2).2 = Some d)
    as [d Hd].
  { eexists. vm_compute. reflexivity. }
  exists d. split; [exact Hd |].
  apply (position_ids_count_up Samples.conversions0 Samples.world2 d Hd).
Defined.


End StoreFacts.

(** ** More files, more rows *)

Module GrowthFacts.
Import Py Sqlite Files.

Lemma for_each_app {A S : Type} (body : A -> S -> result S) (l1 l2 : list A) (s : S) :
  for_each body (l1 ++ l2) s = (s1 ← for_each body l1 s; for_each body l2 s1).
Proof.
  revert s. induction l1 as [|a l1 IH]; intros s; simpl; [done |].
  destruct (body a s) as [s1|e]; simpl; [apply IH | done].
Qed.

(** The files of a run only add: the position rows and the icaos of the
    aircraft rows before a file are the first ones after it. *)
Lemma process_file_extends (cv : conversions) (fp : string * file) (d0 d d' : db) :
  positions d0 `prefix_of` positions d /\
  (icao <$> aircraft d0) `prefix_of` (icao <$> aircraft d) ->
  S1.process_file cv fp d = Ok d' ->
  positions d0 `prefix_of` positions d' /\
  (icao <$> aircraft d0) `prefix_of` (icao <$> aircraft d').
Proof.
  intros Hd. unfold S1.process_file.
  destruct fp.2 as [[| | | | | |payload| |]|]; try done.
  intros (l & _ & Hloop)%PrepareFacts.bind_Ok_inv. revert Hloop.
  apply (PrepareFacts.for_each_invariant
           (fun s => positions d0 `prefix_of` positions s /\
                     (icao <$> aircraft d0) `prefix_of` (icao <$> aircraft s)));
    [| done].
  intros a s s' [Hp Ha]
    [->|(k & reg & ty & Hair & Hpos)]%StoreFacts.process_observation_Ok; [done |].
  split.
  - destruct Hpos as [[-> _]|(row & -> & _)]; [done | by apply prefix_app_r].
  - rewrite Hair. etrans; [exact Ha | apply UpsertFacts.upsert_keys_prefix].
Qed.

(** With a raw file to read, a run is the loop over the files. *)
Lemma prepare_data_loop (cv : conversions) (w : world) :
  sorted_glob (raw_day_dir w) <> [] ->
  S1.prepare_data cv w =
    match for_each (S1.process_file cv) (sorted_glob (raw_day_dir w)) empty_db with
    | Ok d => (Ok "OK", {| raw_day_dir := raw_day_dir w; prepared_db := Some d |})
    | Raise e =>
        (Raise e, {| raw_day_dir := raw_day_dir w; prepared_db := Some empty_db |})
    end.
Proof. unfold S1.prepare_data. by destruct (sorted_glob _). Qed.

(** X17: downloads of [n] and of [m >= n] files from one server, each followed
    by the prepare of s1: when the run on the [m] files answers OK, so
    does the run on the [n] files, and the database of the larger run
    starts with the position rows of the smaller one and with its
    aircraft, in the same order. *)
Theorem more_files_extend (cv : conversions) (srv : Requests.server)
    (source_url : string) (n m : Z) (w : world) (got : Z -> file) (d2 : db) :
  1 <= n <= m -> m <= 72000 ->
  (forall i, 0 <= i < m ->
     Requests.fetch srv (S1.day_url source_url +:+ S1.filename i) = inr (got i)) ->
  let small := S1.prepare_data cv (S1.download_data srv source_url n w).2 in
  let large := S1.prepare_data cv (S1.download_data srv source_url m w).2 in
  large.1 = Ok "OK" ->
  prepared_db large.2 = Some d2 ->
  exists d1,
    small.1 = Ok "OK" /\ prepared_db small.2 = Some d1 /\
    positions d1 `prefix_of` positions d2 /\
    (icao <$> aircraft d1) `prefix_of` (icao <$> aircraft d2).
Proof.
  intros Hnm Hm Hall small large. subst small large.
  pose proof (DownloadFacts.sorted_glob_download srv source_url n w got ltac:(lia)
                ltac:(intros i Hi; apply Hall; lia)) as Hn.
  pose proof (DownloadFacts.sorted_glob_download srv source_url m w got Hm Hall) as Hm'.
  assert (forall k, 1 <= k -> (fun i => (S1.filename i, got i)) <$> range k <> []) as Hne.
  { intros k Hk E. apply fmap_nil_inv in E. by apply (DownloadFacts.range_nonempty k). }
  rewrite !prepare_data_loop by (rewrite ?Hn, ?Hm'; apply Hne; lia).
  rewrite Hn, Hm', (NameOrderFacts.range_app n m), fmap_app, for_each_app by lia.
  destruct (for_each (S1.process_file cv) _ empty_db) as [d1|e]; simpl; [| done].
  destruct (for_each (S1.process_file cv) _ d1) as [d|e] eqn:Hrest; simpl; [| done].
  intros _ [= <-]. exists d1. split; [done |]. split; [done |].
  revert Hrest.
  apply (PrepareFacts.for_each_invariant
           (fun s => positions d1 `prefix_of` positions s /\
                     (icao <$> aircraft d1) `prefix_of` (icao <$> aircraft s)));
    [| done].
  intros fp s s' Hs. by apply process_file_extends.
Qed.

Lemma more_files_extend_witness :
  1 <= 1 <= 2 /\ 2 <= 72000 /\
  (forall i, 0 <= i < 2 ->
     Requests.fetch Samples.server2
       (S1.day_url "http://host/readsb-hist/" +:+ S1.filename i) =
       inr (if i =? 0 then Some Samples.snapshot1 else Some Samples.snapshot2)) /\
  exists d1 d2,
    prepared_db
      (S1.prepare_data Samples.conversions0
         (S1.download_data Samples.server2 "http://host/readsb-hist/" 2
            Samples.world0).2).2 = Some d2 /\
    prepared_db
      (S1.prepare_data Samples.conversions0
         (S1.download_data Samples.server2 "http://host/readsb-hist/" 1
            Samples.world0).2).2 = Some d1 /\
    positions d1 `prefix_of` positions d2.
Proof.
  assert (1 <= 1 <= 2) as Hnm by lia.
  assert (2 <= 72000) as Hm by lia.
  assert (forall i, 0 <= i < 2 ->
    Requests.fetch Samples.server2
      (S1.day_url "http://host/readsb-hist/" +:+ S1.filename i) =
      inr (if i =? 0 then Some Samples.snapshot1 else Some Samples.snapshot2)) as Hall.
  { intros i Hi. assert (i = 0 \/ i = 1) as [-> | ->] by lia; reflexivity. }
  assert ((S1.prepare_data Samples.conversions0
             (S1.download_data Samples.server2 "http://host/readsb-hist/" 2
                Samples.world0).2).1 = Ok "OK") as Hok.
  { vm_compute. reflexivity. }
  assert (exists d2,
    prepared_db
      (S1.prepare_data Samples.conversions0
         (S1.download_data Samples.server2 "http://host/readsb-hist/" 2
            Samples.world0).2).2 = Some d2) as [d2 Hd2].
  { eexists. vm_compute. reflexivity. }
  split; [exact Hnm |]. split; [exact Hm |]. split; [exact Hall |].
  destruct (more_files_extend Samples.conversions0 Samples.server2
              "http://host/readsb-hist/" 1 2 Samples.world0 _ d2 Hnm Hm Hall Hok Hd2)
    as (d1 & _ & Hd1 & Hp & _).
  exists d1, d2. exact (conj Hd2 (conj Hd1 Hp)).
Defined.

End GrowthFacts.

(** ** The files a run reads *)

Module FileFacts.
Import Py Sqlite Files.

Lemma for_each_raises {A S : Type} (body : A -> S -> result S) (l : list A) (x : A)
    (s : S) :
  x ∈ l -> (forall s', exists e, body x s' = Raise e) ->
  exists e, for_each body l s = Raise e.
Proof.
  intros Hin Hx. revert s. induction l as [|a l IH]; intros s; simpl.
  - by apply elem_of_nil in Hin.
  - destruct (body a s) as [s1|e] eqn:Ha; simpl; [| by exists e].
    apply elem_of_cons in Hin as [->|Hin]; [| by apply IH].
    destruct (Hx s) as [e He]. congruence.
Qed.

Lemma list_aircraft_empty (raw : gmap string file) (num_results page : Z) :
  0 <= num_results < 2 ^ 63 -> 0 <= page * num_results < 2 ^ 63 ->
  S1.list_aircraft {| raw_day_dir := raw; prepared_db := Some empty_db |}
    num_results page = Ok [].
Proof.
  intros Hn Hp. unfold S1.list_aircraft, select_aircraft, bind_int, limit_offset. simpl.
  rewrite !andb_true_intro by (split; [apply Z.leb_le | apply Z.ltb_lt]; lia).
  simpl. destruct (Z.ltb_spec num_results 0); [lia |].
  change (merge_sort icao_le []) with (@nil aircraft_row).
  by rewrite drop_nil, take_nil.
Qed.

Section WithConversions.
Variable cv : conversions.

(** X18: one archive in the raw directory that cannot be read, or whose
    content is not a JSON object, fails the whole run, wherever its name
    falls among the others: [prepare_data] raises, the database is left
    with its two tables empty, and the listing that follows is empty. *)
Theorem unreadable_file_fails_the_run (w : world) (name : string) (f : file) :
  raw_day_dir w !! name = Some f ->
  endswith name ".json.gz" = true ->
  (forall payload, f <> Some (JDict payload)) ->
  (exists e, (S1.prepare_data cv w).1 = Raise e) /\
  prepared_db (S1.prepare_data cv w).2 = Some empty_db /\
  (forall num_results page,
     0 <= num_results < 2 ^ 63 -> 0 <= page * num_results < 2 ^ 63 ->
     S1.list_aircraft (S1.prepare_data cv w).2 num_results page = Ok []).
Proof.
  intros Hf Ha Hbad.
  assert ((name, f) ∈ sorted_glob (raw_day_dir w)) as Hin.
  { unfold sorted_glob. rewrite merge_sort_Permutation, elem_of_map_to_list.
    by apply map_lookup_filter_Some. }
  rewrite GrowthFacts.prepare_data_loop by (intros E; rewrite E in Hin; by apply elem_of_nil in Hin).
  destruct (for_each_raises (S1.process_file cv) _ _ empty_db Hin) as [e ->].
  { intros s'. unfold S1.process_file. simpl.
    destruct f as [[| | | | | |payload| |]|]; try by eexists.
    by destruct (Hbad payload). }
  simpl. split; [by exists e |]. split; [done |].
  intros n p Hn Hp. by apply list_aircraft_empty.
Qed.

(** X19: a file of the raw directory whose name does not end in [.json.gz] is
    not read: with or without it, the response and the database of a run
    are the same. *)
Theorem other_files_are_ignored (w : world) (name : string) (f : file) :
  endswith name ".json.gz" = false ->
  let w' := {| raw_day_dir := <[name := f]> (raw_day_dir w);
               prepared_db := prepared_db w |} in
  (S1.prepare_data cv w').1 = (S1.prepare_data cv w).1 /\
  prepared_db (S1.prepare_data cv w').2 = prepared_db (S1.prepare_data cv w).2.
Proof.
  intros Hname w'. subst w'. unfold S1.prepare_data, sorted_glob. simpl.
  rewrite map_filter_insert_not by (intros y; simpl; by rewrite Hname).
  destruct (merge_sort _ _); [done |]. by destruct (for_each _ _ _).
Qed.

End WithConversions.

Lemma unreadable_file_fails_the_run_witness :
  <["000010Z.json.gz" := None]> Samples.raw2 !! "000010Z.json.gz" = Some None /\
  endswith "000010Z.json.gz" ".json.gz" = true /\
  prepared_db
    (S1.prepare_data Samples.conversions0
       {| raw_day_dir := <["000010Z.json.gz" := None]> Samples.raw2;
          prepared_db := None |}).2 = Some empty_db.
Proof.
  assert (<["000010Z.json.gz" := None]> Samples.raw2 !! "000010Z.json.gz" = Some None)
    as Hf by apply lookup_insert_eq.
  split; [exact Hf |]. split; [reflexivity |].
  apply (unreadable_file_fails_the_run Samples.conversions0
           {| raw_day_dir := <["000010Z.json.gz" := None]> Samples.raw2;
              prepared_db := None |} "000010Z.json.gz" None Hf eq_refl).
  discriminate.
Defined.

Lemma other_files_are_ignored_witness :
  endswith "notes.txt" ".json.gz" = false /\
  (S1.prepare_data Samples.conversions0
     {| raw_day_dir := <["notes.txt" := Some (JStr "x")]> Samples.raw2;
        prepared_db := None |}).1 =
  (S1.prepare_data Samples.conversions0 Samples.world2).1.
Proof.
  split; [reflexivity |].
  apply (other_files_are_ignored Samples.conversions0 Samples.world2 "notes.txt"
           (Some (JStr "x")) eq_refl).
Defined.

End FileFacts.

(** ** Pages of the aircraft listing *)

Module PagingFacts.
Import Py Sqlite Files ListingFacts.

(** The answer for a limit and an offset that fit SQLite's integers. *)
Lemma list_aircraft_window (w : world) (d : db) (num_results page : Z) :
  prepared_db w = Some d ->
  0 <= num_results < 2 ^ 63 -> 0 <= page * num_results < 2 ^ 63 ->
  S1.list_aircraft w num_results page =
    Ok (S1.row_dict <$>
          take (Z.to_nat num_results)
            (drop (Z.to_nat (page * num_results)) (merge_sort icao_le (aircraft d)))).
Proof.
  intros Hd Hn Hp. unfold S1.list_aircraft, select_aircraft, bind_int, limit_offset.
  rewrite Hd.
  rewrite !andb_true_intro by (split; [apply Z.leb_le | apply Z.ltb_lt]; lia).
  simpl. by destruct (Z.ltb_spec num_results 0); [lia |].
Qed.

(** X20: a page never holds more rows than the limit, nor than the table; a
    page that starts at or after the end of the table is empty, not an
    error. *)
Theorem list_aircraft_page_size (w : world) (d : db) (num_results page : Z)
    (rows : list json) :
  prepared_db w = Some d ->
  0 <= num_results -> 0 <= page ->
  S1.list_aircraft w num_results page = Ok rows ->
  Z.of_nat (length rows) <= num_results /\
  (length rows <= length (aircraft d))%nat /\
  (Z.of_nat (length (aircraft d)) <= page * num_results -> rows = []).
Proof.
  intros Hd Hn Hp. unfold S1.list_aircraft, select_aircraft, bind_int, limit_offset.
  rewrite Hd.
  destruct (_ && _); destruct (_ && _); simpl; try done.
  destruct (Z.ltb_spec num_results 0); [lia |]. intros [= <-].
  pose proof (Permutation_length (merge_sort_Permutation icao_le (aircraft d))) as Hlen.
  rewrite length_fmap, length_take, length_drop, Hlen.
  split; [lia |]. split; [lia |].
  intros Hend. rewrite drop_ge by nia. by rewrite take_nil.
Qed.

Lemma list_aircraft_page_size_witness :
  prepared_db {| raw_day_dir := ∅; prepared_db := Some Samples.twelve |} =
    Some Samples.twelve /\
  0 <= 5 /\ 0 <= 3 /\
  exists rows,
    S1.list_aircraft {| raw_day_dir := ∅; prepared_db := Some Samples.twelve |} 5 3 =
      Ok rows /\
    rows = [].
Proof.
  assert (0 <= 5) as Hn by lia. assert (0 <= 3) as Hp by lia.
  assert (exists rows,
    S1.list_aircraft {| raw_day_dir := ∅; prepared_db := Some Samples.twelve |} 5 3 =
      Ok rows) as [rows Hrows].
  { eexists. vm_compute. reflexivity. }
  split; [reflexivity |]. split; [exact Hn |]. split; [exact Hp |].
  exists rows. split; [exact Hrows |].
  apply (list_aircraft_page_size
           {| raw_day_dir := ∅; prepared_db := Some Samples.twelve |}
           Samples.twelve 5 3 rows eq_refl Hn Hp Hrows).
  vm_compute. discriminate.
Defined.



Lemma NoDup_fmap_eq {A B : Type} (f : A -> B) (l : list A) (x y : A) :
  NoDup (f <$> l) -> x ∈ l -> y ∈ l -> f x = f y -> x = y.
Proof.
  induction l as [|a l IH]; simpl; [by intros _ ?%elem_of_nil |].
  intros [Ha Hl]%NoDup_cons [->|Hx]%elem_of_cons [->|Hy]%elem_of_cons E; auto.
  - destruct Ha. rewrite E. apply list_elem_of_fmap. by exists y.
  - destruct Ha. rewrite <- E. apply list_elem_of_fmap. by exists x.
Qed.

Lemma icao_le_antisym (r1 r2 : aircraft_row) :
  icao_le r1 r2 -> icao_le r2 r1 -> icao r1 = icao r2.
Proof.
  unfold icao_le. destruct (icao r1) as [a|], (icao r2) as [b|]; try done.
  intros H1 H2. f_equal. by apply (anti_symm String.le).
Qed.

(** X22: when no icao occurs twice in the table, the listing does not
    depend on the order in which the rows were inserted: two tables with
    the same rows give the same pages. *)
Theorem listing_ignores_insertion_order (w1 w2 : world) (d1 d2 : db)
    (num_results page : Z) :
  prepared_db w1 = Some d1 -> prepared_db w2 = Some d2 ->
  aircraft d1 ≡ₚ aircraft d2 ->
  NoDup (icao <$> aircraft d1) ->
  S1.list_aircraft w1 num_results page = S1.list_aircraft w2 num_results page.
Proof.
  intros H1 H2 Hperm Hnd.
  assert (merge_sort icao_le (aircraft d1) = merge_sort icao_le (aircraft d2)) as Hsame.
  { apply (Sorted_unique_strong icao_le).
    - intros x1 x2 Hx1 Hx2 Hle1 Hle2.
      rewrite merge_sort_Permutation in Hx1.
      rewrite merge_sort_Permutation, <- Hperm in Hx2.
      apply (NoDup_fmap_eq icao (aircraft d1)); try done.
      by apply icao_le_antisym.
    - apply (Sorted_merge_sort icao_le).
    - apply (Sorted_merge_sort icao_le).
    - by rewrite !merge_sort_Permutation. }
  unfold S1.list_aircraft, select_aircraft. by rewrite H1, H2, Hsame.
Qed.

Lemma listing_ignores_insertion_order_witness :
  NoDup (icao <$> aircraft Samples.twelve) /\
  S1.list_aircraft {| raw_day_dir := ∅; prepared_db := Some Samples.twelve |} 5 0 =
  S1.list_aircraft
    {| raw_day_dir := ∅;
       prepared_db :=
         Some {| aircraft := reverse (aircraft Samples.twelve);
                 positions := []; sqlite_sequence := 0 |} |} 5 0.
Proof.
  assert (NoDup (icao <$> aircraft Samples.twelve)) as Hnd.
  { apply (bool_decide_eq_true _). by vm_compute. }
  split; [exact Hnd |].
  apply (listing_ignores_insertion_order
           {| raw_day_dir := ∅; prepared_db := Some Samples.twelve |}
           {| raw_day_dir := ∅;
              prepared_db :=
                Some {| aircraft := reverse (aircraft Samples.twelve);
                        positions := []; sqlite_sequence := 0 |} |}
           Samples.twelve
           {| aircraft := reverse (aircraft Samples.twelve);
              positions := []; sqlite_sequence := 0 |} 5 0 eq_refl eq_refl);
    [| exact Hnd].
  simpl. by rewrite reverse_Permutation.
Defined.

(** X23: after a prepare that found no raw file, the listing answers with
    HTTP status 400, also when a database was there and listed before the
    prepare ran. *)
Theorem listing_after_prepare_without_files (cv : conversions) (w : world)
    (num_results page : Z) :
  (forall name f, raw_day_dir w !! name = Some f -> endswith name ".json.gz" = false) ->
  S1.list_aircraft (S1.prepare_data cv w).2 num_results page =
    Raise (HTTPException 400
             "Prepared database not found. Run /api/s1/aircraft/prepare first.").
Proof.
  intros Hnone. unfold S1.prepare_data.
  by rewrite PrepareFacts.sorted_glob_nil.
Qed.

Lemma listing_after_prepare_without_files_witness :
  (forall name f, raw_day_dir Samples.world0 !! name = Some f ->
                  endswith name ".json.gz" = false) /\
  S1.list_aircraft Samples.world0 100 0 = Ok [] /\
  S1.list_aircraft (S1.prepare_data Samples.conversions0 Samples.world0).2 100 0 =
    Raise (HTTPException 400
             "Prepared database not found. Run /api/s1/aircraft/prepare first.").
Proof.
  assert (forall name f, raw_day_dir Samples.world0 !! name = Some f ->
                         endswith name ".json.gz" = false) as Hnone.
  { intros name f. simpl. by rewrite lookup_empty. }
  split; [exact Hnone |]. split; [reflexivity |].
  exact (listing_after_prepare_without_files Samples.conversions0 Samples.world0 100 0
           Hnone).
Defined.

(** X24: for a limit the endpoint accepts (1 to 1000) and a page that is not
    negative, the listing answers as long as page times limit is below
    2^63; from there on it raises OverflowError, where a page after the
    end of the table is otherwise empty. *)
Theorem list_aircraft_overflow (w : world) (d : db) (num_results page : Z) :
  prepared_db w = Some d ->
  1 <= num_results <= 1000 -> 0 <= page ->
  (page * num_results < 2 ^ 63 ->
     exists rows, S1.list_aircraft w num_results page = Ok rows) /\
  (2 ^ 63 <= page * num_results ->
     S1.list_aircraft w num_results page = Raise OverflowError).
Proof.
  intros Hd Hn Hp. split.
  - intros Hoff. eexists. apply list_aircraft_window; [done | lia | nia].
  - intros Hoff. unfold S1.list_aircraft, select_aircraft, bind_int. rewrite Hd.
    assert ((- 2 ^ 63 <=? num_results) && (num_results <? 2 ^ 63) = true) as ->
      by (apply andb_true_intro; split; [apply Z.leb_le | apply Z.ltb_lt]; lia).
    simpl. destruct (Z.ltb_spec (page * num_results) (2 ^ 63)); [lia |].
    by rewrite andb_false_r.
Qed.

Lemma list_aircraft_overflow_witness :
  prepared_db {| raw_day_dir := ∅; prepared_db := Some Samples.twelve |} =
    Some Samples.twelve /\
  1 <= 1000 <= 1000 /\ 0 <= 2 ^ 62 /\ 2 ^ 63 <= 2 ^ 62 * 1000 /\
  S1.list_aircraft {| raw_day_dir := ∅; prepared_db := Some Samples.twelve |}
    1000 (2 ^ 62) = Raise OverflowError.
Proof.
  assert (1 <= 1000 <= 1000) as Hn by lia.
  assert (0 <= 2 ^ 62) as Hp by lia.
  assert (2 ^ 63 <= 2 ^ 62 * 1000) as Hoff by lia.
  split; [reflexivity |]. split; [exact Hn |]. split; [exact Hp |]. split; [exact Hoff |].
  exact (proj2 (list_aircraft_overflow
                  {| raw_day_dir := ∅; prepared_db := Some Samples.twelve |}
                  Samples.twelve 1000 (2 ^ 62) eq_refl Hn Hp) Hoff).
Defined.

End PagingFacts.

(** ** The last observation of an aircraft *)

Module LastWriteFacts.
Import Py Sqlite Files.

Lemma upsert_puts (rows : list aircraft_row) (k : string) (reg ty : option string) :
  {| icao := Some k; registration := reg; type := ty |} ∈ upsert rows (Some k) reg ty.
Proof.
  destruct (UpsertFacts.split_at_key rows k) as [Hf|(l1 & r & l2 & -> & Hl1 & Hr)].
  - rewrite UpsertFacts.upsert_fresh by done. apply elem_of_app. right. left.
  - rewrite UpsertFacts.upsert_conflict by done. apply elem_of_app. right. left.
Qed.

Lemma upsert_keeps (rows : list aircraft_row) (k k' : string) (reg ty : option string)
    (r : aircraft_row) :
  k' <> k -> r ∈ rows -> icao r = Some k -> r ∈ upsert rows (Some k') reg ty.
Proof.
  intros Hne Hin Hr.
  destruct (UpsertFacts.split_at_key rows k') as [Hf|(l1 & r0 & l2 & -> & Hl1 & Hr0)].
  - rewrite UpsertFacts.upsert_fresh by done. apply elem_of_app. by left.
  - rewrite UpsertFacts.upsert_conflict by done.
    apply elem_of_app in Hin as [Hin|[->|Hin]%elem_of_cons].
    + apply elem_of_app. by left.
    + congruence.
    + apply elem_of_app. right. by right.
Qed.

Lemma NoDup_omap_eq {A B : Type} (f : A -> option B) (l : list A) (x y : A) (b : B) :
  NoDup (omap f l) -> x ∈ l -> y ∈ l -> f x = Some b -> f y = Some b -> x = y.
Proof.
  induction l as [|a l IH]; [by intros _ ?%elem_of_nil |].
  intros Hnd [->|Hx]%elem_of_cons [->|Hy]%elem_of_cons Fx Fy; [done | | |].
  - exfalso. cbn in Hnd. rewrite Fx in Hnd. apply NoDup_cons in Hnd as [Hb _].
    apply Hb, list_elem_of_omap. by exists y.
  - exfalso. cbn in Hnd. rewrite Fy in Hnd. apply NoDup_cons in Hnd as [Hb _].
    apply Hb, list_elem_of_omap. by exists x.
  - apply IH; try done. cbn in Hnd.
    destruct (f a); [by apply NoDup_cons in Hnd as [_ ?] | done].
Qed.

Section WithConversions.
Variable cv : conversions.

(** An observation under another icao, or without one, keeps the row. *)
Lemma observation_keeps (ts : json) (a : list (string * json)) (s s' : db) (k : string)
    (row : aircraft_row) :
  get a "hex" = JNull \/ (exists h, get a "hex" = JStr h /\ h <> k) ->
  S1.process_observation cv ts (JDict a) s = Ok s' ->
  row ∈ aircraft s -> icao row = Some k -> row ∈ aircraft s'.
Proof.
  intros Hhex Hrun Hin Hrow. unfold S1.process_observation in Hrun.
  destruct (truthy (get a "hex")) eqn:Htruthy; simpl in Hrun;
    [| by injection Hrun as <-].
  destruct Hhex as [Hnull|(h & Hh & Hne)]; [by rewrite Hnull in Htruthy |].
  apply PrepareFacts.bind_Ok_inv in Hrun as (s1 & Hup & Hrest).
  apply PrepareFacts.upsert_aircraft_Ok in Hup as (vk & reg & ty & Hk & _ & _ & ->).
  rewrite Hh in Hk. cbn [bind] in Hk.
  destruct (has_surrogate h); [done |]. injection Hk as <-.
  assert (row ∈ aircraft s') as Hgoal; [| done].
  destruct (_ && _).
  - apply PrepareFacts.insert_position_Ok in Hrest as (p & -> & _). simpl.
    by apply (upsert_keeps _ k).
  - injection Hrest as <-. simpl. by apply (upsert_keeps _ k).
Qed.

(** An observation under an icao leaves the row of its values. *)
Lemma observation_sets (ts : json) (a : list (string * json)) (s s' : db) (k : string) :
  get a "hex" = JStr k -> k <> "" ->
  S1.process_observation cv ts (JDict a) s = Ok s' ->
  exists vr vt,
    bind (get a "r") = Ok vr /\ bind (get a "t") = Ok vt /\
    {| icao := Some k; registration := text_affinity cv vr;
       type := text_affinity cv vt |} ∈ aircraft s'.
Proof.
  intros Hhex Hk Hrun. unfold S1.process_observation in Hrun.
  assert (truthy (get a "hex") = true) as Htruthy.
  { rewrite Hhex. simpl. by destruct k. }
  rewrite Htruthy in Hrun. simpl in Hrun.
  apply PrepareFacts.bind_Ok_inv in Hrun as (s1 & Hup & Hrest).
  apply PrepareFacts.upsert_aircraft_Ok in Hup as (vk & vr & vt & Hvk & Hvr & Hvt & ->).
  rewrite Hhex in Hvk. cbn [bind] in Hvk.
  destruct (has_surrogate k); [done |]. injection Hvk as <-.
  exists vr, vt. split; [done |]. split; [done |].
  destruct (_ && _).
  - apply PrepareFacts.insert_position_Ok in Hrest as (p & -> & _). simpl.
    apply upsert_puts.
  - injection Hrest as <-. simpl. apply upsert_puts.
Qed.

(** X25: last write wins over a whole run.  In the file a run reads last (the
    one with the greatest name), take an observation with a string icao
    after which the file has no observation of that icao (the ones after
    it have no icao, or another string): when the run answers OK, the
    aircraft table holds for this icao exactly one row, with the
    registration and the type of that observation, NULL where it has
    none, whatever earlier files and earlier observations said. *)
Theorem last_observation_wins (w : world) (d : db)
    (earlier : list (string * file)) (name : string) (payload : list (string * json))
    (before after : list json) (a : list (string * json)) (k : string) :
  sorted_glob (raw_day_dir w) = earlier ++ [(name, Some (JDict payload))] ->
  get_default payload "aircraft" (JList []) = JList (before ++ JDict a :: after) ->
  get a "hex" = JStr k -> k <> "" ->
  (forall a', JDict a' ∈ after ->
     get a' "hex" = JNull \/ exists h, get a' "hex" = JStr h /\ h <> k) ->
  (S1.prepare_data cv w).1 = Ok "OK" ->
  prepared_db (S1.prepare_data cv w).2 = Some d ->
  exists vr vt,
    bind (get a "r") = Ok vr /\ bind (get a "t") = Ok vt /\
    let row := {| icao := Some k; registration := text_affinity cv vr;
                  type := text_affinity cv vt |} in
    row ∈ aircraft d /\
    forall r, r ∈ aircraft d -> icao r = Some k -> r = row.
Proof.
  intros Hglob Hlist Hhex Hk Hafter Hok Hd.
  pose proof (PrepareFacts.prepare_NoDup cv w d Hd) as Hnd.
  assert (for_each (S1.process_file cv) (sorted_glob (raw_day_dir w)) empty_db = Ok d)
    as Hrun.
  { revert Hok Hd.
    rewrite GrowthFacts.prepare_data_loop by (rewrite Hglob; by destruct earlier).
    destruct (for_each _ _ _); simpl; [by intros _ [= ->] | done]. }
  rewrite Hglob, GrowthFacts.for_each_app in Hrun.
  apply PrepareFacts.bind_Ok_inv in Hrun as (d0 & _ & Hlast).
  cbn [for_each] in Hlast.
  apply PrepareFacts.bind_Ok_inv in Hlast as (s3 & Hfile & [= ->]).
  unfold S1.process_file in Hfile. cbn [snd] in Hfile. rewrite Hlist in Hfile.
  apply PrepareFacts.bind_Ok_inv in Hfile as (l & [= <-] & Hloop).
  rewrite GrowthFacts.for_each_app in Hloop.
  apply PrepareFacts.bind_Ok_inv in Hloop as (s1 & _ & Hloop).
  cbn [for_each] in Hloop.
  apply PrepareFacts.bind_Ok_inv in Hloop as (s2 & Hstep & Hrest).
  destruct (observation_sets _ _ _ _ _ Hhex Hk Hstep) as (vr & vt & Hvr & Hvt & Hrow).
  exists vr, vt. split; [done |]. split; [done |].
  assert ({| icao := Some k; registration := text_affinity cv vr;
             type := text_affinity cv vt |} ∈ aircraft d) as Hin.
  { revert Hrest.
    apply (PrepareFacts.for_each_invariant_elem
             (fun s => {| icao := Some k; registration := text_affinity cv vr;
                          type := text_affinity cv vt |} ∈ aircraft s)); [| done].
    intros o t t' Ho Ht Hrun. destruct o as [| | | | | |a'| |]; try done.
    exact (observation_keeps _ a' t t' k _ (Hafter a' Ho) Hrun Ht eq_refl). }
  split; [done |]. intros r Hr Hicao.
  by apply (NoDup_omap_eq icao (aircraft d) _ _ k).
Qed.

End WithConversions.

Lemma last_observation_wins_witness :
  sorted_glob (raw_day_dir Samples.world2) =
    [("000000Z.json.gz", Some Samples.snapshot1)] ++
    [("000005Z.json.gz",
      Some (JDict [ ("now", JReal 1698796805);
                    ("aircraft", JList [
                       JDict [ ("hex", JStr "abc1"); ("lat", JReal (404 # 10));
                               ("lon", JReal (- 36 # 10));
                               ("emergency", JStr "general") ] ]) ]))] /\
  (S1.prepare_data Samples.conversions0 Samples.world2).1 = Ok "OK" /\
  exists d,
    prepared_db (S1.prepare_data Samples.conversions0 Samples.world2).2 = Some d /\
    {| icao := Some "abc1"; registration := None; type := None |} ∈ aircraft d.
Proof.
  pose (a := [ ("hex", JStr "abc1"); ("lat", JReal (404 # 10));
               ("lon", JReal (- 36 # 10)); ("emergency", JStr "general") ]).
  pose (payload := [ ("now", JReal 1698796805); ("aircraft", JList [JDict a]) ]).
  assert (sorted_glob (raw_day_dir Samples.world2) =
    [("000000Z.json.gz", Some Samples.snapshot1)] ++
    [("000005Z.json.gz", Some (JDict payload))]) as Hglob.
  { vm_compute. reflexivity. }
  assert (get_default payload "aircraft" (JList []) = JList ([] ++ JDict a :: []))
    as Hlist by reflexivity.
  assert (get a "hex" = JStr "abc1") as Hhex by reflexivity.
  assert ("abc1" <> "") as Hk by discriminate.
  assert (forall a', JDict a' ∈ @nil json ->
    get a' "hex" = JNull \/ exists h, get a' "hex" = JStr h /\ h <> "abc1") as Hafter.
  { intros a' Ha'. inversion Ha'. }
  assert ((S1.prepare_data Samples.conversions0 Samples.world2).1 = Ok "OK") as Hok.
  { vm_compute. reflexivity. }
  assert (exists d,
    prepared_db (S1.prepare_data Samples.conversions0 Samples.world2).2 = Some d)
    as [d Hd].
  { eexists. vm_compute. reflexivity. }
  split; [exact Hglob |]. split; [exact Hok |]. exists d. split; [exact Hd |].
  destruct (last_observation_wins Samples.conversions0 Samples.world2 d
              [("000000Z.json.gz", Some Samples.snapshot1)] "000005Z.json.gz" payload
              [] [] a "abc1" Hglob Hlist Hhex Hk Hafter Hok Hd)
    as (vr & vt & Hvr & Hvt & Hrow & _).
  change (Ok SNull = Ok vr) in Hvr. change (Ok SNull = Ok vt) in Hvt.
  injection Hvr as <-. injection Hvt as <-. exact Hrow.
Defined.

End LastWriteFacts.
